(** * cdnjs tools: the Workers KV write path

    A shallow embedding of
    - [cmd/kv]: the three-level index (root / package / version documents),
      the sorted-list maintenance and the bulk writer [encodeAndWriteKVBulk];
    - [kv/aggregate.go]: [UpdateAggregatedMetadata] and its two helpers;
    together with the properties that the design document states about them.

    Go values are modelled as follows.  [[]byte] is [list byte], [string] is
    [string], [int64] is [Z] with the wrap-around of two's complement written
    out in [Int64], a pointer that may be nil is an [option], and a Go result
    pair [(v, err)] is a pair whose second component is an [option error].
    Calls that leave the process (Cloudflare API, file system) are nodes of a
    program tree [Prog]; a [Handler] plays the outside world and [run] records
    every request that was issued, so that "no write was attempted" is a
    statement about the recorded log. *)

From stdpp Require Import base list strings sorting.
From Stdlib Require Import ZArith Lia.
From Stdlib.Strings Require Import Ascii Byte.
From Equations Require Import Equations.

Local Open Scope Z_scope.

(** ** Machine integers *)

Module Int64.
Definition min_int : Z := - 2 ^ 63.
Definition max_int : Z := 2 ^ 63 - 1.

(** Reduction of a mathematical integer to its [int64] representative. *)
Definition wrap (z : Z) : Z := (z + 2 ^ 63) mod 2 ^ 64 - 2 ^ 63.

(** Go's [+] on [int64]. *)
Definition add (a b : Z) : Z := wrap (a + b).
End Int64.

(** ** [encoding/base64]: the standard alphabet with padding *)

Module base64.
Definition encodeStd : string :=
  "ABCDEFGHIJKLMNOPQRSTUVWXYZabcdefghijklmnopqrstuvwxyz0123456789+/".

Definition padChar : ascii := "="%char.

(** The character of a 6-bit group. *)
Definition sextet (val : N) (shift : N) : ascii :=
  let i := N.land (N.shiftr val shift) 63 in
  match String.get (N.to_nat i) encodeStd with
  | Some c => c
  | None => padChar
  end.

Definition group (a b c : N) : N :=
  N.lor (N.lor (N.shiftl a 16) (N.shiftl b 8)) c.

(** [StdEncoding.EncodeToString]: three input bytes give four characters,
    a final group of one or two bytes is padded with [=]. *)
Fixpoint EncodeToString (src : list byte) : string :=
  match src with
  | [] => EmptyString
  | [a] =>
      let val := group (Byte.to_N a) 0 0 in
      String (sextet val 18) (String (sextet val 12)
        (String padChar (String padChar EmptyString)))
  | [a; b] =>
      let val := group (Byte.to_N a) (Byte.to_N b) 0 in
      String (sextet val 18) (String (sextet val 12)
        (String (sextet val 6) (String padChar EmptyString)))
  | a :: b :: c :: rest =>
      let val := group (Byte.to_N a) (Byte.to_N b) (Byte.to_N c) in
      String (sextet val 18) (String (sextet val 12)
        (String (sextet val 6) (String (sextet val 0) (EncodeToString rest))))
  end.

(** [EncodedLen] of the padded encoding. *)
Definition EncodedLen (n : nat) : nat := ((n + 2) / 3 * 4)%nat.
End base64.

(** ** Errors and panics *)

(** Go's [error] interface, by dynamic type: the [kv] package's
    [KeyNotFoundError], and every other error (network, authentication,
    [fmt.Errorf]) carrying its message. *)
Inductive error : Type :=
| KeyNotFoundError (key : string)
| errorString (msg : string).

Global Instance error_eq_dec : EqDecision error.
Proof. solve_decision. Defined.

(** ** The Cloudflare client types the code uses *)

Module cloudflare.
Record WorkersKVPair : Type := {
  Key : string;
  Value : string;
  Base64 : bool
}.

Record Response : Type := {
  Success : bool;
  Errors : list string
}.

Global Instance WorkersKVPair_eq_dec : EqDecision WorkersKVPair.
Proof. solve_decision. Defined.
End cloudflare.

(** What a running program can pass to [panic]. *)
Inductive panic_value : Type :=
| PanicOversized (key : string) (size : Z)
| PanicError (e : error)
| PanicResponse (r : cloudflare.Response)
| PanicNilDereference.


(** A Go call that returns [(v, err)] and whose value is only looked at when
    [err == nil]. *)
Inductive result (A : Type) : Type :=
| Ok (a : A)
| Err (e : error).
Arguments Ok {A} a.
Arguments Err {A} e.

(** ** Settings

    [util.MaxFileSize] is a constant of the [util] package, [maxBulkPayload]
    a package variable of [cmd/kv] (initialised to [1e8], see
    [defaultMaxBulkPayload]); the namespace identifiers come from the
    environment.  They are gathered in one record that every operation
    receives. *)
Record Config : Type := {
  MaxFileSize : Z;
  maxBulkPayload : Z;
  namespaceID : string;
  aggregatedMetadataNamespaceID : string
}.

Definition defaultMaxBulkPayload : Z := 100000000.

(** The source's comment on the split: "util.MaxFileSize must be less than
    maxBulkPayload".  Both are sizes; the last bound keeps the running total
    of the packing loop inside [int64]. *)
Definition valid_config (cfg : Config) : Prop :=
  0 ≤ MaxFileSize cfg < maxBulkPayload cfg ∧ maxBulkPayload cfg < 2 ^ 62.

(** ** Requests to the outside world *)

(** Modelled from the spec: [kv.ConsumableWriteRequest], declared in a file
    of [kv] that is not part of the sources verified here; the write item of
    the spec, with the three fields that [aggregate.go] fills in. *)
Record ConsumableWriteRequest : Type := {
  req_Name : string;
  req_Key : string;
  req_Value : list byte
}.

Inductive Request : Type :=
| ReadWorkersKV (ns key : string)
| WriteWorkersKVBulk (ns : string) (kvs : list cloudflare.WorkersKVPair)
| ReadFile (filename : string)
| CalculateFileSRI (filename : string)
| KVRead (key ns : string)
| KVEncodeAndWriteKVBulk (kvs : list ConsumableWriteRequest) (ns : string)
    (metadata : bool).

(** What each request answers, as the Go signatures have it. *)
Definition Reply (q : Request) : Type :=
  match q with
  | ReadWorkersKV _ _ => (list byte * option error)%type
  | WriteWorkersKVBulk _ _ => (cloudflare.Response * option error)%type
  | ReadFile _ => (list byte * option error)%type
  | CalculateFileSRI _ => string
  | KVRead _ _ => (list byte * option error)%type
  | KVEncodeAndWriteKVBulk _ _ _ => (list string * option error)%type
  end.

Definition is_write (q : Request) : bool :=
  match q with
  | WriteWorkersKVBulk _ _ | KVEncodeAndWriteKVBulk _ _ _ => true
  | _ => false
  end.

(** ** Programs *)

Inductive Prog (R : Type) : Type :=
| Ret (r : R)
| Panic (v : panic_value)
| Call (q : Request) (k : Reply q → Prog R).
Arguments Ret {R} r.
Arguments Panic {R} v.
Arguments Call {R} q k.

Fixpoint bind {A B : Type} (m : Prog A) (f : A → Prog B) : Prog B :=
  match m with
  | Ret a => f a
  | Panic v => Panic v
  | Call q k => Call q (λ x, bind (k x) f)
  end.

Global Instance Prog_ret : MRet Prog := @Ret.
Global Instance Prog_bind : MBind Prog := λ A B f m, bind m f.

(** Issue one request and return its answer. *)
Definition call (q : Request) : Prog (Reply q) := Call q Ret.

(** A [for _, x := range l] loop whose body updates the loop state. *)
Fixpoint forEach {A S : Type} (l : list A) (body : S → A → Prog S) (s : S)
  : Prog S :=
  match l with
  | [] => Ret s
  | x :: l' => s' ← body s x; forEach l' body s'
  end.

(** The outside world: a state and an answer to every request. *)
Record Handler (W : Type) : Type := {
  handle : ∀ q : Request, W → Reply q * W
}.
Arguments handle {W} _ q _.

Inductive Outcome (R : Type) : Type :=
| Returned (r : R)
| Panicked (v : panic_value).
Arguments Returned {R} r.
Arguments Panicked {R} v.

(** Run a program against a world; the third component lists the requests
    issued, oldest first. *)
Fixpoint run {W R : Type} (h : Handler W) (p : Prog R) (w : W)
  : Outcome R * W * list Request :=
  match p with
  | Ret r => (Returned r, w, [])
  | Panic v => (Panicked v, w, [])
  | Call q k =>
      let '(x, w') := handle h q w in
      let '(o, w'', log) := run h (k x) w' in
      (o, w'', q :: log)
  end.

Definition log_of {W R : Type} (x : Outcome R * W * list Request)
  : list Request := x.2.
Definition writes_of (log : list Request) : list Request :=
  filter (λ q, is_write q = true) log.

(** ** [util] *)

Module util.
(** Modelled from the spec: [util.Check] of the [util] package, which is
    not part of the sources verified here.  The spec treats the failures it
    guards (serialization, a rejected batch) as fatal: a non-nil error
    panics with that error. *)
Definition Check (err : option error) : Prog unit :=
  match err with
  | Some e => Panic (PanicError e)
  | None => Ret ()
  end.
End util.

(** ** [encoding/json] and [compress], as far as the code calls them *)

Class JSON (A : Type) : Type := {
  json_Marshal : A → result (list byte);
  json_Unmarshal : list byte → result A
}.

Class Compress : Type := {
  Gzip9Bytes : list byte → list byte;
  UnGzip : list byte → result (list byte)
}.

(** [path.Join] *)
Class Path : Type := {
  path_Join : list string → string
}.

(** ** [sort]: binary search *)

Module sort.
(** [sort.Search]: the smallest index [i] in [[0, n)] at which [f i] holds,
    assuming [f] is false on a prefix and true on the rest; [n] if there is
    none.  The arguments [i] and [j] are the loop variables.  Indices of a
    slice are below [2^63], so the midpoint [int(uint(i+j) >> 1)] is
    [(i + j) / 2]. *)
Equations? Search_loop (f : nat → bool) (i j : nat) : nat
  by wf (j - i)%nat lt :=
  Search_loop f i j with decide (i < j)%nat => {
    | right _ => i
    | left _ with f ((i + j) / 2)%nat => {
      | false => Search_loop f ((i + j) / 2 + 1)%nat j
      | true => Search_loop f i ((i + j) / 2)%nat
      }
  }.
Proof.
  all: change (Nat.divmod (i + j) 1 0 1).1 with ((i + j) / 2)%nat;
    pose proof (Nat.div_mod_eq (i + j) 2);
    pose proof (Nat.mod_upper_bound (i + j) 2 ltac:(lia)); lia.
Qed.

Definition Search (n : nat) (f : nat → bool) : nat := Search_loop f 0 n.

(** [sort.SearchStrings]: the predicate is [a[i] >= x] on Go strings, which
    compare byte by byte.  [Search] only probes indices below [len(a)]. *)
Definition SearchStrings (a : list string) (x : string) : nat :=
  Search (length a)
    (λ i, match a !! i with
          | Some y => bool_decide (String.le x y)
          | None => false
          end).
End sort.

(** ** [cmd/kv]: the index builder and the bulk writer *)

Module cmdkv.
Definition rootKey : string := "/".

Record Root : Type := { Packages : list string }.
Record Package : Type := { Versions : list string }.
Record File : Type := { Name : string; SRI : string }.
Record Version : Type := { Files : list File }.
Record KV : Type := { Key : string; Value : list byte }.

Definition encodeToBase64 (bytes : list byte) : string :=
  base64.EncodeToString bytes.

Definition readKV (cfg : Config) (key : string)
  : Prog (list byte * option error) :=
  call (ReadWorkersKV (namespaceID cfg) key).

(** The three variables of the packing loop of [encodeAndWriteKVBulk]. *)
Record packing : Type := {
  bulkWrites : list (list cloudflare.WorkersKVPair);
  bulkWrite : list cloudflare.WorkersKVPair;
  totalSize : Z
}.

Definition encodedPair (kv : KV) : cloudflare.WorkersKVPair :=
  {| cloudflare.Key := Key kv;
     cloudflare.Value := encodeToBase64 (Value kv);
     cloudflare.Base64 := true |}.

(** One iteration of [for _, kv := range kvs] (lines 196-218). *)
Definition packOne (cfg : Config) (st : packing) (kv : KV) : Prog packing :=
  let size := Z.of_nat (length (Value kv)) in
  if bool_decide (size > MaxFileSize cfg) then
    Panic (PanicOversized (Key kv) size)
  else
    let encoded := encodeToBase64 (Value kv) in
    let encodedSize := Z.of_nat (String.length encoded) in
    let st :=
      if bool_decide (Int64.add (totalSize st) encodedSize > maxBulkPayload cfg)
      then {| bulkWrites := bulkWrites st ++ [bulkWrite st];
              bulkWrite := [];
              totalSize := 0 |}
      else st in
    Ret {| bulkWrites := bulkWrites st;
           bulkWrite := bulkWrite st ++
             [ {| cloudflare.Key := Key kv;
                  cloudflare.Value := encoded;
                  cloudflare.Base64 := true |} ];
           totalSize := Int64.add (totalSize st) encodedSize |}.

(** One iteration of [for _, b := range bulkWrites] (lines 220-227). *)
Definition writeOne (cfg : Config) (_ : unit)
    (b : list cloudflare.WorkersKVPair) : Prog unit :=
  '(r, err) ← call (WriteWorkersKVBulk (namespaceID cfg) b);
  _ ← util.Check err;
  if cloudflare.Success r then Ret () else Panic (PanicResponse r).

Definition encodeAndWriteKVBulk (cfg : Config) (kvs : list KV) : Prog unit :=
  st ← forEach kvs (packOne cfg)
         {| bulkWrites := []; bulkWrite := []; totalSize := 0 |};
  let bulkWrites := bulkWrites st ++ [bulkWrite st] in
  forEach bulkWrites (writeOne cfg) ().

(** Sizes the packing loop computes: [int64(len(kv.Value))] and
    [int64(len(encoded))]; and the aggregate encoded size of a batch. *)
Definition rawSize (kv : KV) : Z := Z.of_nat (length (Value kv)).
Definition encodedSize (kv : KV) : Z :=
  Z.of_nat (String.length (encodeToBase64 (Value kv))).
Definition bulkSize (b : list cloudflare.WorkersKVPair) : Z :=
  foldr (λ p acc, Z.of_nat (String.length (cloudflare.Value p)) + acc) 0 b.

(** What the packing loop maintains: closed batches are non-empty and
    within the aggregate ceiling, and [totalSize] is the size of the open
    batch, itself within the ceiling. *)
Definition pack_inv (cfg : Config) (st : packing) : Prop :=
  Forall (λ b, bulkSize b ≤ maxBulkPayload cfg ∧ b ≠ []) (bulkWrites st)
  ∧ bulkSize (bulkWrite st) = totalSize st
  ∧ totalSize st ≤ maxBulkPayload cfg.

(** A world in which every bulk write to the namespace succeeds. *)
Definition accepts_writes {W : Type} (h : Handler W) (cfg : Config) : Prop :=
  ∀ b w, ∃ r w',
    handle h (WriteWorkersKVBulk (namespaceID cfg) b) w = ((r, None), w')
    ∧ cloudflare.Success r = true.

(** perform binary search, if not present, add it in the correct index.

    The result is given as a value.  In Go the last [append] may write into
    the backing array of [sorted]; both callers overwrite their only
    reference to [sorted] with the result, so nothing observes it. *)
Definition insertToSortedListIfNotPresent (sorted : list string) (s : string)
  : list string :=
  let i := sort.SearchStrings sorted s in
  if bool_decide (i = length sorted) then sorted ++ [s]
  else if bool_decide (sorted !! i = Some s) then sorted
  else take i sorted ++ ([s] ++ drop i sorted).

Section index_builder.
Context {jsonRoot : JSON Root} {jsonPackage : JSON Package}
  {jsonVersion : JSON Version} {pathLib : Path}.

(** [v, err := json.Marshal(x); util.Check(err)] *)
Definition marshalChecked {A : Type} `{!JSON A} (x : A) : Prog (list byte) :=
  match json_Marshal x with
  | Ok v => Ret v
  | Err e => Panic (PanicError e)
  end.

(** [util.Check(json.Unmarshal(bytes, &x))] *)
Definition unmarshalChecked {A : Type} `{!JSON A} (bytes : list byte)
  : Prog A :=
  match json_Unmarshal bytes with
  | Ok x => Ret x
  | Err e => Panic (PanicError e)
  end.

Definition updateRoot (cfg : Config) (pkg : string) : Prog KV :=
  let key := rootKey in
  '(bytes, err) ← readKV cfg key;
  r ← match err with
      | Some _ =>
          (* assume key is not found (could also be auth error) *)
          Ret {| Packages := [pkg] |}
      | None =>
          r ← unmarshalChecked bytes;
          Ret {| Packages := insertToSortedListIfNotPresent (Packages r) pkg |}
      end;
  v ← marshalChecked r;
  Ret {| Key := key; Value := v |}.

Definition updatePackage (cfg : Config) (pkg version : string) : Prog KV :=
  let key := pkg in
  '(bytes, err) ← readKV cfg key;
  p ← match err with
      | Some _ =>
          (* assume key is not found (could also be auth error) *)
          Ret {| Versions := [version] |}
      | None =>
          p ← unmarshalChecked bytes;
          Ret {| Versions :=
                   insertToSortedListIfNotPresent (Versions p) version |}
      end;
  v ← marshalChecked p;
  Ret {| Key := key; Value := v |}.

Definition updateVersion (pkg version : string) (files : list File)
  : Prog KV :=
  let key := path_Join [pkg; version] in
  v ← marshalChecked {| Files := files |};
  Ret {| Key := key; Value := v |}.

(** The body of the loop of [updateFiles]; the two slices are filled index
    by index in the source, which is appending in order. *)
Definition updateFile (baseKeyPath fullPathToVersion : string)
    (acc : list KV * list File) (fromVersionPath : string)
  : Prog (list KV * list File) :=
  let fullPath := path_Join [fullPathToVersion; fromVersionPath] in
  '(bytes, err) ← call (ReadFile fullPath);
  _ ← util.Check err;
  sri ← call (CalculateFileSRI fullPath);
  Ret (acc.1 ++ [ {| Key := path_Join [baseKeyPath; fromVersionPath];
                     Value := bytes |} ],
       acc.2 ++ [ {| Name := fromVersionPath; SRI := sri |} ]).

Definition updateFiles (pkg version fullPathToVersion : string)
    (fromVersionPaths : list string) : Prog (list KV * list File) :=
  let baseKeyPath := path_Join [pkg; version] in
  forEach fromVersionPaths (updateFile baseKeyPath fullPathToVersion) ([], []).

Definition updateKV (cfg : Config) (pkg version fullPathToVersion : string)
    (fromVersionPaths : list string) : Prog unit :=
  '(pairs, files) ←
    updateFiles pkg version fullPathToVersion fromVersionPaths;
  let kvs := pairs in
  v ← updateVersion pkg version files;
  let kvs := kvs ++ [v] in
  p ← updatePackage cfg pkg version;
  let kvs := kvs ++ [p] in
  r ← updateRoot cfg pkg;
  let kvs := kvs ++ [r] in
  encodeAndWriteKVBulk cfg kvs.
End index_builder.
End cmdkv.

(** ** [packages]: the package descriptor *)

Module packages.
(** Modelled from the spec: [packages.Asset], declared in the [packages]
    package, which is not part of the sources verified here; "each asset
    entry corresponds to one version and carries its own file list". *)
Record Asset : Type := {
  Asset_Version : string;
  Asset_Files : list string
}.

(** Modelled from the spec: [packages.Package], declared in the [packages]
    package like [Asset]; "a package-descriptor-shaped document extended
    with an assets list" and "a top-level version field".  [Name] and [Version] are
    [*string] in [aggregate.go].  [Fields] stands for the rest of the
    descriptor (description, keywords, repository, ...), which
    [aggregate.go] neither reads nor writes. *)
Record Package : Type := {
  Name : option string;
  Version : option string;
  Assets : list Asset;
  Fields : list (string * string)
}.

Global Instance Asset_eq_dec : EqDecision Asset.
Proof. solve_decision. Defined.
Global Instance Package_eq_dec : EqDecision Package.
Proof. solve_decision. Defined.

Definition set_Assets (p : Package) (assets : list Asset) : Package :=
  {| Name := Name p; Version := Version p; Assets := assets;
     Fields := Fields p |}.

Definition set_Version (p : Package) (v : option string) : Package :=
  {| Name := Name p; Version := v; Assets := Assets p; Fields := Fields p |}.

(** Modelled from the spec: the method [HasVersion] of [packages.Package],
    whose source is not part of the sources verified here.  The spec keys
    [assets] by version string: a document "contains an entry for
    newVersion" when one of its assets carries that version. *)
Definition HasVersion (p : Package) (version : string) : bool :=
  bool_decide (version ∈ Asset_Version <$> Assets p).

(** Modelled from the spec: the loop of [UpdateVersion], whose source is
    missing like that of [HasVersion]: "replace that entry in place with
    newAssetRecord". *)
Fixpoint replaceVersion (assets : list Asset) (version : string)
    (newAssets : Asset) : list Asset :=
  match assets with
  | [] => []
  | a :: rest =>
      if decide (Asset_Version a = version) then newAssets :: rest
      else a :: replaceVersion rest version newAssets
  end.

(** Modelled from the spec: the method [UpdateVersion] of
    [packages.Package], whose source is missing as well; it replaces the
    entry of [version] and leaves every other field alone. *)
Definition UpdateVersion (p : Package) (version : string) (newAssets : Asset)
  : Package :=
  set_Assets p (replaceVersion (Assets p) version newAssets).

(** The entries of a document that belong to one version. *)
Definition entriesOf (p : Package) (version : string) : list Asset :=
  filter (λ a, Asset_Version a = version) (Assets p).
End packages.

(** ** [kv/aggregate.go] *)

Module kv.
Import packages.

(** [*p] for a [*string]. *)
Definition deref (p : option string) : Prog string :=
  match p with
  | Some s => Ret s
  | None => Panic PanicNilDereference
  end.

Section aggregate.
Context {json : JSON Package} {gzip : Compress}.

(** Reads an aggregated metadata entry in KV, ungzipping it and
    unmarshalling it into a [*packages.Package].  [compress.UnGzip] and
    [util.Check] panic on failure. *)
Definition getAggregatedMetadata (cfg : Config) (key : string)
  : Prog (option Package * option error) :=
  '(gzipBytes, err) ← call (KVRead key (aggregatedMetadataNamespaceID cfg));
  match err with
  | Some e => Ret (None, Some e)
  | None =>
      match UnGzip gzipBytes with
      | Err e => Panic (PanicError e)
      | Ok raw =>
          match json_Unmarshal raw with
          | Err e => Panic (PanicError e)
          | Ok p => Ret (Some p, None)
          end
      end
  end.

(** Writes an aggregated metadata entry to KV, gzipping the bytes. *)
Definition writeAggregatedMetadata (cfg : Config) (p : Package)
  : Prog (list string * option error) :=
  match json_Marshal p with
  | Err _ =>
      name ← deref (Name p);
      Ret ([], Some (errorString
                       ("failed to marshal KV package JSON: " +:+ name)))
  | Ok v =>
      name ← deref (Name p);
      call (KVEncodeAndWriteKVBulk
              [ {| req_Name := name; req_Key := name;
                   req_Value := Gzip9Bytes v |} ]
              (aggregatedMetadataNamespaceID cfg) true)
  end.

(** Lines 27-52 of [UpdateAggregatedMetadata]: what happens to [aggPkg]
    between the read and the write.  [Err e] is the early
    [return nil, false, err]; otherwise the document to write and [found]. *)
Definition mergeAssets (aggPkg : Package) (err : option error)
    (newVersion : string) (newAssets : Asset) : result (Package * bool) :=
  match err with
  | Some (KeyNotFoundError _) =>
      (* key not found (new package) *)
      let aggPkg := set_Assets aggPkg [newAssets] in
      Ok (set_Version aggPkg (Some newVersion), false)
  | Some e => Err e
  | None =>
      let aggPkg :=
        if negb (HasVersion aggPkg newVersion)
        then set_Assets aggPkg (Assets aggPkg ++ [newAssets])
        else UpdateVersion aggPkg newVersion newAssets in
      Ok (set_Version aggPkg (Some newVersion), true)
  end.

(** UpdateAggregatedMetadata updates a package's KV entry for aggregated
    metadata.  Returns the keys written to KV, whether the existing entry
    was found, and if there were any errors. *)
Definition UpdateAggregatedMetadata (cfg : Config) (pkg : Package)
    (newVersion : string) (newAssets : Asset)
  : Prog (list string * bool * option error) :=
  name ← deref (Name pkg);
  '(aggPkg, err) ← getAggregatedMetadata cfg name;
  let aggPkg := default pkg aggPkg in
  match mergeAssets aggPkg err newVersion newAssets with
  | Err e => Ret ([], false, Some e)
  | Ok (aggPkg, found) =>
      '(successfulWrites, err) ← writeAggregatedMetadata cfg aggPkg;
      Ret (successfulWrites, found, err)
  end.
End aggregate.
End kv.

(** ** Worlds used in the examples *)

Module sample.
(** A stateless world that answers every read with [readReply] and every
    bulk write with [writeReply]. *)
Definition world (readReply : list byte * option error)
    (writeReply : cloudflare.Response * option error) : Handler unit :=
  {| handle q w :=
       (match q return Reply q with
        | ReadWorkersKV _ _ => readReply
        | WriteWorkersKVBulk _ _ => writeReply
        | ReadFile _ => ([], None)
        | CalculateFileSRI _ => EmptyString
        | KVRead _ _ => readReply
        | KVEncodeAndWriteKVBulk kvs _ _ => (req_Key <$> kvs, None)
        end, w) |}.

Definition accepted : cloudflare.Response * option error :=
  ({| cloudflare.Success := true; cloudflare.Errors := [] |}, None).

Definition notFound (key : string) : list byte * option error :=
  ([], Some (KeyNotFoundError key)).

Definition failing (msg : string) : list byte * option error :=
  ([], Some (errorString msg)).

(** The scenario of the design document: 1000 bytes per item, 2500 bytes
    per bulk request. *)
Definition smallConfig : Config :=
  {| MaxFileSize := 1000; maxBulkPayload := 2500;
     namespaceID := "files"; aggregatedMetadataNamespaceID := "aggregated" |}.

(** The settings of the tool itself: [maxBulkPayload] as [cmd/kv] sets it,
    and the 10 MiB per file that the checker's tests print for
    [util.MaxFileSize]. *)
Definition productionConfig : Config :=
  {| MaxFileSize := 10485760; maxBulkPayload := defaultMaxBulkPayload;
     namespaceID := "files"; aggregatedMetadataNamespaceID := "aggregated" |}.

(** An item of [n] zero bytes. *)
Definition item (key : string) (n : nat) : cmdkv.KV :=
  {| cmdkv.Key := key; cmdkv.Value := replicate n "000"%byte |}.

(** Stand-ins for [encoding/json] and [compress] in the examples: a document
    is written as the bytes of the given text, and the examples never decode
    one. *)
Definition writeOnlyJSON {A : Type} (text : A → string) : JSON A :=
  {| json_Marshal x := Ok (String.list_byte_of_string (text x));
     json_Unmarshal _ := Err (errorString "not decoded in the examples") |}.

Definition storedCompress : Compress :=
  {| Gzip9Bytes b := b; UnGzip b := Ok b |}.

Fixpoint joinWith (sep : string) (l : list string) : string :=
  match l with
  | [] => EmptyString
  | [e] => e
  | e :: rest => e +:+ sep +:+ joinWith sep rest
  end.

Definition joinPath : Path := {| path_Join := joinWith "/" |}.

Definition commaList : list string → string := joinWith ",".

Definition rootJSON : JSON cmdkv.Root :=
  writeOnlyJSON (λ r, "packages:" +:+ commaList (cmdkv.Packages r)).
Definition versionsJSON : JSON cmdkv.Package :=
  writeOnlyJSON (λ p, "versions:" +:+ commaList (cmdkv.Versions p)).
Definition filesJSON : JSON cmdkv.Version :=
  writeOnlyJSON (λ v, "files:" +:+ commaList (cmdkv.Name <$> cmdkv.Files v)).

Definition packageText (p : packages.Package) : string :=
  default EmptyString (packages.Name p) +:+ "@"
  +:+ default EmptyString (packages.Version p).

(** The descriptor of a package before any version was aggregated. *)
Definition jquery : packages.Package :=
  {| packages.Name := Some "jquery"; packages.Version := None;
     packages.Assets := []; packages.Fields := [("license", "MIT")] |}.

Definition asset (version : string) (files : list string) : packages.Asset :=
  {| packages.Asset_Version := version; packages.Asset_Files := files |}.
End sample.

(** ** Notions used to state the further properties *)

(** The batches of the bulk writes in a log of requests, oldest first. *)
Definition submitted (log : list Request)
  : list (list cloudflare.WorkersKVPair) :=
  omap (λ q, match q with
             | WriteWorkersKVBulk _ b => Some b
             | _ => None
             end) log.

(** Encoded size of one pair, as the packing loop adds it up. *)
Definition pairSize (p : cloudflare.WorkersKVPair) : Z :=
  Z.of_nat (String.length (cloudflare.Value p)).

(** A list of batches in which every batch but the first starts with a pair
    that did not fit into the batch before it. *)
Fixpoint greedy (ceiling : Z) (l : list (list cloudflare.WorkersKVPair))
  : Prop :=
  match l with
  | b :: (b' :: _) as rest =>
      match b' with
      | p :: _ => cmdkv.bulkSize b + pairSize p > ceiling
      | [] => False
      end ∧ greedy ceiling rest
  | _ => True
  end.


Module sample_more.
(** A bulk write answered without [Success]. *)
Definition refused : cloudflare.Response * option error :=
  ({| cloudflare.Success := false; cloudflare.Errors := ["10000"] |}, None).

(** A small codec that does decode, for the examples that read a stored
    index document back: one name per line. *)
Definition newline : byte := "010"%byte.

Fixpoint encodeLines (l : list string) : list byte :=
  match l with
  | [] => []
  | s :: rest => String.list_byte_of_string s ++ newline :: encodeLines rest
  end.

Fixpoint decodeLines (cur : list byte) (bs : list byte) : list string :=
  match bs with
  | [] => []
  | b :: rest =>
      if Byte.eqb b newline
      then String.string_of_list_byte (rev cur) :: decodeLines [] rest
      else decodeLines (b :: cur) rest
  end.

Definition linesRoot : JSON cmdkv.Root :=
  {| json_Marshal r := Ok (encodeLines (cmdkv.Packages r));
     json_Unmarshal bs := Ok {| cmdkv.Packages := decodeLines [] bs |} |}.

Definition linesPackage : JSON cmdkv.Package :=
  {| json_Marshal p := Ok (encodeLines (cmdkv.Versions p));
     json_Unmarshal bs := Ok {| cmdkv.Versions := decodeLines [] bs |} |}.

(** An encoder that always fails, for the examples of a document that
    cannot be marshalled. *)
Definition brokenJSON {A : Type} : JSON A :=
  {| json_Marshal _ := Err (errorString "unsupported value");
     json_Unmarshal _ := Err (errorString "unsupported value") |}.

(** A line codec for aggregated documents, for the examples that read one
    back.  Each line starts with a tag: [N] name, [V] version, [K] and [W]
    key and value of a descriptor field, [A] the version of an asset, [F] a
    file of the asset above it. *)
Definition optionalLine (tag : string) (o : option string) : string :=
  match o with
  | Some s => tag +:+ "+" +:+ s
  | None => tag +:+ "-"
  end.

Definition packageLines (p : packages.Package) : list string :=
  [optionalLine "N" (packages.Name p); optionalLine "V" (packages.Version p)]
  ++ (packages.Fields p ≫= λ kv, ["K" +:+ kv.1; "W" +:+ kv.2])
  ++ (packages.Assets p ≫= λ a,
        ("A" +:+ packages.Asset_Version a)
        :: ((λ f, "F" +:+ f) <$> packages.Asset_Files a)).

Definition optionalBody (body : string) : option string :=
  match body with
  | String "+" s => Some s
  | _ => None
  end.

Fixpoint addFile (assets : list packages.Asset) (f : string)
  : list packages.Asset :=
  match assets with
  | [] => []
  | [a] => [ {| packages.Asset_Version := packages.Asset_Version a;
                packages.Asset_Files := packages.Asset_Files a ++ [f] |} ]
  | a :: rest => a :: addFile rest f
  end.

Fixpoint packageOfLines (p : packages.Package) (key : string)
    (ls : list string) : packages.Package :=
  match ls with
  | [] => p
  | String tag body :: rest =>
      if Ascii.eqb tag "N" then
        packageOfLines
          {| packages.Name := optionalBody body;
             packages.Version := packages.Version p;
             packages.Assets := packages.Assets p;
             packages.Fields := packages.Fields p |} key rest
      else if Ascii.eqb tag "V" then
        packageOfLines (packages.set_Version p (optionalBody body)) key rest
      else if Ascii.eqb tag "K" then packageOfLines p body rest
      else if Ascii.eqb tag "W" then
        packageOfLines
          {| packages.Name := packages.Name p;
             packages.Version := packages.Version p;
             packages.Assets := packages.Assets p;
             packages.Fields := packages.Fields p ++ [(key, body)] |} key rest
      else if Ascii.eqb tag "A" then
        packageOfLines
          (packages.set_Assets p
             (packages.Assets p
              ++ [ {| packages.Asset_Version := body;
                      packages.Asset_Files := [] |} ])) key rest
      else if Ascii.eqb tag "F" then
        packageOfLines
          (packages.set_Assets p (addFile (packages.Assets p) body)) key rest
      else packageOfLines p key rest
  | EmptyString :: rest => packageOfLines p key rest
  end.

Definition linesAggregated : JSON packages.Package :=
  {| json_Marshal p := Ok (encodeLines (packageLines p));
     json_Unmarshal bs :=
       Ok (packageOfLines
             {| packages.Name := None; packages.Version := None;
                packages.Assets := []; packages.Fields := [] |}
             EmptyString (decodeLines [] bs)) |}.

(** The aggregated document of jquery after version 3.5.0 was ingested,
    and its stored bytes under the line codec. *)
Definition jquery350 : packages.Package :=
  {| packages.Name := Some "jquery"; packages.Version := Some "3.5.0";
     packages.Assets := [sample.asset "3.5.0" ["jquery.js"]];
     packages.Fields := [("license", "MIT")] |}.

Definition jquery350Bytes : list byte := encodeLines (packageLines jquery350).

(** A world whose reads all succeed with the given bytes. *)
Definition stored (bs : list byte) : list byte * option error := (bs, None).
End sample_more.

(** The requests that [updateFiles] makes, path by path: the file is read,
    then its digest is computed. *)
Definition fileRequests {pathLib : Path} (fullPathToVersion : string)
    (paths : list string) : list Request :=
  paths ≫= λ p, [ReadFile (path_Join [fullPathToVersion; p]);
                 CalculateFileSRI (path_Join [fullPathToVersion; p])].

(** ** Reading base64 back

    The inverse of [base64.EncodeToString] on its own output, used to show
    that no two values share an encoding. *)

Module unbase64.
(** Position of a character in the alphabet, from [i] on. *)
Fixpoint indexFrom (alphabet : string) (c : ascii) (i : N) : option N :=
  match alphabet with
  | EmptyString => None
  | String d rest =>
      if Ascii.eqb c d then Some i else indexFrom rest c (N.succ i)
  end.

Definition index (c : ascii) : option N :=
  indexFrom base64.encodeStd c 0.

(** The bytes of one group of four characters. *)
Definition decodeQuantum (c0 c1 c2 c3 : ascii) : option (list byte) :=
  v0 ← index c0;
  v1 ← index c1;
  b0 ← Byte.of_N (v0 * 4 + v1 / 16);
  if Ascii.eqb c2 base64.padChar then
    if Ascii.eqb c3 base64.padChar then Some [b0] else None
  else
    v2 ← index c2;
    b1 ← Byte.of_N (v1 mod 16 * 16 + v2 / 4);
    if Ascii.eqb c3 base64.padChar then Some [b0; b1]
    else
      v3 ← index c3;
      b2 ← Byte.of_N (v2 mod 4 * 64 + v3);
      Some [b0; b1; b2].

Fixpoint DecodeString (s : string) : option (list byte) :=
  match s with
  | EmptyString => Some []
  | String c0 (String c1 (String c2 (String c3 rest))) =>
      q ← decodeQuantum c0 c1 c2 c3;
      bs ← DecodeString rest;
      Some (q ++ bs)
  | _ => None
  end.
End unbase64.

(** ** [cmd/kv]: the maintenance entry points

    [deleteAllEntries], [insertVersionToKV] and [deleteAllAndInsert5Pkgs]
    list and delete keys and walk directories.  Their requests extend the
    ones above, and a program of the first kind runs inside them
    unchanged.  [log.Fatalf] ends the process: a third way for a run to
    end. *)

(** [os.FileInfo], as far as the code looks at it. *)
Record FileInfo : Type := { info_Name : string; info_IsDir : bool }.

(** [semver.Parse]: only its error is looked at. *)
Class SemVer : Type := { semver_Parse : string → option error }.

Inductive AdminRequest : Type :=
| Core (q : Request)
| ListWorkersKVs (ns : string)
| DeleteWorkersKV (ns key : string)
| ReadDir (dirname : string)
| ListFilesInVersion (path : string).

(** [ListWorkersKVs] answers with the stored keys: of each [StorageKey] of
    the response only [Name] is used. *)
Definition AdminReply (q : AdminRequest) : Type :=
  match q with
  | Core q => Reply q
  | ListWorkersKVs _ => (list string * option error)%type
  | DeleteWorkersKV _ _ => (cloudflare.Response * option error)%type
  | ReadDir _ => (list FileInfo * option error)%type
  | ListFilesInVersion _ => (list string * option error)%type
  end.

Inductive AdminProg (R : Type) : Type :=
| ARet (r : R)
| APanic (v : panic_value)
| AFatal (r : cloudflare.Response)
| ACall (q : AdminRequest) (k : AdminReply q → AdminProg R).
Arguments ARet {R} r.
Arguments APanic {R} v.
Arguments AFatal {R} r.
Arguments ACall {R} q k.

Fixpoint abind {A B : Type} (m : AdminProg A) (f : A → AdminProg B)
  : AdminProg B :=
  match m with
  | ARet a => f a
  | APanic v => APanic v
  | AFatal r => AFatal r
  | ACall q k => ACall q (λ x, abind (k x) f)
  end.

Global Instance AdminProg_ret : MRet AdminProg := @ARet.
Global Instance AdminProg_bind : MBind AdminProg := λ A B f m, abind m f.

Definition acall (q : AdminRequest) : AdminProg (AdminReply q) :=
  ACall q ARet.

(** A program of the first kind, run as part of a maintenance program. *)
Fixpoint lift {R : Type} (p : Prog R) : AdminProg R :=
  match p with
  | Ret r => ARet r
  | Panic v => APanic v
  | Call q k => ACall (Core q) (λ x, lift (k x))
  end.

Fixpoint aforEach {A S : Type} (l : list A) (body : S → A → AdminProg S)
    (s : S) : AdminProg S :=
  match l with
  | [] => ARet s
  | x :: l' => s' ← body s x; aforEach l' body s'
  end.

Record AdminHandler (W : Type) : Type := {
  ahandle : ∀ q : AdminRequest, W → AdminReply q * W
}.
Arguments ahandle {W} _ q _.

Inductive AdminOutcome (R : Type) : Type :=
| AReturned (r : R)
| APanicked (v : panic_value)
| AExited (r : cloudflare.Response).
Arguments AReturned {R} r.
Arguments APanicked {R} v.
Arguments AExited {R} r.

Fixpoint arun {W R : Type} (h : AdminHandler W) (p : AdminProg R) (w : W)
  : AdminOutcome R * W * list AdminRequest :=
  match p with
  | ARet r => (AReturned r, w, [])
  | APanic v => (APanicked v, w, [])
  | AFatal r => (AExited r, w, [])
  | ACall q k =>
      let '(x, w') := ahandle h q w in
      let '(o, w'', log) := arun h (k x) w' in
      (o, w'', q :: log)
  end.

Module cmdkv_admin.
(** [util.Check] in a maintenance program. *)
Definition Check (err : option error) : AdminProg unit :=
  lift (util.Check err).

Definition getKVs (cfg : Config) : AdminProg (list string) :=
  '(resp, err) ← acall (ListWorkersKVs (namespaceID cfg));
  _ ← Check err;
  ARet resp.

(** The body of the deletion loop of [deleteAllEntries]. *)
Definition deleteOne (cfg : Config) (_ : unit) (key : string)
  : AdminProg unit :=
  '(resp, err) ← acall (DeleteWorkersKV (namespaceID cfg) key);
  _ ← Check err;
  if cloudflare.Success resp then ARet () else AFatal resp.

Definition deleteAllEntries (cfg : Config) : AdminProg unit :=
  (* get all kvs *)
  resp ← getKVs cfg;
  (* make []string of keys *)
  let keys := resp in
  (* delete keys *)
  aforEach keys (deleteOne cfg) ().

Section insert.
Context {jsonRoot : JSON cmdkv.Root} {jsonPackage : JSON cmdkv.Package}
  {jsonVersion : JSON cmdkv.Version} {pathLib : Path} {semver : SemVer}.

Definition insertVersionToKV (cfg : Config)
    (pkg version fullPathToVersion : string) : AdminProg unit :=
  '(fromVersionPaths, err) ← acall (ListFilesInVersion fullPathToVersion);
  _ ← Check err;
  lift (cmdkv.updateKV cfg pkg version fullPathToVersion fromVersionPaths).

(** The body of [for _, version := range versions]. *)
Definition insertIfSemver (cfg : Config) (basePath : string) (pkg : FileInfo)
    (_ : unit) (version : FileInfo) : AdminProg unit :=
  match semver_Parse (info_Name version) with
  | None =>
      insertVersionToKV cfg (info_Name pkg) (info_Name version)
        (path_Join [basePath; info_Name pkg; info_Name version])
  | Some _ => ARet ()
  end.

(** [for i, pkg := range pkgs], from index [i] on; [if i > 2 { return }]
    leaves the function. *)
Fixpoint insertPkgs (cfg : Config) (basePath : string) (i : Z)
    (pkgs : list FileInfo) : AdminProg unit :=
  match pkgs with
  | [] => ARet ()
  | pkg :: rest =>
      if bool_decide (i > 2) then ARet ()
      else
        _ ← (if info_IsDir pkg then
               '(versions, err) ←
                 acall (ReadDir (path_Join [basePath; info_Name pkg]));
               _ ← Check err;
               aforEach versions (insertIfSemver cfg basePath pkg) ()
             else ARet ());
        insertPkgs cfg basePath (i + 1) rest
  end.

(** [basePath] is [util.GetCDNJSPackages()], read from the environment. *)
Definition deleteAllAndInsert5Pkgs (cfg : Config) (basePath : string)
  : AdminProg unit :=
  _ ← deleteAllEntries cfg;
  '(pkgs, err) ← acall (ReadDir basePath);
  _ ← Check err;
  insertPkgs cfg basePath 0 pkgs.

Definition main (cfg : Config) (basePath : string) : AdminProg unit :=
  deleteAllAndInsert5Pkgs cfg basePath.
End insert.
End cmdkv_admin.

(** The world of a maintenance program, as the programs of the first kind
    that run inside it see it. *)
Definition core_of {W : Type} (h : AdminHandler W) : Handler W :=
  {| handle q w := ahandle h (Core q) w |}.

Definition embed {R : Type} (o : Outcome R) : AdminOutcome R :=
  match o with
  | Returned r => AReturned r
  | Panicked v => APanicked v
  end.

Module sample_admin.
(** A stateless world for the maintenance programs: the store lists
    [keys], deletions are answered with [deleteReply], every directory
    holds [entries], every version holds [files], and the requests of the
    first kind are answered by [core]. *)
Definition world (core : Handler unit) (keys : list string)
    (deleteReply : cloudflare.Response * option error)
    (entries : list FileInfo) (files : list string) : AdminHandler unit :=
  {| ahandle q w :=
       (match q return AdminReply q with
        | Core q => (handle core q w).1
        | ListWorkersKVs _ => (keys, None)
        | DeleteWorkersKV _ _ => deleteReply
        | ReadDir _ => (entries, None)
        | ListFilesInVersion _ => (files, None)
        end, w) |}.

(** A version name is taken for a semantic version when it starts with a
    digit; enough for the examples. *)
Definition digitSemVer : SemVer :=
  {| semver_Parse s :=
       match s with
       | String c _ =>
           if Ascii.leb "0" c && Ascii.leb c "9" then None
           else Some (errorString "Invalid character(s) found")
       | EmptyString => Some (errorString "Version string empty")
       end |}.
End sample_admin.

(** * Properties *)

(** ** Integers and base64 *)

Lemma Int64_wrap_id z :
  Int64.min_int ≤ z ≤ Int64.max_int → Int64.wrap z = z.
Proof.
  unfold Int64.min_int, Int64.max_int, Int64.wrap. intros Hz.
  rewrite Z.mod_small by lia. lia.
Qed.

Lemma Int64_add_exact a b :
  0 ≤ a < 2 ^ 62 → 0 ≤ b < 2 ^ 62 → Int64.add a b = a + b.
Proof.
  intros Ha Hb. apply Int64_wrap_id.
  unfold Int64.min_int, Int64.max_int. lia.
Qed.

(** Induction three bytes at a time, as [EncodeToString] recurses. *)
Lemma triples_ind {A : Type} (P : list A → Prop) :
  P [] → (∀ a, P [a]) → (∀ a b, P [a; b]) →
  (∀ a b c l, P l → P (a :: b :: c :: l)) →
  ∀ l, P l.
Proof.
  intros H0 H1 H2 H3.
  fix IH 1.
  intros [|a [|b [|c l]]]; [exact H0 | apply H1 | apply H2 | apply H3, IH].
Qed.

Lemma EncodedLen_step n :
  base64.EncodedLen (S (S (S n))) = (4 + base64.EncodedLen n)%nat.
Proof.
  unfold base64.EncodedLen.
  replace (S (S (S n)) + 2)%nat with ((n + 2) + 1 * 3)%nat by lia.
  rewrite Nat.div_add by lia. lia.
Qed.

Lemma EncodeToString_length src :
  String.length (base64.EncodeToString src) = base64.EncodedLen (length src).
Proof.
  induction src as [|a|a b|a b c l IH] using triples_ind; try reflexivity.
  change (String.length (base64.EncodeToString (a :: b :: c :: l)))
    with (4 + String.length (base64.EncodeToString l))%nat.
  rewrite IH. symmetry. apply EncodedLen_step.
Qed.

Lemma EncodedLen_ge n : (n ≤ base64.EncodedLen n)%nat.
Proof.
  unfold base64.EncodedLen.
  pose proof (Nat.div_mod_eq (n + 2) 3).
  pose proof (Nat.mod_upper_bound (n + 2) 3 ltac:(lia)). lia.
Qed.

(** Encoding never shrinks an item. *)
Lemma rawSize_le_encodedSize kv : cmdkv.rawSize kv ≤ cmdkv.encodedSize kv.
Proof.
  unfold cmdkv.rawSize, cmdkv.encodedSize, cmdkv.encodeToBase64.
  rewrite EncodeToString_length.
  pose proof (EncodedLen_ge (length (cmdkv.Value kv))). lia.
Qed.

Example base64_foo :
  base64.EncodeToString ["f"; "o"; "o"]%byte = "Zm9v"
  ∧ base64.EncodeToString ["f"; "o"]%byte = "Zm8="
  ∧ base64.EncodeToString ["f"]%byte = "Zg==".
Proof. repeat split; reflexivity. Qed.

(** ** The bulk writer: the packing loop *)

Lemma bulkSize_nonneg b : 0 ≤ cmdkv.bulkSize b.
Proof. induction b as [|p b IH]; simpl; lia. Qed.

Lemma bulkSize_snoc b p :
  cmdkv.bulkSize (b ++ [p])
  = cmdkv.bulkSize b + Z.of_nat (String.length (cloudflare.Value p)).
Proof. induction b as [|q b IH]; simpl; lia. Qed.

Lemma bind_Ret {A B : Type} (a : A) (f : A → Prog B) : (Ret a ≫= f) = f a.
Proof. reflexivity. Qed.

Lemma bind_Panic {A B : Type} v (f : A → Prog B) : (Panic v ≫= f) = Panic v.
Proof. reflexivity. Qed.

(** An item above the ceiling stops the loop at once. *)
Lemma packOne_oversized cfg st kv :
  cmdkv.rawSize kv > MaxFileSize cfg →
  cmdkv.packOne cfg st kv
  = Panic (PanicOversized (cmdkv.Key kv) (cmdkv.rawSize kv)).
Proof.
  intros Hbig. unfold cmdkv.packOne. fold (cmdkv.rawSize kv).
  rewrite bool_decide_eq_true_2 by done. reflexivity.
Qed.

(** An item that passes the check is appended, after a split if needed. *)
Lemma packOne_accepted cfg st kv :
  cmdkv.rawSize kv ≤ MaxFileSize cfg →
  ∃ st', cmdkv.packOne cfg st kv = Ret st'
    ∧ cmdkv.bulkWrite st' ≠ []
    ∧ ((cmdkv.bulkWrites st' = cmdkv.bulkWrites st
        ∧ cmdkv.bulkWrite st' = cmdkv.bulkWrite st ++ [cmdkv.encodedPair kv]
        ∧ cmdkv.totalSize st'
          = Int64.add (cmdkv.totalSize st) (cmdkv.encodedSize kv)
        ∧ Int64.add (cmdkv.totalSize st) (cmdkv.encodedSize kv)
          ≤ maxBulkPayload cfg)
       ∨ (cmdkv.bulkWrites st' = cmdkv.bulkWrites st ++ [cmdkv.bulkWrite st]
          ∧ cmdkv.bulkWrite st' = [cmdkv.encodedPair kv]
          ∧ cmdkv.totalSize st' = Int64.add 0 (cmdkv.encodedSize kv)
          ∧ Int64.add (cmdkv.totalSize st) (cmdkv.encodedSize kv)
            > maxBulkPayload cfg)).
Proof.
  intros Hsmall. unfold cmdkv.packOne.
  fold (cmdkv.rawSize kv) (cmdkv.encodedSize kv).
  rewrite bool_decide_eq_false_2 by lia.
  case_bool_decide as Hsplit; eexists; (split; [reflexivity|]); simpl.
  - split; [discriminate|]. right. done.
  - split; [by destruct (cmdkv.bulkWrite st)|]. left.
    repeat split. lia.
Qed.

Lemma pack_loop cfg kvs st :
  maxBulkPayload cfg < 2 ^ 62 →
  Forall (λ kv, cmdkv.rawSize kv ≤ MaxFileSize cfg
                ∧ cmdkv.encodedSize kv ≤ maxBulkPayload cfg) kvs →
  cmdkv.pack_inv cfg st →
  ∃ st', forEach kvs (cmdkv.packOne cfg) st = Ret st'
    ∧ cmdkv.pack_inv cfg st'
    ∧ concat (cmdkv.bulkWrites st') ++ cmdkv.bulkWrite st'
      = concat (cmdkv.bulkWrites st) ++ cmdkv.bulkWrite st
        ++ (cmdkv.encodedPair <$> kvs)
    ∧ (cmdkv.bulkWrite st ≠ [] ∨ kvs ≠ [] → cmdkv.bulkWrite st' ≠ []).
Proof.
  intros Hmax. revert st.
  induction kvs as [|kv kvs IH]; intros st Hfit Hinv.
  - exists st. rewrite app_nil_r.
    repeat split; [apply Hinv..|]. intros [?|?]; done.
  - apply Forall_cons in Hfit as [[Hraw Henc] Hfit].
    specialize (λ st, IH st Hfit).
    destruct Hinv as (Hclosed & Hopen & Htotal).
    pose proof (bulkSize_nonneg (cmdkv.bulkWrite st)) as Hpos.
    assert (0 ≤ cmdkv.encodedSize kv) as Hepos
      by (unfold cmdkv.encodedSize; lia).
    destruct (packOne_accepted cfg st kv Hraw)
      as (st1 & Hstep & Hne & [(Hws & Hw & Ht & Hle)|(Hws & Hw & Ht & Hgt)]).
    + rewrite Int64_add_exact in Ht, Hle by lia.
      destruct (IH st1) as (st' & Hrun & Hinv' & Hcat & Hne').
      { repeat split.
        - by rewrite Hws.
        - rewrite Hw, bulkSize_snoc, Ht, <- Hopen. reflexivity.
        - lia. }
      exists st'. simpl. rewrite Hstep, bind_Ret.
      repeat split; [done|apply Hinv'..| |auto].
      rewrite Hcat, Hws, Hw, <- !app_assoc. reflexivity.
    + rewrite Int64_add_exact in Hgt by lia.
      rewrite Int64_add_exact in Ht by lia.
      destruct (IH st1) as (st' & Hrun & Hinv' & Hcat & Hne').
      { repeat split.
        - rewrite Hws. apply Forall_app. split; [done|].
          apply Forall_singleton. split; [lia|].
          intros Hnil. rewrite Hnil in Hopen. simpl in Hopen. lia.
        - rewrite Hw, Ht. unfold cmdkv.encodedSize, cmdkv.encodedPair.
          simpl. lia.
        - lia. }
      exists st'. simpl. rewrite Hstep, bind_Ret.
      repeat split; [done|apply Hinv'..| |auto].
      rewrite Hcat, Hws, Hw, concat_app. simpl.
      rewrite app_nil_r, <- !app_assoc. reflexivity.
Qed.

(** ** The bulk writer: the submission loop *)

(** One round of the submission loop. *)
Lemma write_loop_step {W : Type} (h : Handler W) cfg b bs w :
  run h (forEach (b :: bs) (cmdkv.writeOne cfg) ()) w
  = let q := WriteWorkersKVBulk (namespaceID cfg) b in
    let '(r, err, w1) := handle h q w in
    match err with
    | Some e => (Panicked (PanicError e), w1, [q])
    | None =>
        if cloudflare.Success r then
          let '(o, w2, log) :=
            run h (forEach bs (cmdkv.writeOne cfg) ()) w1 in
          (o, w2, q :: log)
        else (Panicked (PanicResponse r), w1, [q])
    end.
Proof.
  simpl.
  destruct (handle h (WriteWorkersKVBulk (namespaceID cfg) b) w)
    as [[r [e|]] w1]; simpl; [reflexivity|].
  destruct (cloudflare.Success r); reflexivity.
Qed.

(** The submission loop issues bulk writes of the batches, in order, and
    nothing else; it may stop early. *)
Lemma write_loop_log {W : Type} (h : Handler W) cfg bs w :
  log_of (run h (forEach bs (cmdkv.writeOne cfg) ()) w)
  `prefix_of` (WriteWorkersKVBulk (namespaceID cfg) <$> bs).
Proof.
  revert w. induction bs as [|b bs IH]; intros w; [done|].
  rewrite write_loop_step. unfold log_of in *. simpl.
  destruct (handle h (WriteWorkersKVBulk (namespaceID cfg) b) w)
    as [[r [e|]] w1]; simpl; [by apply prefix_cons, prefix_nil|].
  destruct (cloudflare.Success r); simpl; [|by apply prefix_cons, prefix_nil].
  specialize (IH w1).
  destruct (run h (forEach bs (cmdkv.writeOne cfg) ()) w1) as [[o w2] log].
  by apply prefix_cons.
Qed.

(** When every write is accepted, all batches are submitted. *)
Lemma write_loop_accepted {W : Type} (h : Handler W) cfg bs w :
  cmdkv.accepts_writes h cfg →
  ∃ w', run h (forEach bs (cmdkv.writeOne cfg) ()) w
        = (Returned (), w', WriteWorkersKVBulk (namespaceID cfg) <$> bs).
Proof.
  intros Hacc. revert w. induction bs as [|b bs IH]; intros w.
  - by exists w.
  - rewrite write_loop_step. simpl.
    destruct (Hacc b w) as (r & w1 & -> & ->).
    destruct (IH w1) as (w2 & ->). by exists w2.
Qed.

(** Whatever the world answers, the requests of the writer are bulk writes
    of batches that the packing loop produced. *)
Lemma write_loop_elem {W : Type} (h : Handler W) cfg bs w q :
  q ∈ log_of (run h (forEach bs (cmdkv.writeOne cfg) ()) w) →
  ∃ b, b ∈ bs ∧ q = WriteWorkersKVBulk (namespaceID cfg) b.
Proof.
  intros Hq. destruct (write_loop_log h cfg bs w) as [rest Hlog].
  assert (q ∈ WriteWorkersKVBulk (namespaceID cfg) <$> bs) as Hin.
  { rewrite Hlog. apply elem_of_app. by left. }
  apply list_elem_of_fmap in Hin as (b & -> & Hb). eauto.
Qed.

(** The batches of an input whose items all pass the size check and fit a
    batch on their own. *)
Lemma batches_exist cfg kvs :
  0 ≤ maxBulkPayload cfg < 2 ^ 62 →
  Forall (λ kv, cmdkv.rawSize kv ≤ MaxFileSize cfg
                ∧ cmdkv.encodedSize kv ≤ maxBulkPayload cfg) kvs →
  ∃ batches,
    cmdkv.encodeAndWriteKVBulk cfg kvs
    = forEach batches (cmdkv.writeOne cfg) ()
    ∧ Forall (λ b, cmdkv.bulkSize b ≤ maxBulkPayload cfg) batches
    ∧ concat batches = cmdkv.encodedPair <$> kvs
    ∧ (kvs ≠ [] → Forall (λ b, b ≠ []) batches).
Proof.
  intros [Hmin Hmax] Hfit.
  destruct (pack_loop cfg kvs
              {| cmdkv.bulkWrites := []; cmdkv.bulkWrite := [];
                 cmdkv.totalSize := 0 |} Hmax)
    as (st & Hrun & (Hclosed & Hopen & Htotal) & Hcat & Hne); [done| |].
  { repeat split; simpl; [constructor|exact Hmin]. }
  simpl in Hcat.
  exists (cmdkv.bulkWrites st ++ [cmdkv.bulkWrite st]).
  unfold cmdkv.encodeAndWriteKVBulk. rewrite Hrun, bind_Ret.
  repeat split.
  - apply Forall_app. split; [|apply Forall_singleton; lia].
    eapply Forall_impl; [exact Hclosed|]. by intros b [? ?].
  - rewrite concat_app. simpl. rewrite app_nil_r. exact Hcat.
  - intros Hkvs. apply Forall_app. split; [|apply Forall_singleton; auto].
    eapply Forall_impl; [exact Hclosed|]. by intros b [? ?].
Qed.

(** ** The bulk writer: batches *)

(** C1.  When every item's encoded size is at most the per-item ceiling,
    [encodeAndWriteKVBulk] is the submission, in order, of a list of batches
    none of which has an aggregate encoded size above [maxBulkPayload], and
    whose concatenation is the input, item by item and in its order; a world
    that accepts every write receives exactly these batches. *)
Theorem encodeAndWriteKVBulk_batches cfg kvs :
  valid_config cfg →
  Forall (λ kv, cmdkv.encodedSize kv ≤ MaxFileSize cfg) kvs →
  ∃ batches,
    cmdkv.encodeAndWriteKVBulk cfg kvs
    = forEach batches (cmdkv.writeOne cfg) ()
    ∧ Forall (λ b, cmdkv.bulkSize b ≤ maxBulkPayload cfg) batches
    ∧ concat batches = cmdkv.encodedPair <$> kvs
    ∧ ∀ (W : Type) (h : Handler W) (w : W),
        cmdkv.accepts_writes h cfg →
        ∃ w', run h (cmdkv.encodeAndWriteKVBulk cfg kvs) w
              = (Returned (), w',
                 WriteWorkersKVBulk (namespaceID cfg) <$> batches).
Proof.
  intros [[Hmin Hlt] Hmax] Hsmall.
  destruct (batches_exist cfg kvs) as (batches & Hprog & Hsize & Hcat & _).
  { lia. }
  { eapply Forall_impl; [exact Hsmall|]. intros kv Hkv. simpl in Hkv.
    pose proof (rawSize_le_encodedSize kv). lia. }
  exists batches. repeat split; [done..|].
  intros W h w Hacc. rewrite Hprog. by apply write_loop_accepted.
Qed.

Lemma sample_world_accepts cfg reply :
  cmdkv.accepts_writes (sample.world reply sample.accepted) cfg.
Proof. intros b w. by eexists _, _. Qed.

Lemma encodeAndWriteKVBulk_batches_witness :
  valid_config sample.productionConfig
  ∧ Forall (λ kv, cmdkv.encodedSize kv ≤ MaxFileSize sample.productionConfig)
      [sample.item "a.js" 675; sample.item "b.js" 74]
  ∧ ∃ batches,
      cmdkv.encodeAndWriteKVBulk sample.productionConfig
        [sample.item "a.js" 675; sample.item "b.js" 74]
      = forEach batches (cmdkv.writeOne sample.productionConfig) ()
      ∧ Forall (λ b, cmdkv.bulkSize b ≤ 100000000) batches
      ∧ concat batches
        = cmdkv.encodedPair
            <$> [sample.item "a.js" 675; sample.item "b.js" 74]
      ∧ ∀ (W : Type) (h : Handler W) (w : W),
          cmdkv.accepts_writes h sample.productionConfig →
          ∃ w', run h (cmdkv.encodeAndWriteKVBulk sample.productionConfig
                         [sample.item "a.js" 675; sample.item "b.js" 74]) w
                = (Returned (), w', WriteWorkersKVBulk "files" <$> batches).
Proof.
  assert (valid_config sample.productionConfig) as Hcfg
    by (vm_compute; intuition discriminate).
  assert (Forall
            (λ kv, cmdkv.encodedSize kv ≤ MaxFileSize sample.productionConfig)
            [sample.item "a.js" 675; sample.item "b.js" 74]) as Hsmall
    by (repeat constructor; vm_compute; discriminate).
  split; [exact Hcfg|]. split; [exact Hsmall|].
  exact (encodeAndWriteKVBulk_batches sample.productionConfig _ Hcfg Hsmall).
Defined.

(** With the tool's own settings the check on the raw size is enough: a
    file of at most 10 MiB encodes to less than [maxBulkPayload]. *)
Lemma production_batches kvs :
  Forall (λ kv, cmdkv.rawSize kv ≤ MaxFileSize sample.productionConfig) kvs →
  ∃ batches,
    cmdkv.encodeAndWriteKVBulk sample.productionConfig kvs
    = forEach batches (cmdkv.writeOne sample.productionConfig) ()
    ∧ Forall (λ b, cmdkv.bulkSize b ≤ defaultMaxBulkPayload) batches
    ∧ concat batches = cmdkv.encodedPair <$> kvs
    ∧ (kvs ≠ [] → Forall (λ b, b ≠ []) batches).
Proof.
  intros Hraw. apply (batches_exist sample.productionConfig).
  { vm_compute. intuition discriminate. }
  eapply Forall_impl; [exact Hraw|]. intros kv Hkv. simpl in Hkv.
  split; [exact Hkv|].
  unfold cmdkv.encodedSize, cmdkv.encodeToBase64.
  rewrite EncodeToString_length. unfold cmdkv.rawSize in Hkv.
  unfold base64.EncodedLen.
  change (maxBulkPayload sample.productionConfig) with 100000000.
  pose proof (Nat.div_mod_eq (length (cmdkv.Value kv) + 2) 3).
  pose proof (Nat.mod_upper_bound (length (cmdkv.Value kv) + 2) 3
                ltac:(lia)).
  lia.
Qed.

(** ** The bulk writer: oversized items *)

Lemma pack_loop_oversized cfg kvs st :
  Exists (λ kv, cmdkv.rawSize kv > MaxFileSize cfg) kvs →
  ∃ kv, kv ∈ kvs ∧ cmdkv.rawSize kv > MaxFileSize cfg
    ∧ forEach kvs (cmdkv.packOne cfg) st
      = Panic (PanicOversized (cmdkv.Key kv) (cmdkv.rawSize kv)).
Proof.
  revert st. induction kvs as [|kv kvs IH]; intros st Hex.
  - by apply Exists_nil in Hex.
  - destruct (decide (cmdkv.rawSize kv > MaxFileSize cfg)) as [Hbig|Hsmall].
    + exists kv. split; [left|]. split; [done|].
      simpl. by rewrite packOne_oversized, bind_Panic.
    + apply Exists_cons in Hex as [Hbig|Hex]; [done|].
      destruct (packOne_accepted cfg st kv) as (st1 & Hstep & _); [lia|].
      destruct (IH st1 Hex) as (kv' & Hin & Hbig & Hrun).
      exists kv'. split; [by right|]. split; [done|].
      simpl. by rewrite Hstep, bind_Ret.
Qed.

(** C3, as the code has it.  The ceiling is compared with the raw length
    [len(kv.Value)], before encoding: if some item's raw size exceeds
    [MaxFileSize], the call panics with the oversized-file message of such an
    item, and the log of requests is empty: nothing was written, whatever
    the world would have answered. *)
Theorem encodeAndWriteKVBulk_rejects_oversized
    {W : Type} (h : Handler W) (w : W) cfg kvs :
  Exists (λ kv, cmdkv.rawSize kv > MaxFileSize cfg) kvs →
  ∃ kv, kv ∈ kvs ∧ cmdkv.rawSize kv > MaxFileSize cfg
    ∧ run h (cmdkv.encodeAndWriteKVBulk cfg kvs) w
      = (Panicked (PanicOversized (cmdkv.Key kv) (cmdkv.rawSize kv)), w, []).
Proof.
  intros Hex.
  destruct (pack_loop_oversized cfg kvs
              {| cmdkv.bulkWrites := []; cmdkv.bulkWrite := [];
                 cmdkv.totalSize := 0 |} Hex) as (kv & Hin & Hbig & Hrun).
  exists kv. split; [done|]. split; [done|].
  unfold cmdkv.encodeAndWriteKVBulk. by rewrite Hrun, bind_Panic.
Qed.

(** A raw size of 1100 against a ceiling of 1000: rejected, nothing
    written, although an item before it was fine. *)
Lemma encodeAndWriteKVBulk_rejects_oversized_witness :
  Exists (λ kv, cmdkv.rawSize kv > MaxFileSize sample.smallConfig)
    [sample.item "ok.js" 10; sample.item "big.js" 1100]
  ∧ ∃ kv, kv ∈ [sample.item "ok.js" 10; sample.item "big.js" 1100]
      ∧ cmdkv.rawSize kv > MaxFileSize sample.smallConfig
      ∧ run (sample.world (sample.notFound "/") sample.accepted)
          (cmdkv.encodeAndWriteKVBulk sample.smallConfig
             [sample.item "ok.js" 10; sample.item "big.js" 1100]) ()
        = (Panicked (PanicOversized (cmdkv.Key kv) (cmdkv.rawSize kv)),
           (), []).
Proof.
  assert (Exists (λ kv, cmdkv.rawSize kv > MaxFileSize sample.smallConfig)
            [sample.item "ok.js" 10; sample.item "big.js" 1100]) as Hex
    by (right; left; vm_compute; reflexivity).
  split; [exact Hex|].
  exact (encodeAndWriteKVBulk_rejects_oversized _ () sample.smallConfig _ Hex).
Defined.

(** C3, as stated, fails.  825 raw bytes encode to 1100 characters, above
    the ceiling of 1000; the item passes the check on its raw size and is
    submitted. *)
Lemma oversized_encoding_is_submitted :
  cmdkv.encodedSize (sample.item "a.js" 825) = 1100
  ∧ cmdkv.encodedSize (sample.item "a.js" 825)
    > MaxFileSize sample.smallConfig
  ∧ run (sample.world (sample.notFound "/") sample.accepted)
      (cmdkv.encodeAndWriteKVBulk sample.smallConfig
         [sample.item "a.js" 825]) ()
    = (Returned (), (),
       [WriteWorkersKVBulk "files"
          [cmdkv.encodedPair (sample.item "a.js" 825)]]).
Proof. split; [|split]; vm_compute; reflexivity. Qed.

(** ** The bulk writer: the scenario of four items *)

(** The state after an accepted item, written out. *)
Lemma packOne_eq cfg st kv :
  cmdkv.rawSize kv ≤ MaxFileSize cfg →
  cmdkv.packOne cfg st kv
  = Ret (if bool_decide (Int64.add (cmdkv.totalSize st) (cmdkv.encodedSize kv)
                         > maxBulkPayload cfg)
         then {| cmdkv.bulkWrites := cmdkv.bulkWrites st ++ [cmdkv.bulkWrite st];
                 cmdkv.bulkWrite := [cmdkv.encodedPair kv];
                 cmdkv.totalSize := Int64.add 0 (cmdkv.encodedSize kv) |}
         else {| cmdkv.bulkWrites := cmdkv.bulkWrites st;
                 cmdkv.bulkWrite := cmdkv.bulkWrite st ++ [cmdkv.encodedPair kv];
                 cmdkv.totalSize :=
                   Int64.add (cmdkv.totalSize st) (cmdkv.encodedSize kv) |}).
Proof.
  intros Hsmall. unfold cmdkv.packOne.
  fold (cmdkv.rawSize kv) (cmdkv.encodedSize kv).
  rewrite bool_decide_eq_false_2 by lia.
  by case_bool_decide.
Qed.

(** C8.  With a per-item ceiling of 1000 and an aggregate ceiling of 2500,
    four items of encoded size 900 each are written as two batches of two
    items, in order. *)
Theorem four_items_two_batches cfg kvs :
  MaxFileSize cfg = 1000 →
  maxBulkPayload cfg = 2500 →
  cmdkv.encodedSize <$> kvs = [900; 900; 900; 900] →
  ∃ a b c d,
    kvs = [a; b; c; d]
    ∧ cmdkv.encodeAndWriteKVBulk cfg kvs
      = forEach [ [cmdkv.encodedPair a; cmdkv.encodedPair b];
                  [cmdkv.encodedPair c; cmdkv.encodedPair d] ]
          (cmdkv.writeOne cfg) ()
    ∧ ∀ (W : Type) (h : Handler W) (w : W),
        cmdkv.accepts_writes h cfg →
        ∃ w', run h (cmdkv.encodeAndWriteKVBulk cfg kvs) w
              = (Returned (), w',
                 [ WriteWorkersKVBulk (namespaceID cfg)
                     [cmdkv.encodedPair a; cmdkv.encodedPair b];
                   WriteWorkersKVBulk (namespaceID cfg)
                     [cmdkv.encodedPair c; cmdkv.encodedPair d] ]).
Proof.
  intros Hitem Hbulk Hsizes.
  destruct kvs as [|a [|b [|c [|d [|e kvs]]]]]; try discriminate Hsizes.
  injection Hsizes as Ha Hb Hc Hd.
  assert (∀ kv, cmdkv.encodedSize kv = 900 →
                cmdkv.rawSize kv ≤ MaxFileSize cfg) as Hraw.
  { intros kv Hkv. pose proof (rawSize_le_encodedSize kv). lia. }
  assert (cmdkv.encodeAndWriteKVBulk cfg [a; b; c; d]
          = forEach [ [cmdkv.encodedPair a; cmdkv.encodedPair b];
                      [cmdkv.encodedPair c; cmdkv.encodedPair d] ]
              (cmdkv.writeOne cfg) ()) as Hprog.
  { unfold cmdkv.encodeAndWriteKVBulk. cbn [forEach].
    rewrite (packOne_eq cfg _ a), bind_Ret by auto.
    cbn [cmdkv.totalSize]. rewrite Ha, Hbulk.
    change (bool_decide (Int64.add 0 900 > 2500)) with false.
    cbn iota.
    rewrite (packOne_eq cfg _ b), bind_Ret by auto.
    cbn [cmdkv.totalSize]. rewrite Hb, Hbulk.
    change (bool_decide (Int64.add (Int64.add 0 900) 900 > 2500)) with false.
    cbn iota.
    rewrite (packOne_eq cfg _ c), bind_Ret by auto.
    cbn [cmdkv.totalSize]. rewrite Hc, Hbulk.
    change (bool_decide
              (Int64.add (Int64.add (Int64.add 0 900) 900) 900 > 2500))
      with true.
    cbn iota.
    rewrite (packOne_eq cfg _ d), bind_Ret by auto.
    cbn [cmdkv.totalSize]. rewrite Hd, Hbulk.
    change (bool_decide (Int64.add (Int64.add 0 900) 900 > 2500)) with false.
    reflexivity. }
  exists a, b, c, d. split; [done|]. split; [done|].
  intros W h w Hacc. rewrite Hprog.
  by apply (write_loop_accepted h cfg).
Qed.

Lemma four_items_two_batches_witness :
  ∃ a b c d,
    [sample.item "a" 675; sample.item "b" 674; sample.item "c" 673;
     sample.item "d" 675] = [a; b; c; d]
    ∧ cmdkv.encodeAndWriteKVBulk sample.smallConfig
        [sample.item "a" 675; sample.item "b" 674; sample.item "c" 673;
         sample.item "d" 675]
      = forEach [ [cmdkv.encodedPair a; cmdkv.encodedPair b];
                  [cmdkv.encodedPair c; cmdkv.encodedPair d] ]
          (cmdkv.writeOne sample.smallConfig) ()
    ∧ ∀ (W : Type) (h : Handler W) (w : W),
        cmdkv.accepts_writes h sample.smallConfig →
        ∃ w', run h (cmdkv.encodeAndWriteKVBulk sample.smallConfig
                       [sample.item "a" 675; sample.item "b" 674;
                        sample.item "c" 673; sample.item "d" 675]) w
              = (Returned (), w',
                 [ WriteWorkersKVBulk "files"
                     [cmdkv.encodedPair a; cmdkv.encodedPair b];
                   WriteWorkersKVBulk "files"
                     [cmdkv.encodedPair c; cmdkv.encodedPair d] ]).
Proof.
  apply (four_items_two_batches sample.smallConfig);
    [reflexivity | reflexivity | vm_compute; reflexivity].
Defined.

(** ** The bulk writer: empty batches *)

(** C10.  For a non-empty input whose items are within the per-item
    ceiling, every request the call issues, whatever the world answers, is a
    bulk write of at least one pair.  For the empty input the call issues
    exactly one request: a bulk write of no pairs. *)
Theorem batches_nonempty_unless_input_empty cfg :
  (∀ kvs (W : Type) (h : Handler W) (w : W),
     valid_config cfg →
     Forall (λ kv, cmdkv.encodedSize kv ≤ MaxFileSize cfg) kvs →
     kvs ≠ [] →
     Forall (λ q, ∃ b, q = WriteWorkersKVBulk (namespaceID cfg) b ∧ b ≠ [])
       (log_of (run h (cmdkv.encodeAndWriteKVBulk cfg kvs) w)))
  ∧ (∀ (W : Type) (h : Handler W) (w : W),
       log_of (run h (cmdkv.encodeAndWriteKVBulk cfg []) w)
       = [WriteWorkersKVBulk (namespaceID cfg) []]).
Proof.
  split.
  - intros kvs W h w [[Hmin Hlt] Hmax] Hsmall Hne.
    destruct (batches_exist cfg kvs) as (batches & Hprog & _ & _ & Hnonempty).
    { lia. }
    { eapply Forall_impl; [exact Hsmall|]. intros kv Hkv. simpl in Hkv.
      pose proof (rawSize_le_encodedSize kv). lia. }
    rewrite Hprog. apply Forall_forall. intros q Hq.
    apply write_loop_elem in Hq as (b & Hb & ->).
    exists b. split; [done|].
    specialize (Hnonempty Hne). rewrite Forall_forall in Hnonempty. auto.
  - intros W h w. unfold log_of, cmdkv.encodeAndWriteKVBulk. simpl.
    destruct (handle h (WriteWorkersKVBulk (namespaceID cfg) []) w)
      as [[r [e|]] w1]; simpl; [reflexivity|].
    destruct (cloudflare.Success r); reflexivity.
Qed.

Lemma batches_nonempty_unless_input_empty_witness :
  valid_config sample.smallConfig
  ∧ Forall (λ kv, cmdkv.encodedSize kv ≤ MaxFileSize sample.smallConfig)
      [sample.item "a.js" 675; sample.item "b.js" 675; sample.item "c.js" 675]
  ∧ [sample.item "a.js" 675; sample.item "b.js" 675; sample.item "c.js" 675]
    ≠ []
  ∧ Forall (λ q, ∃ b, q = WriteWorkersKVBulk "files" b ∧ b ≠ [])
      (log_of (run (sample.world (sample.notFound "/") sample.accepted)
                 (cmdkv.encodeAndWriteKVBulk sample.smallConfig
                    [sample.item "a.js" 675; sample.item "b.js" 675;
                     sample.item "c.js" 675]) ())).
Proof.
  assert (valid_config sample.smallConfig) as Hcfg
    by (vm_compute; intuition discriminate).
  assert (Forall (λ kv, cmdkv.encodedSize kv ≤ MaxFileSize sample.smallConfig)
            [sample.item "a.js" 675; sample.item "b.js" 675;
             sample.item "c.js" 675]) as Hsmall
    by (repeat constructor; vm_compute; discriminate).
  split; [exact Hcfg|]. split; [exact Hsmall|]. split; [discriminate|].
  exact (proj1 (batches_nonempty_unless_input_empty sample.smallConfig)
           _ unit _ () Hcfg Hsmall ltac:(discriminate)).
Defined.

(** ** Sorted lists of strings *)

Lemma half_between i j : (i < j → i ≤ (i + j) / 2 < j)%nat.
Proof.
  intros Hij. pose proof (Nat.div_mod_eq (i + j) 2).
  pose proof (Nat.mod_upper_bound (i + j) 2 ltac:(lia)). lia.
Qed.

(** [sort.Search] on a predicate that, on [[i, j)], is false and then true:
    the result is where it turns true. *)
Lemma Search_loop_spec f i j :
  (i ≤ j)%nat →
  (∀ m m', (i ≤ m ≤ m')%nat → (m' < j)%nat → f m = true → f m' = true) →
  (i ≤ sort.Search_loop f i j ≤ j)%nat
  ∧ (∀ m, (i ≤ m < sort.Search_loop f i j)%nat → f m = false)
  ∧ (∀ m, (sort.Search_loop f i j ≤ m < j)%nat → f m = true).
Proof.
  funelim (sort.Search_loop f i j); intros Hij Hmono.
  - repeat split; intros; lia.
  - pose proof (half_between i j l) as Hh.
    destruct H as (Hk & Hlo & Hhi); [lia| |].
    { intros m m' ? ? ?. apply (Hmono m m'); [lia..|done]. }
    repeat split; [lia..|done|].
    intros m Hm.
    destruct (decide (m < (i + j) / 2)%nat); [apply Hhi; lia|].
    apply (Hmono ((i + j) / 2)%nat m); [lia..|done].
  - pose proof (half_between i j l) as Hh.
    destruct H as (Hk & Hlo & Hhi); [lia| |].
    { intros m m' ? ? ?. apply (Hmono m m'); [lia..|done]. }
    repeat split; [lia..| |done].
    intros m Hm.
    destruct (decide ((i + j) / 2 < m)%nat); [apply Hlo; lia|].
    destruct (f m) eqn:Hfm; [|done].
    rewrite <- Heq. symmetry. apply (Hmono m ((i + j) / 2)%nat); [lia..|done].
Qed.

Lemma sorted_lookup_le (a : list string) m m' y y' :
  StronglySorted String.le a →
  a !! m = Some y → a !! m' = Some y' → (m ≤ m')%nat → String.le y y'.
Proof.
  intros Hsorted Hm Hm' Hle.
  destruct (decide (m = m')) as [->|Hne].
  { rewrite Hm in Hm'. by injection Hm' as ->. }
  rewrite <- (take_drop m' a) in Hsorted.
  eapply StronglySorted_app_1_elem_of; [exact Hsorted| |].
  - apply elem_of_take. exists m. split; [done|lia].
  - apply list_elem_of_lookup. exists 0%nat.
    by rewrite lookup_drop, Nat.add_0_r.
Qed.

(** On a sorted slice [SearchStrings] separates the elements below [x] from
    those at or above it. *)
Lemma SearchStrings_spec (a : list string) x :
  StronglySorted String.le a →
  (sort.SearchStrings a x ≤ length a)%nat
  ∧ (∀ m y, a !! m = Some y → (m < sort.SearchStrings a x)%nat →
            ¬ String.le x y)
  ∧ (∀ m y, a !! m = Some y → (sort.SearchStrings a x ≤ m)%nat →
            String.le x y).
Proof.
  intros Hsorted. unfold sort.SearchStrings, sort.Search.
  match goal with |- context [sort.Search_loop ?f _ _] => set (probe := f) end.
  destruct (Search_loop_spec probe 0 (length a)) as (Hk & Hlo & Hhi); [lia| |].
  { intros m m' Hm Hm'. unfold probe.
    destruct (lookup_lt_is_Some_2 a m') as [y' Hy']; [done|].
    destruct (lookup_lt_is_Some_2 a m) as [y Hy]; [lia|].
    rewrite Hy, Hy'. intros Hxy%bool_decide_eq_true.
    apply bool_decide_eq_true. etrans; [exact Hxy|].
    eapply sorted_lookup_le; [done..|lia]. }
  repeat split; [lia| |].
  - intros m y Hy Hm Hxy. specialize (Hlo m ltac:(lia)).
    unfold probe in Hlo. rewrite Hy in Hlo.
    by apply bool_decide_eq_false in Hlo.
  - intros m y Hy Hm. apply lookup_lt_Some in Hy as Hlt.
    specialize (Hhi m ltac:(lia)).
    unfold probe in Hhi. rewrite Hy in Hhi.
    by apply bool_decide_eq_true in Hhi.
Qed.

(** A value that is present is found, and the slice is returned as it is. *)
Lemma insert_present (a : list string) x :
  StronglySorted String.le a → x ∈ a →
  cmdkv.insertToSortedListIfNotPresent a x = a.
Proof.
  intros Hsorted Hin.
  destruct (SearchStrings_spec a x Hsorted) as (Hk & Hlo & Hhi).
  apply list_elem_of_lookup in Hin as [m Hm].
  assert (sort.SearchStrings a x ≤ m)%nat as Hkm.
  { destruct (decide (sort.SearchStrings a x ≤ m)%nat); [done|].
    destruct (Hlo m x Hm); [lia|done]. }
  apply lookup_lt_Some in Hm as Hlt.
  destruct (lookup_lt_is_Some_2 a (sort.SearchStrings a x)) as [y Hy]; [lia|].
  assert (y = x) as ->.
  { apply (anti_symm String.le).
    - by eapply sorted_lookup_le.
    - by eapply Hhi. }
  unfold cmdkv.insertToSortedListIfNotPresent.
  rewrite bool_decide_eq_false_2 by lia.
  by rewrite bool_decide_eq_true_2.
Qed.

(** A value that is absent is spliced in between the smaller and the larger
    elements. *)
Lemma insert_absent (a : list string) x :
  StronglySorted String.le a → x ∉ a →
  ∃ k, cmdkv.insertToSortedListIfNotPresent a x = take k a ++ x :: drop k a
    ∧ Forall (λ y, ¬ String.le x y) (take k a)
    ∧ Forall (String.le x) (drop k a).
Proof.
  intros Hsorted Hnotin.
  destruct (SearchStrings_spec a x Hsorted) as (Hk & Hlo & Hhi).
  exists (sort.SearchStrings a x). split; [|split].
  - unfold cmdkv.insertToSortedListIfNotPresent.
    case_bool_decide as Hend.
    { by rewrite Hend, firstn_all, drop_all. }
    rewrite bool_decide_eq_false_2; [done|].
    intros Hy. apply Hnotin. by eapply list_elem_of_lookup_2.
  - apply Forall_lookup. intros m y Hy.
    apply lookup_take_Some in Hy as [Hy Hm]. by eapply Hlo.
  - apply Forall_lookup. intros m y Hy. rewrite lookup_drop in Hy.
    eapply Hhi; [done|lia].
Qed.

Lemma insert_sorted (a : list string) x :
  StronglySorted String.le a →
  StronglySorted String.le (cmdkv.insertToSortedListIfNotPresent a x).
Proof.
  intros Hsorted.
  destruct (decide (x ∈ a)) as [Hin|Hnotin]; [by rewrite insert_present|].
  destruct (insert_absent a x Hsorted Hnotin) as (k & -> & Hlo & Hhi).
  rewrite <- (take_drop k a) in Hsorted.
  apply StronglySorted_app in Hsorted as (Hcross & Hl & Hr).
  assert (∀ y, y ∈ take k a → String.le y x) as Hbelow.
  { intros y Hy. rewrite Forall_forall in Hlo.
    destruct (total String.le y x) as [?|Hxy]; [done|].
    by destruct (Hlo y Hy). }
  apply StronglySorted_app. split; [|split].
  - intros y z Hy Hz. apply elem_of_cons in Hz as [->|Hz]; [by apply Hbelow|].
    by apply Hcross.
  - done.
  - by apply StronglySorted_cons.
Qed.

Lemma insert_NoDup (a : list string) x :
  StronglySorted String.le a → NoDup a →
  NoDup (cmdkv.insertToSortedListIfNotPresent a x).
Proof.
  intros Hsorted Hnodup.
  destruct (decide (x ∈ a)) as [Hin|Hnotin]; [by rewrite insert_present|].
  destruct (insert_absent a x Hsorted Hnotin) as (k & -> & _ & _).
  rewrite <- (take_drop k a) in Hnodup, Hnotin.
  apply NoDup_app in Hnodup as (Hl & Hcross & Hr).
  apply not_elem_of_app in Hnotin as [Hxl Hxr].
  apply NoDup_app. split; [done|]. split.
  - intros y Hy Hy'. apply elem_of_cons in Hy' as [->|Hy']; [done|].
    by apply (Hcross y).
  - by apply NoDup_cons.
Qed.

Lemma insert_elem_of (a : list string) x y :
  StronglySorted String.le a →
  y ∈ cmdkv.insertToSortedListIfNotPresent a x ↔ y = x ∨ y ∈ a.
Proof.
  intros Hsorted.
  destruct (decide (x ∈ a)) as [Hin|Hnotin].
  - rewrite insert_present by done. split; [auto|]. by intros [->|?].
  - destruct (insert_absent a x Hsorted Hnotin) as (k & -> & _ & _).
    rewrite <- (take_drop k a) at 3.
    rewrite !elem_of_app, elem_of_cons. tauto.
Qed.

(** C5.  On a slice that is sorted ascending and free of duplicates,
    [insertToSortedListIfNotPresent] returns a slice that is again sorted and
    free of duplicates, and that holds the value and the old elements and
    nothing else; inserting the same value again changes nothing; a value
    already present leaves the slice as it is.  Starting from the empty
    root: "foo" gives ["foo"], then "bar" gives ["bar", "foo"], and "foo"
    again changes nothing. *)
Theorem insertToSortedListIfNotPresent_idempotent (sorted : list string) s :
  Sorted String.le sorted →
  NoDup sorted →
  cmdkv.insertToSortedListIfNotPresent
    (cmdkv.insertToSortedListIfNotPresent sorted s) s
  = cmdkv.insertToSortedListIfNotPresent sorted s
  ∧ Sorted String.le (cmdkv.insertToSortedListIfNotPresent sorted s)
  ∧ NoDup (cmdkv.insertToSortedListIfNotPresent sorted s)
  ∧ (∀ x, x ∈ cmdkv.insertToSortedListIfNotPresent sorted s
          ↔ x = s ∨ x ∈ sorted)
  ∧ (s ∈ sorted → cmdkv.insertToSortedListIfNotPresent sorted s = sorted)
  ∧ cmdkv.insertToSortedListIfNotPresent [] "foo" = ["foo"]
  ∧ cmdkv.insertToSortedListIfNotPresent ["foo"] "bar" = ["bar"; "foo"]
  ∧ cmdkv.insertToSortedListIfNotPresent ["bar"; "foo"] "foo"
    = ["bar"; "foo"].
Proof.
  intros Hsorted%Sorted_StronglySorted Hnodup; [|apply _].
  split; [|split; [|split; [|split; [|split]]]].
  - apply insert_present; [by apply insert_sorted|].
    apply insert_elem_of; auto.
  - by apply StronglySorted_Sorted, insert_sorted.
  - by apply insert_NoDup.
  - intros x. by apply insert_elem_of.
  - intros Hin. by apply insert_present.
  - repeat split; reflexivity.
Qed.

Lemma insertToSortedListIfNotPresent_idempotent_witness :
  Sorted String.le ["bar"; "foo"]
  ∧ NoDup ["bar"; "foo"]
  ∧ cmdkv.insertToSortedListIfNotPresent
      (cmdkv.insertToSortedListIfNotPresent ["bar"; "foo"] "baz") "baz"
    = cmdkv.insertToSortedListIfNotPresent ["bar"; "foo"] "baz"
  ∧ cmdkv.insertToSortedListIfNotPresent ["bar"; "foo"] "baz"
    = ["bar"; "baz"; "foo"].
Proof.
  assert (Sorted String.le ["bar"; "foo"]) as Hsorted
    by (repeat constructor).
  assert (NoDup ["bar"; "foo"]) as Hnodup
    by (apply (bool_decide_unpack _); vm_compute; exact I).
  split; [exact Hsorted|]. split; [exact Hnodup|].
  split; [|reflexivity].
  exact (proj1 (insertToSortedListIfNotPresent_idempotent
                  ["bar"; "foo"] "baz" Hsorted Hnodup)).
Defined.

(** ** The aggregator: the merge *)

Lemma HasVersion_spec p version :
  packages.HasVersion p version = true
  ↔ version ∈ packages.Asset_Version <$> packages.Assets p.
Proof. unfold packages.HasVersion. apply bool_decide_eq_true. Qed.

Lemma replaceVersion_absent assets version a :
  version ∉ packages.Asset_Version <$> assets →
  packages.replaceVersion assets version a = assets.
Proof.
  induction assets as [|b assets IH]; intros Hnotin; [done|].
  simpl in *. apply not_elem_of_cons in Hnotin as [Hne Hnotin].
  destruct (decide _) as [Heq|_]; [by destruct Hne|]. by rewrite IH.
Qed.

(** Replacing the entry that was appended last. *)
Lemma replaceVersion_last assets version a1 a2 :
  version ∉ packages.Asset_Version <$> assets →
  packages.Asset_Version a1 = version →
  packages.replaceVersion (assets ++ [a1]) version a2 = assets ++ [a2].
Proof.
  intros Hnotin Ha1.
  induction assets as [|b assets IH]; simpl in *.
  - by rewrite decide_True.
  - apply not_elem_of_cons in Hnotin as [Hne Hnotin].
    destruct (decide _) as [Heq|_]; [by destruct Hne|]. by rewrite IH.
Qed.

Lemma filter_version_absent (assets : list packages.Asset) version :
  version ∉ packages.Asset_Version <$> assets →
  filter (λ a, packages.Asset_Version a = version) assets = [].
Proof.
  induction assets as [|b assets IH]; intros Hnotin; [done|].
  simpl in Hnotin. apply not_elem_of_cons in Hnotin as [Hne Hnotin].
  rewrite filter_cons_False by done. auto.
Qed.

Lemma NoDup_versions_snoc (assets : list packages.Asset) a :
  packages.Asset_Version a ∉ packages.Asset_Version <$> assets →
  NoDup (packages.Asset_Version <$> assets) →
  NoDup (packages.Asset_Version <$> (assets ++ [a])).
Proof.
  intros Hnotin Hnodup. rewrite fmap_app. apply NoDup_app.
  split; [done|]. split; [|apply NoDup_singleton].
  intros v Hv Hv'. apply list_elem_of_singleton in Hv'. by subst.
Qed.

(** C4.  Documents as the merge step sees them: [doc] has no entry for
    [version]; [a1] and then [a2] are merged for that version, the second
    merge working on the document the first one produced.  The outcome has
    exactly one entry for the version, [a2], in the place where [a1] was
    appended; and if the versions of [doc] were pairwise distinct, they are
    so after each merge.  The same holds when the first merge starts from the
    base descriptor because no document was stored yet. *)
Theorem merge_same_version_twice (doc : packages.Package) version a1 a2 :
  packages.HasVersion doc version = false →
  packages.Asset_Version a1 = version →
  packages.Asset_Version a2 = version →
  ∃ doc1 doc2,
    kv.mergeAssets doc None version a1 = Ok (doc1, true)
    ∧ kv.mergeAssets doc1 None version a2 = Ok (doc2, true)
    ∧ packages.entriesOf doc2 version = [a2]
    ∧ packages.Assets doc2 = packages.Assets doc ++ [a2]
    ∧ length (packages.Assets doc2) = length (packages.Assets doc1)
    ∧ (NoDup (packages.Asset_Version <$> packages.Assets doc) →
       NoDup (packages.Asset_Version <$> packages.Assets doc1)
       ∧ NoDup (packages.Asset_Version <$> packages.Assets doc2))
    ∧ ∀ key, ∃ new1 new2,
        kv.mergeAssets doc (Some (KeyNotFoundError key)) version a1
        = Ok (new1, false)
        ∧ kv.mergeAssets new1 None version a2 = Ok (new2, true)
        ∧ packages.Assets new2 = [a2].
Proof.
  intros Hfresh Ha1 Ha2.
  assert (version ∉ packages.Asset_Version <$> packages.Assets doc) as Hnotin.
  { intros Hin%HasVersion_spec. congruence. }
  exists (packages.set_Version
            (packages.set_Assets doc (packages.Assets doc ++ [a1]))
            (Some version)),
         (packages.set_Version
            (packages.set_Assets doc (packages.Assets doc ++ [a2]))
            (Some version)).
  assert (∀ assets a,
            packages.Asset_Version a = version →
            packages.HasVersion
              (packages.set_Version
                 (packages.set_Assets doc (assets ++ [a])) (Some version))
              version = true) as Hnow.
  { intros assets a Ha. apply HasVersion_spec. simpl. rewrite fmap_app.
    apply elem_of_app. right. simpl. rewrite Ha. by left. }
  split; [|split; [|split; [|split; [|split; [|split]]]]].
  - unfold kv.mergeAssets. by rewrite Hfresh.
  - unfold kv.mergeAssets. rewrite Hnow by done. simpl.
    unfold packages.UpdateVersion. simpl.
    by rewrite replaceVersion_last.
  - unfold packages.entriesOf. simpl.
    rewrite filter_app, filter_version_absent by done.
    by rewrite filter_cons_True.
  - done.
  - simpl. by rewrite !length_app.
  - intros Hnodup. simpl. split; apply NoDup_versions_snoc; congruence.
  - intros key.
    exists (packages.set_Version (packages.set_Assets doc [a1])
              (Some version)),
           (packages.set_Version (packages.set_Assets doc [a2])
              (Some version)).
    split; [done|]. split; [|done].
    unfold kv.mergeAssets.
    change [a1] with ([] ++ [a1]). rewrite (Hnow [] a1) by done. simpl.
    unfold packages.UpdateVersion. simpl. by rewrite decide_True.
Qed.

Lemma merge_same_version_twice_witness :
  packages.HasVersion sample.jquery "3.5.0" = false
  ∧ packages.Asset_Version (sample.asset "3.5.0" ["a.js"]) = "3.5.0"
  ∧ packages.Asset_Version (sample.asset "3.5.0" ["b.js"]) = "3.5.0"
  ∧ ∃ doc1 doc2,
      kv.mergeAssets sample.jquery None "3.5.0"
        (sample.asset "3.5.0" ["a.js"]) = Ok (doc1, true)
      ∧ kv.mergeAssets doc1 None "3.5.0" (sample.asset "3.5.0" ["b.js"])
        = Ok (doc2, true)
      ∧ packages.Assets doc2 = [sample.asset "3.5.0" ["b.js"]].
Proof.
  split; [reflexivity|]. split; [reflexivity|]. split; [reflexivity|].
  destruct (merge_same_version_twice sample.jquery "3.5.0"
              (sample.asset "3.5.0" ["a.js"]) (sample.asset "3.5.0" ["b.js"])
              eq_refl eq_refl eq_refl)
    as (doc1 & doc2 & H1 & H2 & _ & H4 & _).
  exists doc1, doc2. split; [exact H1|]. split; [exact H2|]. exact H4.
Defined.

(** ** The aggregator: reading, merging, writing *)

Section aggregator.
Context {json : JSON packages.Package} {gzip : Compress}.
Context {W : Type} (h : Handler W).

(** Running a sequence: the first part, then the rest on its result. *)
Lemma run_bind {A B : Type} (m : Prog A) (f : A → Prog B) (w : W) :
  run h (m ≫= f) w
  = match run h m w with
    | (Returned a, w1, log1) =>
        let '(o, w2, log2) := run h (f a) w1 in (o, w2, log1 ++ log2)
    | (Panicked v, w1, log1) => (Panicked v, w1, log1)
    end.
Proof.
  revert w. induction m as [a|v|q k IH]; intros w; simpl.
  - by destruct (run h (f a) w) as [[o w2] log2].
  - reflexivity.
  - destruct (handle h q w) as [x w1].
    change (bind (k x) f) with (k x ≫= f). rewrite IH.
    destruct (run h (k x) w1) as [[[a|v] w2] log1]; [|reflexivity].
    by destruct (run h (f a) w2) as [[o w3] log2].
Qed.

(** A failed read gives no document and the error, whatever it is. *)
Lemma run_getAggregatedMetadata_error (w w1 : W) cfg key bytes e :
  handle h (KVRead key (aggregatedMetadataNamespaceID cfg)) w
  = ((bytes, Some e), w1) →
  run h (kv.getAggregatedMetadata cfg key) w
  = (Returned (None, Some e), w1,
     [KVRead key (aggregatedMetadataNamespaceID cfg)]).
Proof.
  intros Hread. unfold kv.getAggregatedMetadata. simpl. by rewrite Hread.
Qed.

(** The writer issues at most one request: the bulk write of the gzipped
    document. *)
Lemma run_writeAggregatedMetadata (w : W) cfg doc name :
  packages.Name doc = Some name →
  ∃ successfulWrites err w1,
    run h (kv.writeAggregatedMetadata cfg doc) w
    = (Returned (successfulWrites, err), w1,
       match json_Marshal doc with
       | Ok v =>
           [KVEncodeAndWriteKVBulk
              [ {| req_Name := name; req_Key := name;
                   req_Value := Gzip9Bytes v |} ]
              (aggregatedMetadataNamespaceID cfg) true]
       | Err _ => []
       end).
Proof.
  intros Hname. unfold kv.writeAggregatedMetadata.
  destruct (json_Marshal doc) as [v|e']; rewrite Hname; simpl.
  - destruct (handle h
                (KVEncodeAndWriteKVBulk
                   [ {| req_Name := name; req_Key := name;
                        req_Value := Gzip9Bytes v |} ]
                   (aggregatedMetadataNamespaceID cfg) true) w)
      as [[keys err] w1].
    by exists keys, err, w1.
  - by eexists _, _, _.
Qed.

(** The call after a failed read: the merge decides. *)
Lemma run_UpdateAggregatedMetadata_no_document
    (w w1 : W) cfg pkg name newVersion newAssets bytes e :
  packages.Name pkg = Some name →
  handle h (KVRead name (aggregatedMetadataNamespaceID cfg)) w
  = ((bytes, Some e), w1) →
  run h (kv.UpdateAggregatedMetadata cfg pkg newVersion newAssets) w
  = match kv.mergeAssets pkg (Some e) newVersion newAssets with
    | Err e' =>
        (Returned ([], false, Some e'), w1,
         [KVRead name (aggregatedMetadataNamespaceID cfg)])
    | Ok (doc, found) =>
        let '(o, w2, log) := run h (kv.writeAggregatedMetadata cfg doc) w1 in
        (match o with
         | Returned (keys, err) => Returned (keys, found, err)
         | Panicked v => Panicked v
         end, w2, KVRead name (aggregatedMetadataNamespaceID cfg) :: log)
    end.
Proof.
  intros Hname Hread. unfold kv.UpdateAggregatedMetadata.
  rewrite Hname, run_bind. cbn [kv.deref run]. rewrite run_bind.
  rewrite (run_getAggregatedMetadata_error w w1 cfg name bytes e Hread).
  cbv zeta. change (default pkg None) with pkg.
  destruct (kv.mergeAssets pkg (Some e) newVersion newAssets)
    as [[doc found]|e']; [|reflexivity].
  rewrite run_bind.
  destruct (run h (kv.writeAggregatedMetadata cfg doc) w1)
    as [[[[keys err]|v] w2] log]; simpl; by rewrite ?app_nil_r.
Qed.

(** C7.  When the read of the existing document fails with an error that is
    not [KeyNotFoundError], the call returns that very error, with no keys
    and [found = false]; the read is the only request it issued, and the
    world is as the read left it. *)
Theorem UpdateAggregatedMetadata_read_error
    (w w1 : W) cfg pkg name newVersion newAssets bytes e :
  packages.Name pkg = Some name →
  handle h (KVRead name (aggregatedMetadataNamespaceID cfg)) w
  = ((bytes, Some e), w1) →
  (∀ key, e ≠ KeyNotFoundError key) →
  run h (kv.UpdateAggregatedMetadata cfg pkg newVersion newAssets) w
  = (Returned ([], false, Some e), w1,
     [KVRead name (aggregatedMetadataNamespaceID cfg)])
  ∧ writes_of
      (log_of (run h (kv.UpdateAggregatedMetadata cfg pkg newVersion
                        newAssets) w)) = [].
Proof.
  intros Hname Hread Hother.
  rewrite (run_UpdateAggregatedMetadata_no_document w w1 cfg pkg name
             newVersion newAssets bytes e Hname Hread).
  destruct e as [key|msg]; [by destruct (Hother key)|]. done.
Qed.

(** C6.  When the read answers [KeyNotFoundError], the document handed to
    the writer is the package's own descriptor with [assets] set to the one
    new record (and [version] to the new version), and the call returns
    [found = false].  The log shows the read and then, if the document
    marshals, one bulk write of its gzipped bytes. *)
Theorem UpdateAggregatedMetadata_key_not_found
    (w w1 : W) cfg pkg name newVersion newAssets bytes key :
  packages.Name pkg = Some name →
  handle h (KVRead name (aggregatedMetadataNamespaceID cfg)) w
  = ((bytes, Some (KeyNotFoundError key)), w1) →
  let doc := {| packages.Name := Some name;
                packages.Version := Some newVersion;
                packages.Assets := [newAssets];
                packages.Fields := packages.Fields pkg |} in
  kv.mergeAssets pkg (Some (KeyNotFoundError key)) newVersion newAssets
  = Ok (doc, false)
  ∧ ∃ successfulWrites err w2,
      run h (kv.UpdateAggregatedMetadata cfg pkg newVersion newAssets) w
      = (Returned (successfulWrites, false, err), w2,
         KVRead name (aggregatedMetadataNamespaceID cfg)
         :: match json_Marshal doc with
            | Ok v =>
                [KVEncodeAndWriteKVBulk
                   [ {| req_Name := name; req_Key := name;
                        req_Value := Gzip9Bytes v |} ]
                   (aggregatedMetadataNamespaceID cfg) true]
            | Err _ => []
            end).
Proof.
  intros Hname Hread doc.
  assert (kv.mergeAssets pkg (Some (KeyNotFoundError key)) newVersion newAssets
          = Ok (doc, false)) as Hmerge.
  { unfold kv.mergeAssets, packages.set_Version, packages.set_Assets, doc.
    simpl. by rewrite Hname. }
  split; [exact Hmerge|].
  rewrite (run_UpdateAggregatedMetadata_no_document w w1 cfg pkg name
             newVersion newAssets bytes _ Hname Hread), Hmerge.
  destruct (run_writeAggregatedMetadata w1 cfg doc name eq_refl)
    as (keys & err & w2 & ->).
  by exists keys, err, w2.
Qed.
End aggregator.

Lemma UpdateAggregatedMetadata_read_error_witness :
  packages.Name sample.jquery = Some "jquery"
  ∧ handle (sample.world (sample.failing "authentication error")
              sample.accepted)
      (KVRead "jquery" (aggregatedMetadataNamespaceID sample.smallConfig)) ()
    = (([], Some (errorString "authentication error")), ())
  ∧ (∀ key, errorString "authentication error" ≠ KeyNotFoundError key)
  ∧ run (sample.world (sample.failing "authentication error")
           sample.accepted)
      (kv.UpdateAggregatedMetadata
         (json := sample.writeOnlyJSON sample.packageText)
         (gzip := sample.storedCompress)
         sample.smallConfig sample.jquery "3.5.0"
         (sample.asset "3.5.0" ["jquery.js"])) ()
    = (Returned ([], false, Some (errorString "authentication error")), (),
       [KVRead "jquery" "aggregated"]).
Proof.
  split; [reflexivity|]. split; [reflexivity|]. split; [discriminate|].
  exact (proj1 (UpdateAggregatedMetadata_read_error
                  (json := sample.writeOnlyJSON sample.packageText)
                  (gzip := sample.storedCompress)
                  (sample.world (sample.failing "authentication error")
                     sample.accepted)
                  () () sample.smallConfig sample.jquery "jquery" "3.5.0"
                  (sample.asset "3.5.0" ["jquery.js"]) []
                  (errorString "authentication error")
                  eq_refl eq_refl ltac:(discriminate))).
Defined.

Lemma UpdateAggregatedMetadata_key_not_found_witness :
  packages.Name sample.jquery = Some "jquery"
  ∧ handle (sample.world (sample.notFound "jquery") sample.accepted)
      (KVRead "jquery" (aggregatedMetadataNamespaceID sample.smallConfig)) ()
    = (([], Some (KeyNotFoundError "jquery")), ())
  ∧ kv.mergeAssets sample.jquery (Some (KeyNotFoundError "jquery")) "3.5.0"
      (sample.asset "3.5.0" ["jquery.js"])
    = Ok ({| packages.Name := Some "jquery";
             packages.Version := Some "3.5.0";
             packages.Assets := [sample.asset "3.5.0" ["jquery.js"]];
             packages.Fields := [("license", "MIT")] |}, false)
  ∧ ∃ successfulWrites err w2,
      run (sample.world (sample.notFound "jquery") sample.accepted)
        (kv.UpdateAggregatedMetadata
           (json := sample.writeOnlyJSON sample.packageText)
           (gzip := sample.storedCompress)
           sample.smallConfig sample.jquery "3.5.0"
           (sample.asset "3.5.0" ["jquery.js"])) ()
      = (Returned (successfulWrites, false, err), w2,
         [KVRead "jquery" "aggregated";
          KVEncodeAndWriteKVBulk
            [ {| req_Name := "jquery"; req_Key := "jquery";
                 req_Value := String.list_byte_of_string "jquery@3.5.0" |} ]
            "aggregated" true]).
Proof.
  split; [reflexivity|]. split; [reflexivity|].
  exact (UpdateAggregatedMetadata_key_not_found
           (json := sample.writeOnlyJSON sample.packageText)
           (gzip := sample.storedCompress)
           (sample.world (sample.notFound "jquery") sample.accepted)
           () () sample.smallConfig sample.jquery "jquery" "3.5.0"
           (sample.asset "3.5.0" ["jquery.js"]) [] "jquery"
           eq_refl eq_refl).
Defined.

(** ** The aggregator: the version field *)

Lemma mergeAssets_version aggPkg err newVersion newAssets doc found :
  kv.mergeAssets aggPkg err newVersion newAssets = Ok (doc, found) →
  packages.Version doc = Some newVersion.
Proof.
  unfold kv.mergeAssets. intros Hmerge.
  destruct err as [[key|msg]|]; [|discriminate|];
    injection Hmerge as <- _; reflexivity.
Qed.

Section aggregator_writes.
Context {json : JSON packages.Package} {gzip : Compress}.
Context {W : Type} (h : Handler W).

(** What the writer can put on the wire for a document. *)
Lemma writeAggregatedMetadata_log (w : W) cfg doc q :
  q ∈ log_of (run h (kv.writeAggregatedMetadata cfg doc) w) →
  ∃ name v, json_Marshal doc = Ok v
    ∧ q = KVEncodeAndWriteKVBulk
            [ {| req_Name := name; req_Key := name;
                 req_Value := Gzip9Bytes v |} ]
            (aggregatedMetadataNamespaceID cfg) true.
Proof.
  unfold kv.writeAggregatedMetadata, log_of.
  destruct (json_Marshal doc) as [v|e'];
    destruct (packages.Name doc) as [name|]; simpl;
    try (intros Hq; by apply elem_of_nil in Hq).
  destruct (handle h _ w) as [[keys err] w1]. simpl.
  intros ->%list_elem_of_singleton. by exists name, v.
Qed.

(** Every request of [UpdateAggregatedMetadata] is its read, or the write
    of a document whose [version] is the new version. *)
Lemma UpdateAggregatedMetadata_log (w : W) cfg pkg newVersion newAssets q :
  q ∈ log_of (run h (kv.UpdateAggregatedMetadata cfg pkg newVersion
                       newAssets) w) →
  (∃ name, q = KVRead name (aggregatedMetadataNamespaceID cfg))
  ∨ ∃ doc name v,
      packages.Version doc = Some newVersion
      ∧ json_Marshal doc = Ok v
      ∧ q = KVEncodeAndWriteKVBulk
              [ {| req_Name := name; req_Key := name;
                   req_Value := Gzip9Bytes v |} ]
              (aggregatedMetadataNamespaceID cfg) true.
Proof.
  unfold kv.UpdateAggregatedMetadata.
  destruct (packages.Name pkg) as [name|]; cbn [kv.deref];
    [|intros Hq; by apply elem_of_nil in Hq].
  rewrite run_bind. cbn [run]. rewrite run_bind.
  assert (∃ r w1,
            run h (kv.getAggregatedMetadata cfg name) w
            = (r, w1, [KVRead name (aggregatedMetadataNamespaceID cfg)]))
    as (r & w1 & ->).
  { unfold kv.getAggregatedMetadata. simpl.
    destruct (handle h _ w) as [[gz [e|]] w1]; simpl; [by eexists _, _|].
    destruct (UnGzip gz) as [raw|e]; [|by eexists _, _].
    destruct (json_Unmarshal raw) as [p|e]; by eexists _, _. }
  destruct r as [[aggPkg err]|v]; cbv zeta.
  2: { unfold log_of. simpl. intros ->%list_elem_of_singleton. eauto. }
  destruct (kv.mergeAssets (default pkg aggPkg) err newVersion newAssets)
    as [[doc found]|e] eqn:Hmerge.
  2: { unfold log_of. simpl. intros ->%list_elem_of_singleton. eauto. }
  apply mergeAssets_version in Hmerge. rewrite run_bind.
  pose proof (writeAggregatedMetadata_log w1 cfg doc) as Hwrite.
  unfold log_of in *.
  destruct (run h (kv.writeAggregatedMetadata cfg doc) w1)
    as [[[[keys err']|v] w2] log]; simpl in *; rewrite ?app_nil_r;
    intros [->|Hq]%elem_of_cons; eauto;
    destruct (Hwrite q Hq) as (name' & v' & ? & ?); right;
    by exists doc, name', v'.
Qed.
End aggregator_writes.

(** C9.  In each case of the merge the resulting document's [version] is
    the new version, whatever versions the document held: when nothing was
    stored, when the version is appended, and when its entry is replaced.
    Accordingly every document that [UpdateAggregatedMetadata] asks to be
    written carries the new version. *)
Theorem merged_version_is_newVersion
    {json : JSON packages.Package} {gzip : Compress}
    (aggPkg : packages.Package) (newVersion : string)
    (newAssets : packages.Asset) :
  (∀ key, ∃ doc,
     kv.mergeAssets aggPkg (Some (KeyNotFoundError key)) newVersion newAssets
     = Ok (doc, false)
     ∧ packages.Version doc = Some newVersion
     ∧ packages.Assets doc = [newAssets])
  ∧ (packages.HasVersion aggPkg newVersion = false →
     ∃ doc,
       kv.mergeAssets aggPkg None newVersion newAssets = Ok (doc, true)
       ∧ packages.Version doc = Some newVersion
       ∧ packages.Assets doc = packages.Assets aggPkg ++ [newAssets])
  ∧ (packages.HasVersion aggPkg newVersion = true →
     ∃ doc,
       kv.mergeAssets aggPkg None newVersion newAssets = Ok (doc, true)
       ∧ packages.Version doc = Some newVersion
       ∧ packages.Assets doc
         = packages.replaceVersion (packages.Assets aggPkg) newVersion
             newAssets)
  ∧ ∀ (W : Type) (h : Handler W) (w : W) cfg pkg kvs ns metadata,
      KVEncodeAndWriteKVBulk kvs ns metadata
      ∈ log_of (run h (kv.UpdateAggregatedMetadata cfg pkg newVersion
                         newAssets) w) →
      ∃ doc name v,
        packages.Version doc = Some newVersion
        ∧ json_Marshal doc = Ok v
        ∧ kvs = [ {| req_Name := name; req_Key := name;
                     req_Value := Gzip9Bytes v |} ].
Proof.
  split; [|split; [|split]].
  - intros key. by eexists.
  - intros Hfresh. unfold kv.mergeAssets. rewrite Hfresh. by eexists.
  - intros Hold. unfold kv.mergeAssets. rewrite Hold. by eexists.
  - intros W h w cfg pkg kvs ns metadata Hq.
    apply UpdateAggregatedMetadata_log in Hq
      as [[name Hq]|(doc & name & v & Hversion & Hmarshal & Hq)];
      [discriminate|].
    injection Hq as -> _ _. by exists doc, name, v.
Qed.

(** Version "1.12.4" ingested into a document that already holds
    "3.5.0". *)
Lemma merged_version_is_newVersion_witness :
  packages.HasVersion
    (packages.set_Assets sample.jquery [sample.asset "3.5.0" ["jquery.js"]])
    "1.12.4" = false
  ∧ ∃ doc,
      kv.mergeAssets
        (packages.set_Assets sample.jquery
           [sample.asset "3.5.0" ["jquery.js"]])
        None "1.12.4" (sample.asset "1.12.4" ["jquery.min.js"])
      = Ok (doc, true)
      ∧ packages.Version doc = Some "1.12.4"
      ∧ packages.Assets doc
        = [sample.asset "3.5.0" ["jquery.js"];
           sample.asset "1.12.4" ["jquery.min.js"]].
Proof.
  split; [reflexivity|].
  exact (proj1 (proj2 (merged_version_is_newVersion
                         (json := sample.writeOnlyJSON sample.packageText)
                         (gzip := sample.storedCompress)
                         (packages.set_Assets sample.jquery
                            [sample.asset "3.5.0" ["jquery.js"]])
                         "1.12.4" (sample.asset "1.12.4" ["jquery.min.js"])))
           eq_refl).
Defined.

(** ** The index builder: a failed read *)

Section index_builder_reads.
Context {jsonRoot : JSON cmdkv.Root} {jsonPackage : JSON cmdkv.Package}.
Context {W : Type} (h : Handler W).

(** Whatever error the read of the root document reports, [updateRoot]
    goes on with a document that holds the one package. *)
Lemma updateRoot_after_failed_read (w w1 : W) cfg pkg bytes e :
  handle h (ReadWorkersKV (namespaceID cfg) cmdkv.rootKey) w
  = ((bytes, Some e), w1) →
  run h (cmdkv.updateRoot cfg pkg) w
  = (match json_Marshal {| cmdkv.Packages := [pkg] |} with
     | Ok v => Returned {| cmdkv.Key := cmdkv.rootKey; cmdkv.Value := v |}
     | Err e' => Panicked (PanicError e')
     end, w1, [ReadWorkersKV (namespaceID cfg) cmdkv.rootKey]).
Proof.
  intros Hread. unfold cmdkv.updateRoot, cmdkv.readKV. simpl.
  rewrite Hread. simpl. unfold cmdkv.marshalChecked.
  by destruct (json_Marshal {| cmdkv.Packages := [pkg] |}).
Qed.

(** The same for the package document. *)
Lemma updatePackage_after_failed_read (w w1 : W) cfg pkg version bytes e :
  handle h (ReadWorkersKV (namespaceID cfg) pkg) w = ((bytes, Some e), w1) →
  run h (cmdkv.updatePackage cfg pkg version) w
  = (match json_Marshal {| cmdkv.Versions := [version] |} with
     | Ok v => Returned {| cmdkv.Key := pkg; cmdkv.Value := v |}
     | Err e' => Panicked (PanicError e')
     end, w1, [ReadWorkersKV (namespaceID cfg) pkg]).
Proof.
  intros Hread. unfold cmdkv.updatePackage, cmdkv.readKV. simpl.
  rewrite Hread. simpl. unfold cmdkv.marshalChecked.
  by destruct (json_Marshal {| cmdkv.Versions := [version] |}).
Qed.
End index_builder_reads.

(** C2 does not hold of [updateRoot] and [updatePackage].  In a world where
    every read fails with an authentication error, ingesting version 3.5.0
    of jquery (no files) does not abort: both reads are taken for "key not
    found", and one bulk write is submitted that replaces the package
    document by the one version and the root document by the one package. *)
Theorem updateKV_writes_after_failed_reads :
  run (sample.world (sample.failing "authentication error") sample.accepted)
    (cmdkv.updateKV
       (jsonRoot := sample.rootJSON) (jsonPackage := sample.versionsJSON)
       (jsonVersion := sample.filesJSON) (pathLib := sample.joinPath)
       sample.smallConfig "jquery" "3.5.0" "/tmp/jquery/3.5.0" []) ()
  = (Returned (), (),
     [ ReadWorkersKV "files" "jquery";
       ReadWorkersKV "files" "/";
       WriteWorkersKVBulk "files"
         [ cmdkv.encodedPair
             {| cmdkv.Key := "jquery/3.5.0";
                cmdkv.Value := String.list_byte_of_string "files:" |};
           cmdkv.encodedPair
             {| cmdkv.Key := "jquery";
                cmdkv.Value :=
                  String.list_byte_of_string "versions:3.5.0" |};
           cmdkv.encodedPair
             {| cmdkv.Key := "/";
                cmdkv.Value :=
                  String.list_byte_of_string "packages:jquery" |} ] ]).
Proof. vm_compute. reflexivity. Qed.

(** * Further properties *)

(** ** The bulk writer: order, failures, greedy packing *)

Lemma submitted_writes ns bs :
  submitted (WriteWorkersKVBulk ns <$> bs) = bs.
Proof.
  induction bs as [|b bs IH]; [done|].
  unfold submitted in *. csimpl. by rewrite IH.
Qed.

Lemma submitted_app log1 log2 :
  submitted (log1 ++ log2) = submitted log1 ++ submitted log2.
Proof. apply omap_app. Qed.

(** The packing loop loses and reorders nothing, whatever the ceilings. *)
Lemma pack_loop_any_config cfg kvs st :
  Forall (λ kv, cmdkv.rawSize kv ≤ MaxFileSize cfg) kvs →
  ∃ st', forEach kvs (cmdkv.packOne cfg) st = Ret st'
    ∧ concat (cmdkv.bulkWrites st') ++ cmdkv.bulkWrite st'
      = concat (cmdkv.bulkWrites st) ++ cmdkv.bulkWrite st
        ++ (cmdkv.encodedPair <$> kvs).
Proof.
  revert st. induction kvs as [|kv kvs IH]; intros st Hraw.
  - exists st. by rewrite app_nil_r.
  - apply Forall_cons in Hraw as [Hkv Hraw].
    destruct (packOne_accepted cfg st kv Hkv)
      as (st1 & Hstep & _ & [(Hws & Hw & _)|(Hws & Hw & _)]);
      destruct (IH st1 Hraw) as (st' & Hrun & Hcat);
      exists st'; simpl; rewrite Hstep, bind_Ret; (split; [done|]);
      rewrite Hcat, Hws, Hw.
    + by rewrite <- !app_assoc.
    + rewrite concat_app. simpl. by rewrite app_nil_r, <- !app_assoc.
Qed.

(** X1.  Whatever the two ceilings are, if no item's raw size exceeds
    [MaxFileSize] the call is the submission of batches whose concatenation
    is the input, pair by pair and in order, each pair carrying its item's
    key, the base64 text of its value and the base64 flag; and in any world
    the pairs that were submitted so far form a prefix of the input. *)
Theorem encodeAndWriteKVBulk_keeps_every_item cfg kvs :
  Forall (λ kv, cmdkv.rawSize kv ≤ MaxFileSize cfg) kvs →
  ∃ batches,
    cmdkv.encodeAndWriteKVBulk cfg kvs
    = forEach batches (cmdkv.writeOne cfg) ()
    ∧ concat batches = cmdkv.encodedPair <$> kvs
    ∧ ∀ (W : Type) (h : Handler W) (w : W),
        concat (submitted
                  (log_of (run h (cmdkv.encodeAndWriteKVBulk cfg kvs) w)))
        `prefix_of` (cmdkv.encodedPair <$> kvs).
Proof.
  intros Hraw.
  destruct (pack_loop_any_config cfg kvs
              {| cmdkv.bulkWrites := []; cmdkv.bulkWrite := [];
                 cmdkv.totalSize := 0 |} Hraw) as (st & Hrun & Hcat).
  simpl in Hcat.
  assert (cmdkv.encodeAndWriteKVBulk cfg kvs
          = forEach (cmdkv.bulkWrites st ++ [cmdkv.bulkWrite st])
              (cmdkv.writeOne cfg) ()) as Hprog.
  { unfold cmdkv.encodeAndWriteKVBulk. by rewrite Hrun, bind_Ret. }
  assert (concat (cmdkv.bulkWrites st ++ [cmdkv.bulkWrite st])
          = cmdkv.encodedPair <$> kvs) as Hall.
  { rewrite concat_app. simpl. by rewrite app_nil_r. }
  exists (cmdkv.bulkWrites st ++ [cmdkv.bulkWrite st]).
  split; [done|]. split; [done|].
  intros W h w. rewrite Hprog, <- Hall.
  destruct (write_loop_log h cfg
              (cmdkv.bulkWrites st ++ [cmdkv.bulkWrite st]) w)
    as [rest Hlog].
  set (log := log_of _) in *.
  exists (concat (submitted rest)).
  rewrite <- concat_app, <- submitted_app, <- Hlog.
  by rewrite submitted_writes.
Qed.

Lemma encodeAndWriteKVBulk_keeps_every_item_witness :
  Forall (λ kv, cmdkv.rawSize kv ≤ MaxFileSize sample.smallConfig)
    [sample.item "a.js" 900; sample.item "b.js" 900]
  ∧ ∃ batches,
      cmdkv.encodeAndWriteKVBulk sample.smallConfig
        [sample.item "a.js" 900; sample.item "b.js" 900]
      = forEach batches (cmdkv.writeOne sample.smallConfig) ()
      ∧ concat batches
        = cmdkv.encodedPair
            <$> [sample.item "a.js" 900; sample.item "b.js" 900].
Proof.
  assert (Forall (λ kv, cmdkv.rawSize kv ≤ MaxFileSize sample.smallConfig)
            [sample.item "a.js" 900; sample.item "b.js" 900]) as Hraw
    by (repeat constructor; vm_compute; discriminate).
  split; [exact Hraw|].
  destruct (encodeAndWriteKVBulk_keeps_every_item sample.smallConfig _ Hraw)
    as (batches & Hprog & Hcat & _).
  by exists batches.
Defined.




Lemma greedy_snoc_extend c l b p :
  greedy c (l ++ [b]) → greedy c (l ++ [b ++ [p]]).
Proof.
  induction l as [|a l IH]; [done|].
  destruct l as [|a' l]; simpl in *.
  - intros [Hab _]. split; [|done]. by destruct b.
  - intros [Haa' Hrest]. split; [done|]. by apply IH.
Qed.

Lemma greedy_snoc_new c l b p :
  greedy c (l ++ [b]) → cmdkv.bulkSize b + pairSize p > c →
  greedy c ((l ++ [b]) ++ [[p]]).
Proof.
  intros Hl Hp. induction l as [|a l IH]; [done|].
  destruct l as [|a' l]; simpl in *.
  - destruct Hl as [Hab _]. done.
  - destruct Hl as [Haa' Hrest]. split; [done|]. by apply IH.
Qed.

(** The packing loop closes a batch only when the next pair does not fit. *)
Lemma pack_loop_greedy cfg kvs st :
  maxBulkPayload cfg < 2 ^ 62 →
  Forall (λ kv, cmdkv.rawSize kv ≤ MaxFileSize cfg
                ∧ cmdkv.encodedSize kv ≤ maxBulkPayload cfg) kvs →
  cmdkv.pack_inv cfg st →
  greedy (maxBulkPayload cfg) (cmdkv.bulkWrites st ++ [cmdkv.bulkWrite st]) →
  ∃ st', forEach kvs (cmdkv.packOne cfg) st = Ret st'
    ∧ greedy (maxBulkPayload cfg)
        (cmdkv.bulkWrites st' ++ [cmdkv.bulkWrite st']).
Proof.
  intros Hmax. revert st.
  induction kvs as [|kv kvs IH]; intros st Hfit Hinv Hgreedy.
  - by exists st.
  - apply Forall_cons in Hfit as [[Hraw Henc] Hfit].
    destruct Hinv as (Hclosed & Hopen & Htotal).
    pose proof (bulkSize_nonneg (cmdkv.bulkWrite st)) as Hpos.
    assert (0 ≤ cmdkv.encodedSize kv) as Hepos
      by (unfold cmdkv.encodedSize; lia).
    destruct (packOne_accepted cfg st kv Hraw)
      as (st1 & Hstep & Hne & [(Hws & Hw & Ht & Hle)|(Hws & Hw & Ht & Hgt)]).
    + rewrite Int64_add_exact in Ht, Hle by lia.
      destruct (IH st1 Hfit) as (st' & Hrun & Hgreedy').
      { repeat split; [by rewrite Hws| |lia].
        rewrite Hw, bulkSize_snoc, Ht, <- Hopen. reflexivity. }
      { rewrite Hws, Hw. by apply greedy_snoc_extend. }
      exists st'. simpl. by rewrite Hstep, bind_Ret.
    + rewrite Int64_add_exact in Hgt by lia.
      rewrite Int64_add_exact in Ht by lia.
      destruct (IH st1 Hfit) as (st' & Hrun & Hgreedy').
      { repeat split.
        - rewrite Hws. apply Forall_app. split; [done|].
          apply Forall_singleton. split; [lia|].
          intros Hnil. rewrite Hnil in Hopen. simpl in Hopen. lia.
        - rewrite Hw, Ht. unfold cmdkv.encodedSize, cmdkv.encodedPair.
          simpl. lia.
        - lia. }
      { rewrite Hws, Hw. apply greedy_snoc_new; [done|].
        unfold pairSize, cmdkv.encodedPair. simpl.
        fold (cmdkv.encodedSize kv). lia. }
      exists st'. simpl. by rewrite Hstep, bind_Ret.
Qed.

(** X3.  The packing is greedy: under a valid configuration and with every
    encoded size within the per-item ceiling, each batch after the first
    starts with a pair that would have pushed the batch before it over
    [maxBulkPayload].  No batch is closed while the next pair still fits. *)
Theorem encodeAndWriteKVBulk_splits_only_when_full cfg kvs :
  valid_config cfg →
  Forall (λ kv, cmdkv.encodedSize kv ≤ MaxFileSize cfg) kvs →
  ∃ batches,
    cmdkv.encodeAndWriteKVBulk cfg kvs
    = forEach batches (cmdkv.writeOne cfg) ()
    ∧ concat batches = cmdkv.encodedPair <$> kvs
    ∧ greedy (maxBulkPayload cfg) batches.
Proof.
  intros [[Hmin Hlt] Hmax] Hsmall.
  assert (Forall (λ kv, cmdkv.rawSize kv ≤ MaxFileSize cfg
                        ∧ cmdkv.encodedSize kv ≤ maxBulkPayload cfg) kvs)
    as Hfit.
  { eapply Forall_impl; [exact Hsmall|]. intros kv Hkv. simpl in Hkv.
    pose proof (rawSize_le_encodedSize kv). lia. }
  destruct (pack_loop_greedy cfg kvs
              {| cmdkv.bulkWrites := []; cmdkv.bulkWrite := [];
                 cmdkv.totalSize := 0 |} Hmax Hfit)
    as (st & Hrun & Hgreedy); [|done|].
  { repeat split; simpl; [constructor|lia]. }
  destruct (pack_loop_any_config cfg kvs
              {| cmdkv.bulkWrites := []; cmdkv.bulkWrite := [];
                 cmdkv.totalSize := 0 |}) as (st2 & Hrun2 & Hcat).
  { eapply Forall_impl; [exact Hfit|]. by intros kv [? _]. }
  rewrite Hrun in Hrun2. injection Hrun2 as <-. simpl in Hcat.
  exists (cmdkv.bulkWrites st ++ [cmdkv.bulkWrite st]).
  split; [|split; [|done]].
  - unfold cmdkv.encodeAndWriteKVBulk. by rewrite Hrun, bind_Ret.
  - rewrite concat_app. simpl. by rewrite app_nil_r.
Qed.

Lemma encodeAndWriteKVBulk_splits_only_when_full_witness :
  valid_config sample.smallConfig
  ∧ Forall (λ kv, cmdkv.encodedSize kv ≤ MaxFileSize sample.smallConfig)
      [sample.item "a" 675; sample.item "b" 675; sample.item "c" 675]
  ∧ ∃ batches,
      cmdkv.encodeAndWriteKVBulk sample.smallConfig
        [sample.item "a" 675; sample.item "b" 675; sample.item "c" 675]
      = forEach batches (cmdkv.writeOne sample.smallConfig) ()
      ∧ concat batches
        = cmdkv.encodedPair
            <$> [sample.item "a" 675; sample.item "b" 675;
                 sample.item "c" 675]
      ∧ greedy 2500 batches.
Proof.
  assert (valid_config sample.smallConfig) as Hcfg
    by (vm_compute; intuition discriminate).
  assert (Forall (λ kv, cmdkv.encodedSize kv ≤ MaxFileSize sample.smallConfig)
            [sample.item "a" 675; sample.item "b" 675; sample.item "c" 675])
    as Hsmall by (repeat constructor; vm_compute; discriminate).
  split; [exact Hcfg|]. split; [exact Hsmall|].
  exact (encodeAndWriteKVBulk_splits_only_when_full sample.smallConfig _
           Hcfg Hsmall).
Defined.

Lemma bulkSize_cons_encoded kv b :
  cmdkv.bulkSize (cmdkv.encodedPair kv :: b)
  = cmdkv.encodedSize kv + cmdkv.bulkSize b.
Proof. reflexivity. Qed.

(** As long as the total fits, nothing is closed. *)
Lemma pack_loop_one_batch cfg kvs st :
  maxBulkPayload cfg < 2 ^ 62 →
  Forall (λ kv, cmdkv.rawSize kv ≤ MaxFileSize cfg) kvs →
  0 ≤ cmdkv.totalSize st →
  cmdkv.totalSize st + cmdkv.bulkSize (cmdkv.encodedPair <$> kvs)
  ≤ maxBulkPayload cfg →
  ∃ st', forEach kvs (cmdkv.packOne cfg) st = Ret st'
    ∧ cmdkv.bulkWrites st' = cmdkv.bulkWrites st
    ∧ cmdkv.bulkWrite st'
      = cmdkv.bulkWrite st ++ (cmdkv.encodedPair <$> kvs).
Proof.
  intros Hmax. revert st.
  induction kvs as [|kv kvs IH]; intros st Hraw Hpos Hsum.
  - exists st. by rewrite app_nil_r.
  - apply Forall_cons in Hraw as [Hkv Hraw].
    rewrite fmap_cons, bulkSize_cons_encoded in Hsum.
    pose proof (bulkSize_nonneg (cmdkv.encodedPair <$> kvs)) as Hrest.
    assert (0 ≤ cmdkv.encodedSize kv) as Hepos
      by (unfold cmdkv.encodedSize; lia).
    simpl. rewrite packOne_eq, bind_Ret by done.
    rewrite Int64_add_exact by lia.
    rewrite bool_decide_eq_false_2 by lia.
    destruct (IH {| cmdkv.bulkWrites := cmdkv.bulkWrites st;
                    cmdkv.bulkWrite :=
                      cmdkv.bulkWrite st ++ [cmdkv.encodedPair kv];
                    cmdkv.totalSize :=
                      cmdkv.totalSize st + cmdkv.encodedSize kv |})
      as (st' & Hrun & Hws & Hw); [done|simpl; lia|simpl; lia|].
    exists st'. split; [done|]. split; [done|].
    rewrite Hw. simpl. by rewrite <- app_assoc.
Qed.

(** X4.  When the encoded sizes of all items add up to at most
    [maxBulkPayload], the call issues exactly one bulk write, carrying every
    item in order; the world's answer to it decides the outcome. *)
Theorem encodeAndWriteKVBulk_one_request_when_total_fits cfg kvs :
  0 ≤ maxBulkPayload cfg < 2 ^ 62 →
  Forall (λ kv, cmdkv.rawSize kv ≤ MaxFileSize cfg) kvs →
  cmdkv.bulkSize (cmdkv.encodedPair <$> kvs) ≤ maxBulkPayload cfg →
  cmdkv.encodeAndWriteKVBulk cfg kvs
  = forEach [cmdkv.encodedPair <$> kvs] (cmdkv.writeOne cfg) ()
  ∧ ∀ (W : Type) (h : Handler W) (w : W),
      log_of (run h (cmdkv.encodeAndWriteKVBulk cfg kvs) w)
      = [WriteWorkersKVBulk (namespaceID cfg) (cmdkv.encodedPair <$> kvs)].
Proof.
  intros [Hmin Hmax] Hraw Hsum.
  destruct (pack_loop_one_batch cfg kvs
              {| cmdkv.bulkWrites := []; cmdkv.bulkWrite := [];
                 cmdkv.totalSize := 0 |} Hmax Hraw)
    as (st & Hrun & Hws & Hw); [simpl; lia|simpl; lia|].
  simpl in Hws, Hw.
  assert (cmdkv.encodeAndWriteKVBulk cfg kvs
          = forEach [cmdkv.encodedPair <$> kvs] (cmdkv.writeOne cfg) ())
    as Hprog.
  { unfold cmdkv.encodeAndWriteKVBulk. by rewrite Hrun, bind_Ret, Hws, Hw. }
  split; [exact Hprog|]. intros W h w. rewrite Hprog, write_loop_step.
  unfold log_of. simpl.
  destruct (handle h _ w) as [[r [e|]] w1]; simpl; [done|].
  by destruct (cloudflare.Success r).
Qed.

Lemma encodeAndWriteKVBulk_one_request_when_total_fits_witness :
  0 ≤ maxBulkPayload sample.productionConfig < 2 ^ 62
  ∧ Forall (λ kv, cmdkv.rawSize kv ≤ MaxFileSize sample.productionConfig)
      [sample.item "a" 675; sample.item "b" 675; sample.item "c" 675]
  ∧ cmdkv.bulkSize
      (cmdkv.encodedPair
         <$> [sample.item "a" 675; sample.item "b" 675; sample.item "c" 675])
    ≤ maxBulkPayload sample.productionConfig
  ∧ cmdkv.encodeAndWriteKVBulk sample.productionConfig
      [sample.item "a" 675; sample.item "b" 675; sample.item "c" 675]
    = forEach
        [cmdkv.encodedPair
           <$> [sample.item "a" 675; sample.item "b" 675;
                sample.item "c" 675]]
        (cmdkv.writeOne sample.productionConfig) ().
Proof.
  assert (0 ≤ maxBulkPayload sample.productionConfig < 2 ^ 62) as Hcfg
    by (vm_compute; intuition discriminate).
  assert (Forall
            (λ kv, cmdkv.rawSize kv ≤ MaxFileSize sample.productionConfig)
            [sample.item "a" 675; sample.item "b" 675; sample.item "c" 675])
    as Hraw by (repeat constructor; vm_compute; discriminate).
  assert (cmdkv.bulkSize
            (cmdkv.encodedPair
               <$> [sample.item "a" 675; sample.item "b" 675;
                    sample.item "c" 675])
          ≤ maxBulkPayload sample.productionConfig) as Hsum
    by (vm_compute; discriminate).
  split; [exact Hcfg|]. split; [exact Hraw|]. split; [exact Hsum|].
  exact (proj1 (encodeAndWriteKVBulk_one_request_when_total_fits
                  sample.productionConfig _ Hcfg Hraw Hsum)).
Defined.

(** X5.  The panic names the first oversized item of the input: the items
    before it passed the check, and whatever follows is not looked at.
    Nothing is written. *)
Theorem encodeAndWriteKVBulk_names_first_oversized
    {W : Type} (h : Handler W) (w : W) cfg pre kv post :
  Forall (λ kv', cmdkv.rawSize kv' ≤ MaxFileSize cfg) pre →
  cmdkv.rawSize kv > MaxFileSize cfg →
  run h (cmdkv.encodeAndWriteKVBulk cfg (pre ++ kv :: post)) w
  = (Panicked (PanicOversized (cmdkv.Key kv) (cmdkv.rawSize kv)), w, []).
Proof.
  intros Hpre Hbig.
  assert (∀ st, forEach (pre ++ kv :: post) (cmdkv.packOne cfg) st
                = Panic (PanicOversized (cmdkv.Key kv) (cmdkv.rawSize kv)))
    as Hloop.
  { induction Hpre as [|kv' pre Hkv' Hpre IH]; intros st; simpl.
    - by rewrite packOne_oversized, bind_Panic.
    - destruct (packOne_accepted cfg st kv' Hkv') as (st1 & -> & _).
      by rewrite bind_Ret. }
  unfold cmdkv.encodeAndWriteKVBulk. by rewrite Hloop, bind_Panic.
Qed.

Lemma encodeAndWriteKVBulk_names_first_oversized_witness :
  Forall (λ kv', cmdkv.rawSize kv' ≤ MaxFileSize sample.smallConfig)
    [sample.item "ok.js" 10]
  ∧ cmdkv.rawSize (sample.item "big.js" 1001) > MaxFileSize sample.smallConfig
  ∧ run (sample.world (sample.notFound "/") sample.accepted)
      (cmdkv.encodeAndWriteKVBulk sample.smallConfig
         ([sample.item "ok.js" 10]
          ++ sample.item "big.js" 1001 :: [sample.item "bigger.js" 2000])) ()
    = (Panicked (PanicOversized "big.js" 1001), (), []).
Proof.
  assert (Forall (λ kv', cmdkv.rawSize kv' ≤ MaxFileSize sample.smallConfig)
            [sample.item "ok.js" 10]) as Hpre
    by (repeat constructor; vm_compute; discriminate).
  assert (cmdkv.rawSize (sample.item "big.js" 1001)
          > MaxFileSize sample.smallConfig) as Hbig
    by (vm_compute; reflexivity).
  split; [exact Hpre|]. split; [exact Hbig|].
  exact (encodeAndWriteKVBulk_names_first_oversized
           (sample.world (sample.notFound "/") sample.accepted) ()
           sample.smallConfig _ _ [sample.item "bigger.js" 2000] Hpre Hbig).
Defined.

(** ** Sorted lists: rank, length, order of insertion *)

Lemma filter_all {A : Type} (P : A → Prop) `{!∀ x, Decision (P x)}
    (l : list A) :
  Forall P l → filter P l = l.
Proof.
  induction 1 as [|x l Hx Hl IH]; [done|].
  by rewrite filter_cons_True, IH.
Qed.

Lemma filter_none {A : Type} (P : A → Prop) `{!∀ x, Decision (P x)}
    (l : list A) :
  Forall (λ x, ¬ P x) l → filter P l = [].
Proof.
  induction 1 as [|x l Hx Hl IH]; [done|]. by rewrite filter_cons_False.
Qed.

(** X6.  On a sorted slice [sort.SearchStrings] returns the number of
    elements that are smaller than the value, which is at most the length;
    if the value occurs in the slice, that is an index at which it stands. *)
Theorem SearchStrings_is_rank (a : list string) x :
  Sorted String.le a →
  sort.SearchStrings a x = length (filter (λ y, ¬ String.le x y) a)
  ∧ (sort.SearchStrings a x ≤ length a)%nat
  ∧ (x ∈ a → a !! sort.SearchStrings a x = Some x).
Proof.
  intros Hsorted%Sorted_StronglySorted; [|apply _].
  destruct (SearchStrings_spec a x Hsorted) as (Hk & Hlo & Hhi).
  split; [|split; [done|]].
  - rewrite <- (take_drop (sort.SearchStrings a x) a) at 2.
    rewrite filter_app, filter_all, filter_none.
    + rewrite app_nil_r, length_take. lia.
    + apply Forall_lookup. intros m y Hy Hxy. apply Hxy.
      rewrite lookup_drop in Hy. eapply Hhi; [done|lia].
    + apply Forall_lookup. intros m y Hy.
      apply lookup_take_Some in Hy as [Hy Hm]. by eapply Hlo.
  - intros Hin. apply list_elem_of_lookup in Hin as [m Hm].
    assert (sort.SearchStrings a x ≤ m)%nat as Hkm.
    { destruct (decide (sort.SearchStrings a x ≤ m)%nat); [done|].
      destruct (Hlo m x Hm); [lia|done]. }
    apply lookup_lt_Some in Hm as Hlt.
    destruct (lookup_lt_is_Some_2 a (sort.SearchStrings a x)) as [y Hy];
      [lia|].
    rewrite Hy. f_equal. apply (anti_symm String.le).
    + by eapply sorted_lookup_le.
    + by eapply Hhi.
Qed.

Lemma SearchStrings_is_rank_witness :
  Sorted String.le ["bar"; "baz"; "foo"]
  ∧ sort.SearchStrings ["bar"; "baz"; "foo"] "baz" = 1%nat
  ∧ sort.SearchStrings ["bar"; "baz"; "foo"] "baz"
    = length (filter (λ y, ¬ String.le "baz" y) ["bar"; "baz"; "foo"]).
Proof.
  assert (Sorted String.le ["bar"; "baz"; "foo"]) as Hsorted
    by (repeat constructor).
  split; [exact Hsorted|]. split; [reflexivity|].
  exact (proj1 (SearchStrings_is_rank ["bar"; "baz"; "foo"] "baz" Hsorted)).
Defined.

(** X7.  A value that is absent makes the slice one longer, a value that
    is present leaves the length alone. *)
Theorem insertToSortedListIfNotPresent_length (sorted : list string) s :
  Sorted String.le sorted →
  length (cmdkv.insertToSortedListIfNotPresent sorted s)
  = if decide (s ∈ sorted) then length sorted else S (length sorted).
Proof.
  intros Hsorted%Sorted_StronglySorted; [|apply _].
  destruct (decide (s ∈ sorted)) as [Hin|Hnotin].
  - by rewrite insert_present.
  - destruct (insert_absent sorted s Hsorted Hnotin) as (k & -> & _).
    rewrite length_app. simpl.
    rewrite <- (take_drop k sorted) at 3. rewrite length_app. lia.
Qed.

Lemma insertToSortedListIfNotPresent_length_witness :
  Sorted String.le ["bar"; "foo"]
  ∧ length (cmdkv.insertToSortedListIfNotPresent ["bar"; "foo"] "baz") = 3%nat
  ∧ length (cmdkv.insertToSortedListIfNotPresent ["bar"; "foo"] "foo") = 2%nat.
Proof.
  assert (Sorted String.le ["bar"; "foo"]) as Hsorted
    by (repeat constructor).
  split; [exact Hsorted|]. split.
  - exact (insertToSortedListIfNotPresent_length ["bar"; "foo"] "baz"
             Hsorted).
  - exact (insertToSortedListIfNotPresent_length ["bar"; "foo"] "foo"
             Hsorted).
Defined.

(** X8.  The order of two insertions does not matter: on a sorted,
    duplicate-free slice, inserting [x] and then [y] gives the slice that
    inserting [y] and then [x] gives. *)
Theorem insertToSortedListIfNotPresent_commutes (sorted : list string) x y :
  Sorted String.le sorted →
  NoDup sorted →
  cmdkv.insertToSortedListIfNotPresent
    (cmdkv.insertToSortedListIfNotPresent sorted x) y
  = cmdkv.insertToSortedListIfNotPresent
      (cmdkv.insertToSortedListIfNotPresent sorted y) x.
Proof.
  intros Hsorted%Sorted_StronglySorted Hnodup; [|apply _].
  apply (StronglySorted_unique String.le).
  - by do 2 apply insert_sorted.
  - by do 2 apply insert_sorted.
  - apply NoDup_Permutation.
    + apply insert_NoDup; [by apply insert_sorted|by apply insert_NoDup].
    + apply insert_NoDup; [by apply insert_sorted|by apply insert_NoDup].
    + intros z.
      rewrite !insert_elem_of by (done || by apply insert_sorted). tauto.
Qed.

Lemma insertToSortedListIfNotPresent_commutes_witness :
  Sorted String.le ["bar"]
  ∧ NoDup ["bar"]
  ∧ cmdkv.insertToSortedListIfNotPresent
      (cmdkv.insertToSortedListIfNotPresent ["bar"] "foo") "baz"
    = cmdkv.insertToSortedListIfNotPresent
        (cmdkv.insertToSortedListIfNotPresent ["bar"] "baz") "foo".
Proof.
  assert (Sorted String.le ["bar"]) as Hsorted by (repeat constructor).
  assert (NoDup ["bar"]) as Hnodup
    by (apply (bool_decide_unpack _); vm_compute; exact I).
  split; [exact Hsorted|]. split; [exact Hnodup|].
  exact (insertToSortedListIfNotPresent_commutes ["bar"] "foo" "baz"
           Hsorted Hnodup).
Defined.

(** ** The index builder: documents that exist *)

Section index_builder_found.
Context {jsonRoot : JSON cmdkv.Root} {jsonPackage : JSON cmdkv.Package}.
Context {W : Type} (h : Handler W).

(** X9.  When the root document is read and decodes to a sorted,
    duplicate-free list, [updateRoot] issues that one read and nothing else,
    and the document it returns for writing holds the stored list with the
    package inserted: still sorted and duplicate-free, the package in it,
    and no stored name lost. *)
Theorem updateRoot_keeps_names_sorted (w w1 : W) cfg pkg bytes r :
  handle h (ReadWorkersKV (namespaceID cfg) cmdkv.rootKey) w
  = ((bytes, None), w1) →
  json_Unmarshal bytes = Ok r →
  Sorted String.le (cmdkv.Packages r) →
  NoDup (cmdkv.Packages r) →
  ∃ packages',
    run h (cmdkv.updateRoot cfg pkg) w
    = (match json_Marshal {| cmdkv.Packages := packages' |} with
       | Ok v => Returned {| cmdkv.Key := cmdkv.rootKey; cmdkv.Value := v |}
       | Err e => Panicked (PanicError e)
       end, w1, [ReadWorkersKV (namespaceID cfg) cmdkv.rootKey])
    ∧ Sorted String.le packages'
    ∧ NoDup packages'
    ∧ pkg ∈ packages'
    ∧ (∀ name, name ∈ cmdkv.Packages r → name ∈ packages').
Proof.
  intros Hread Hdecode Hsorted Hnodup.
  exists (cmdkv.insertToSortedListIfNotPresent (cmdkv.Packages r) pkg).
  apply Sorted_StronglySorted in Hsorted; [|apply _].
  split; [|split; [|split; [|split]]].
  - unfold cmdkv.updateRoot, cmdkv.readKV. simpl. rewrite Hread. simpl.
    unfold cmdkv.unmarshalChecked. rewrite Hdecode. simpl.
    unfold cmdkv.marshalChecked. by destruct (json_Marshal _).
  - by apply StronglySorted_Sorted, insert_sorted.
  - by apply insert_NoDup.
  - apply insert_elem_of; auto.
  - intros name Hname. apply insert_elem_of; auto.
Qed.

(** X10.  The same for the package document and its versions. *)
Theorem updatePackage_keeps_versions_sorted
    (w w1 : W) cfg pkg version bytes p :
  handle h (ReadWorkersKV (namespaceID cfg) pkg) w = ((bytes, None), w1) →
  json_Unmarshal bytes = Ok p →
  Sorted String.le (cmdkv.Versions p) →
  NoDup (cmdkv.Versions p) →
  ∃ versions',
    run h (cmdkv.updatePackage cfg pkg version) w
    = (match json_Marshal {| cmdkv.Versions := versions' |} with
       | Ok v => Returned {| cmdkv.Key := pkg; cmdkv.Value := v |}
       | Err e => Panicked (PanicError e)
       end, w1, [ReadWorkersKV (namespaceID cfg) pkg])
    ∧ Sorted String.le versions'
    ∧ NoDup versions'
    ∧ version ∈ versions'
    ∧ (∀ v, v ∈ cmdkv.Versions p → v ∈ versions').
Proof.
  intros Hread Hdecode Hsorted Hnodup.
  exists (cmdkv.insertToSortedListIfNotPresent (cmdkv.Versions p) version).
  apply Sorted_StronglySorted in Hsorted; [|apply _].
  split; [|split; [|split; [|split]]].
  - unfold cmdkv.updatePackage, cmdkv.readKV. simpl. rewrite Hread. simpl.
    unfold cmdkv.unmarshalChecked. rewrite Hdecode. simpl.
    unfold cmdkv.marshalChecked. by destruct (json_Marshal _).
  - by apply StronglySorted_Sorted, insert_sorted.
  - by apply insert_NoDup.
  - apply insert_elem_of; auto.
  - intros v Hv. apply insert_elem_of; auto.
Qed.

(** X11.  A stored index document that does not decode is fatal: the call
    panics with the decoding error right after its read and returns no
    document to write, for the root and for a package alike. *)
Theorem undecodable_index_document_panics cfg pkg version :
  (∀ (w w1 : W) bytes e,
     handle h (ReadWorkersKV (namespaceID cfg) cmdkv.rootKey) w
     = ((bytes, None), w1) →
     json_Unmarshal (A := cmdkv.Root) bytes = Err e →
     run h (cmdkv.updateRoot cfg pkg) w
     = (Panicked (PanicError e), w1,
        [ReadWorkersKV (namespaceID cfg) cmdkv.rootKey]))
  ∧ (∀ (w w1 : W) bytes e,
       handle h (ReadWorkersKV (namespaceID cfg) pkg) w
       = ((bytes, None), w1) →
       json_Unmarshal (A := cmdkv.Package) bytes = Err e →
       run h (cmdkv.updatePackage cfg pkg version) w
       = (Panicked (PanicError e), w1,
          [ReadWorkersKV (namespaceID cfg) pkg])).
Proof.
  split; intros w w1 bytes e Hread Hdecode.
  - unfold cmdkv.updateRoot, cmdkv.readKV. simpl. rewrite Hread. simpl.
    unfold cmdkv.unmarshalChecked. by rewrite Hdecode.
  - unfold cmdkv.updatePackage, cmdkv.readKV. simpl. rewrite Hread. simpl.
    unfold cmdkv.unmarshalChecked. by rewrite Hdecode.
Qed.
End index_builder_found.

Lemma updateRoot_keeps_names_sorted_witness :
  handle (sample.world
            (sample_more.stored
               (sample_more.encodeLines ["bootstrap"; "jquery"]))
            sample.accepted)
    (ReadWorkersKV (namespaceID sample.smallConfig) cmdkv.rootKey) ()
  = ((sample_more.encodeLines ["bootstrap"; "jquery"], None), ())
  ∧ json_Unmarshal (JSON := sample_more.linesRoot)
      (sample_more.encodeLines ["bootstrap"; "jquery"])
    = Ok {| cmdkv.Packages := ["bootstrap"; "jquery"] |}
  ∧ Sorted String.le ["bootstrap"; "jquery"]
  ∧ NoDup ["bootstrap"; "jquery"]
  ∧ ∃ packages',
      run (sample.world
             (sample_more.stored
                (sample_more.encodeLines ["bootstrap"; "jquery"]))
             sample.accepted)
        (cmdkv.updateRoot (jsonRoot := sample_more.linesRoot)
           sample.smallConfig "d3") ()
      = (Returned
           {| cmdkv.Key := "/";
              cmdkv.Value := sample_more.encodeLines packages' |},
         (), [ReadWorkersKV "files" "/"])
      ∧ Sorted String.le packages'
      ∧ NoDup packages'
      ∧ "d3" ∈ packages'
      ∧ (∀ name, name ∈ ["bootstrap"; "jquery"] → name ∈ packages').
Proof.
  assert (Sorted String.le ["bootstrap"; "jquery"]) as Hsorted
    by (repeat constructor).
  assert (NoDup ["bootstrap"; "jquery"]) as Hnodup
    by (apply (bool_decide_unpack _); vm_compute; exact I).
  split; [reflexivity|]. split; [reflexivity|].
  split; [exact Hsorted|]. split; [exact Hnodup|].
  exact (updateRoot_keeps_names_sorted
           (jsonRoot := sample_more.linesRoot)
           (sample.world
              (sample_more.stored
                 (sample_more.encodeLines ["bootstrap"; "jquery"]))
              sample.accepted)
           () () sample.smallConfig "d3"
           (sample_more.encodeLines ["bootstrap"; "jquery"])
           {| cmdkv.Packages := ["bootstrap"; "jquery"] |}
           eq_refl eq_refl Hsorted Hnodup).
Defined.

Lemma updatePackage_keeps_versions_sorted_witness :
  handle (sample.world
            (sample_more.stored (sample_more.encodeLines ["1.0.0"; "3.5.0"]))
            sample.accepted)
    (ReadWorkersKV (namespaceID sample.smallConfig) "jquery") ()
  = ((sample_more.encodeLines ["1.0.0"; "3.5.0"], None), ())
  ∧ json_Unmarshal (JSON := sample_more.linesPackage)
      (sample_more.encodeLines ["1.0.0"; "3.5.0"])
    = Ok {| cmdkv.Versions := ["1.0.0"; "3.5.0"] |}
  ∧ Sorted String.le ["1.0.0"; "3.5.0"]
  ∧ NoDup ["1.0.0"; "3.5.0"]
  ∧ ∃ versions',
      run (sample.world
             (sample_more.stored
                (sample_more.encodeLines ["1.0.0"; "3.5.0"]))
             sample.accepted)
        (cmdkv.updatePackage (jsonPackage := sample_more.linesPackage)
           sample.smallConfig "jquery" "2.2.4") ()
      = (Returned
           {| cmdkv.Key := "jquery";
              cmdkv.Value := sample_more.encodeLines versions' |},
         (), [ReadWorkersKV "files" "jquery"])
      ∧ Sorted String.le versions'
      ∧ NoDup versions'
      ∧ "2.2.4" ∈ versions'
      ∧ (∀ v, v ∈ ["1.0.0"; "3.5.0"] → v ∈ versions').
Proof.
  assert (Sorted String.le ["1.0.0"; "3.5.0"]) as Hsorted
    by (repeat constructor).
  assert (NoDup ["1.0.0"; "3.5.0"]) as Hnodup
    by (apply (bool_decide_unpack _); vm_compute; exact I).
  split; [reflexivity|]. split; [reflexivity|].
  split; [exact Hsorted|]. split; [exact Hnodup|].
  exact (updatePackage_keeps_versions_sorted
           (jsonPackage := sample_more.linesPackage)
           (sample.world
              (sample_more.stored
                 (sample_more.encodeLines ["1.0.0"; "3.5.0"]))
              sample.accepted)
           () () sample.smallConfig "jquery" "2.2.4"
           (sample_more.encodeLines ["1.0.0"; "3.5.0"])
           {| cmdkv.Versions := ["1.0.0"; "3.5.0"] |}
           eq_refl eq_refl Hsorted Hnodup).
Defined.

Lemma undecodable_index_document_panics_witness :
  handle (sample.world (sample_more.stored []) sample.accepted)
    (ReadWorkersKV (namespaceID sample.smallConfig) cmdkv.rootKey) ()
  = (([], None), ())
  ∧ json_Unmarshal (JSON := sample.rootJSON) []
    = Err (errorString "not decoded in the examples")
  ∧ run (sample.world (sample_more.stored []) sample.accepted)
      (cmdkv.updateRoot (jsonRoot := sample.rootJSON)
         sample.smallConfig "jquery") ()
    = (Panicked (PanicError (errorString "not decoded in the examples")),
       (), [ReadWorkersKV "files" "/"]).
Proof.
  split; [reflexivity|]. split; [reflexivity|].
  exact (proj1 (undecodable_index_document_panics
                  (jsonRoot := sample.rootJSON)
                  (jsonPackage := sample.versionsJSON)
                  (sample.world (sample_more.stored []) sample.accepted)
                  sample.smallConfig "jquery" "3.5.0")
           () () [] _ eq_refl eq_refl).
Defined.

(** ** The index builder: files, and reads before writes *)

Section index_builder_files.
Context {jsonRoot : JSON cmdkv.Root} {jsonPackage : JSON cmdkv.Package}
  {jsonVersion : JSON cmdkv.Version} {pathLib : Path}.
Context {W : Type} (h : Handler W).

(** One round of the loop of [updateFiles]. *)
Lemma run_updateFile base full acc p (w : W) :
  (∃ e w1,
     run h (cmdkv.updateFile base full acc p) w
     = (Panicked (PanicError e), w1, [ReadFile (path_Join [full; p])]))
  ∨ ∃ bytes sri w1,
      run h (cmdkv.updateFile base full acc p) w
      = (Returned
           (acc.1 ++ [ {| cmdkv.Key := path_Join [base; p];
                          cmdkv.Value := bytes |} ],
            acc.2 ++ [ {| cmdkv.Name := p; cmdkv.SRI := sri |} ]),
         w1,
         [ReadFile (path_Join [full; p]);
          CalculateFileSRI (path_Join [full; p])]).
Proof.
  unfold cmdkv.updateFile. simpl.
  destruct (handle h (ReadFile (path_Join [full; p])) w)
    as [[bytes [e|]] w1]; simpl; [left; by eexists _, _|].
  destruct (handle h (CalculateFileSRI (path_Join [full; p])) w1)
    as [sri w2]. right. by eexists _, _, _.
Qed.

Lemma updateFiles_loop base full paths acc (w : W) :
  log_of (run h (forEach paths (cmdkv.updateFile base full) acc) w)
  `prefix_of` fileRequests full paths
  ∧ match (run h (forEach paths (cmdkv.updateFile base full) acc) w).1.1 with
    | Returned (kvs, files) =>
        log_of (run h (forEach paths (cmdkv.updateFile base full) acc) w)
        = fileRequests full paths
        ∧ cmdkv.Key <$> kvs
          = (cmdkv.Key <$> acc.1) ++ ((λ p, path_Join [base; p]) <$> paths)
        ∧ cmdkv.Name <$> files = (cmdkv.Name <$> acc.2) ++ paths
    | Panicked v => ∃ e, v = PanicError e
    end.
Proof.
  revert acc w. induction paths as [|p paths IH]; intros acc w.
  - unfold log_of. destruct acc as [kvs files]. simpl.
    by rewrite !app_nil_r.
  - cbn [forEach]. rewrite run_bind.
    destruct (run_updateFile base full acc p w)
      as [(e & w1 & ->)|(bytes & sri & w1 & ->)].
    + unfold log_of. simpl. split; [|by eexists].
      apply prefix_cons, prefix_nil.
    + specialize (IH (acc.1 ++ [ {| cmdkv.Key := path_Join [base; p];
                                    cmdkv.Value := bytes |} ],
                      acc.2 ++ [ {| cmdkv.Name := p; cmdkv.SRI := sri |} ])
                    w1).
      unfold log_of in *.
      destruct (run h (forEach paths (cmdkv.updateFile base full) _) w1)
        as [[o w2] log]. simpl in *.
      destruct IH as [Hprefix Hout]. split.
      { by do 2 apply prefix_cons. }
      destruct o as [[kvs files]|v]; [|done].
      destruct Hout as (-> & -> & ->).
      rewrite !fmap_app. simpl. by rewrite <- !app_assoc.
Qed.

(** X12.  [updateFiles] reads the files in the order of the listing and
    computes each digest right after the read.  When it returns, there is
    one write item and one file record per path, in order: the record bears
    the path as its name and the item's key is the path under
    [pkg/version].  It can only fail by panicking on a file read, and it
    never issues a request to the KV store. *)
Theorem updateFiles_follows_the_listing
    (w : W) pkg version fullPathToVersion fromVersionPaths :
  log_of (run h (cmdkv.updateFiles pkg version fullPathToVersion
                   fromVersionPaths) w)
  `prefix_of` fileRequests fullPathToVersion fromVersionPaths
  ∧ match (run h (cmdkv.updateFiles pkg version fullPathToVersion
                    fromVersionPaths) w).1.1 with
    | Returned (kvs, files) =>
        log_of (run h (cmdkv.updateFiles pkg version fullPathToVersion
                         fromVersionPaths) w)
        = fileRequests fullPathToVersion fromVersionPaths
        ∧ cmdkv.Key <$> kvs
          = (λ p, path_Join [path_Join [pkg; version]; p])
              <$> fromVersionPaths
        ∧ cmdkv.Name <$> files = fromVersionPaths
        ∧ length kvs = length fromVersionPaths
        ∧ length files = length fromVersionPaths
    | Panicked v => ∃ e, v = PanicError e
    end.
Proof.
  unfold cmdkv.updateFiles.
  destruct (updateFiles_loop (path_Join [pkg; version]) fullPathToVersion
              fromVersionPaths ([], []) w) as [Hprefix Hout].
  split; [exact Hprefix|].
  destruct (run h _ w) as [[[[kvs files]|v] w1] log]; [|done].
  simpl in *. destruct Hout as (Hlog & Hkeys & Hnames).
  split; [done|]. split; [done|]. split; [done|].
  split.
  - rewrite <- (length_fmap cmdkv.Key), Hkeys. by rewrite length_fmap.
  - by rewrite <- (length_fmap cmdkv.Name), Hnames.
Qed.
End index_builder_files.

Lemma pack_loop_pure cfg kvs st :
  (∃ st', forEach kvs (cmdkv.packOne cfg) st = Ret st')
  ∨ ∃ v, forEach kvs (cmdkv.packOne cfg) st = Panic v.
Proof.
  revert st. induction kvs as [|kv kvs IH]; intros st; [left; by eexists|].
  simpl.
  destruct (decide (cmdkv.rawSize kv > MaxFileSize cfg)) as [Hbig|Hsmall].
  - right. rewrite packOne_oversized, bind_Panic by done. by eexists.
  - destruct (packOne_accepted cfg st kv) as (st1 & -> & _); [lia|].
    rewrite bind_Ret. apply IH.
Qed.

(** The bulk writer asks for bulk writes and for nothing else. *)
Lemma encodeAndWriteKVBulk_only_writes {W : Type} (h : Handler W) cfg kvs w :
  Forall (λ q, ∃ b, q = WriteWorkersKVBulk (namespaceID cfg) b)
    (log_of (run h (cmdkv.encodeAndWriteKVBulk cfg kvs) w)).
Proof.
  unfold cmdkv.encodeAndWriteKVBulk.
  destruct (pack_loop_pure cfg kvs
              {| cmdkv.bulkWrites := []; cmdkv.bulkWrite := [];
                 cmdkv.totalSize := 0 |}) as [[st ->]|[v ->]].
  - rewrite bind_Ret. apply Forall_forall. intros q Hq.
    apply write_loop_elem in Hq as (b & _ & ->). by exists b.
  - rewrite bind_Panic. constructor.
Qed.

Section index_builder_order.
Context {jsonRoot : JSON cmdkv.Root} {jsonPackage : JSON cmdkv.Package}
  {jsonVersion : JSON cmdkv.Version} {pathLib : Path}.
Context {W : Type} (h : Handler W).

Lemma run_updateVersion pkg version files (w : W) :
  ∃ o, run h (cmdkv.updateVersion pkg version files) w = (o, w, []).
Proof.
  unfold cmdkv.updateVersion, cmdkv.marshalChecked.
  destruct (json_Marshal _); by eexists.
Qed.

Lemma run_updatePackage_log cfg pkg version (w : W) :
  ∃ o w1, run h (cmdkv.updatePackage cfg pkg version) w
          = (o, w1, [ReadWorkersKV (namespaceID cfg) pkg]).
Proof.
  unfold cmdkv.updatePackage, cmdkv.readKV. simpl.
  destruct (handle h (ReadWorkersKV (namespaceID cfg) pkg) w)
    as [[bytes [e|]] w1]; simpl;
    unfold cmdkv.marshalChecked, cmdkv.unmarshalChecked.
  - destruct (json_Marshal _); by eexists _, _.
  - destruct (json_Unmarshal bytes) as [p|e]; simpl; [|by eexists _, _].
    destruct (json_Marshal _); by eexists _, _.
Qed.

Lemma run_updateRoot_log cfg pkg (w : W) :
  ∃ o w1, run h (cmdkv.updateRoot cfg pkg) w
          = (o, w1, [ReadWorkersKV (namespaceID cfg) cmdkv.rootKey]).
Proof.
  unfold cmdkv.updateRoot, cmdkv.readKV. simpl.
  destruct (handle h (ReadWorkersKV (namespaceID cfg) cmdkv.rootKey) w)
    as [[bytes [e|]] w1]; simpl;
    unfold cmdkv.marshalChecked, cmdkv.unmarshalChecked.
  - destruct (json_Marshal _); by eexists _, _.
  - destruct (json_Unmarshal bytes) as [r|e]; simpl; [|by eexists _, _].
    destruct (json_Marshal _); by eexists _, _.
Qed.

(** X13.  [updateKV] reads before it writes.  Its log is a run of reads
    followed by a run of bulk writes; the reads go through the files of the
    listing, then the package document, then the root document, and a bulk
    write is only issued once all of them were made.  A panic while reading
    or encoding a document therefore leaves the KV store untouched. *)
Theorem updateKV_reads_before_writes
    (w : W) cfg pkg version fullPathToVersion fromVersionPaths :
  ∃ reads writes,
    log_of (run h (cmdkv.updateKV cfg pkg version fullPathToVersion
                     fromVersionPaths) w) = reads ++ writes
    ∧ reads `prefix_of`
        (fileRequests fullPathToVersion fromVersionPaths
         ++ [ReadWorkersKV (namespaceID cfg) pkg;
             ReadWorkersKV (namespaceID cfg) cmdkv.rootKey])
    ∧ Forall (λ q, ∃ b, q = WriteWorkersKVBulk (namespaceID cfg) b) writes
    ∧ (writes ≠ [] →
       reads = fileRequests fullPathToVersion fromVersionPaths
               ++ [ReadWorkersKV (namespaceID cfg) pkg;
                   ReadWorkersKV (namespaceID cfg) cmdkv.rootKey]).
Proof.
  unfold cmdkv.updateKV, cmdkv.updateFiles. rewrite run_bind.
  destruct (updateFiles_loop h (path_Join [pkg; version]) fullPathToVersion
              fromVersionPaths ([], []) w) as [Hprefix Hout].
  unfold log_of in *.
  destruct (run h (forEach fromVersionPaths _ ([], [])) w)
    as [[[[pairs files]|v] w1] log1]; simpl in Hprefix, Hout.
  2: { exists log1, []. rewrite app_nil_r. simpl.
       split; [done|]. split; [by apply prefix_app_r|].
       split; [constructor|done]. }
  destruct Hout as (-> & _ & _). cbv zeta. rewrite run_bind.
  destruct (run_updateVersion pkg version files w1) as [o2 ->].
  destruct o2 as [v|panic].
  2: { exists (fileRequests fullPathToVersion fromVersionPaths), [].
       simpl. rewrite !app_nil_r.
       split; [done|]. split; [by apply prefix_app_r|].
       split; [constructor|done]. }
  rewrite run_bind.
  destruct (run_updatePackage_log cfg pkg version w1) as (o3 & w3 & ->).
  destruct o3 as [p|panic].
  2: { exists (fileRequests fullPathToVersion fromVersionPaths
               ++ [ReadWorkersKV (namespaceID cfg) pkg]), [].
       simpl. rewrite !app_nil_r.
       split; [done|]. split; [|split; [constructor|done]].
       apply prefix_app, prefix_cons, prefix_nil. }
  rewrite run_bind.
  destruct (run_updateRoot_log cfg pkg w3) as (o4 & w4 & ->).
  destruct o4 as [r|panic].
  2: { exists (fileRequests fullPathToVersion fromVersionPaths
               ++ [ReadWorkersKV (namespaceID cfg) pkg;
                   ReadWorkersKV (namespaceID cfg) cmdkv.rootKey]), [].
       simpl. rewrite !app_nil_r. split; [done|]. split; [done|].
       split; [constructor|done]. }
  pose proof (encodeAndWriteKVBulk_only_writes h cfg
                (((pairs ++ [v]) ++ [p]) ++ [r]) w4) as Hwrites.
  unfold log_of in Hwrites.
  destruct (run h (cmdkv.encodeAndWriteKVBulk cfg _) w4)
    as [[o5 w5] log5]. simpl in *.
  exists (fileRequests fullPathToVersion fromVersionPaths
          ++ [ReadWorkersKV (namespaceID cfg) pkg;
              ReadWorkersKV (namespaceID cfg) cmdkv.rootKey]), log5.
  split; [by rewrite <- !app_assoc|]. done.
Qed.
End index_builder_order.

Example linesAggregated_round_trip :
  json_Unmarshal (JSON := sample_more.linesAggregated)
    (sample_more.encodeLines
       (sample_more.packageLines
          (packages.set_Assets sample.jquery
             [sample.asset "3.5.0" ["jquery.js"; "jquery.min.js"];
              sample.asset "1.12.4" []])))
  = Ok (packages.set_Assets sample.jquery
          [sample.asset "3.5.0" ["jquery.js"; "jquery.min.js"];
           sample.asset "1.12.4" []]).
Proof. vm_compute. reflexivity. Qed.

(** ** The aggregator: documents that exist, documents that cannot be
    read or written *)

Section aggregator_found.
Context {json : JSON packages.Package} {gzip : Compress}.
Context {W : Type} (h : Handler W).

(** What [getAggregatedMetadata] does with the answer to its read. *)
Lemma run_getAggregatedMetadata (w : W) cfg key :
  run h (kv.getAggregatedMetadata cfg key) w
  = let '(gzipBytes, err, w1) :=
      handle h (KVRead key (aggregatedMetadataNamespaceID cfg)) w in
    (match err with
     | Some e => Returned (None, Some e)
     | None =>
         match UnGzip gzipBytes with
         | Err e => Panicked (PanicError e)
         | Ok raw =>
             match json_Unmarshal raw with
             | Err e => Panicked (PanicError e)
             | Ok p => Returned (Some p, None)
             end
         end
     end, w1, [KVRead key (aggregatedMetadataNamespaceID cfg)]).
Proof.
  unfold kv.getAggregatedMetadata. simpl.
  destruct (handle h (KVRead key (aggregatedMetadataNamespaceID cfg)) w)
    as [[gz [e|]] w1]; simpl; [done|].
  destruct (UnGzip gz) as [raw|e]; [|done].
  by destruct (json_Unmarshal raw).
Qed.

(** The call, once the read has produced a document or an error. *)
Lemma run_UpdateAggregatedMetadata_after_get
    (w w1 : W) cfg pkg name newVersion newAssets aggPkg err :
  packages.Name pkg = Some name →
  run h (kv.getAggregatedMetadata cfg name) w
  = (Returned (aggPkg, err), w1,
     [KVRead name (aggregatedMetadataNamespaceID cfg)]) →
  run h (kv.UpdateAggregatedMetadata cfg pkg newVersion newAssets) w
  = match kv.mergeAssets (default pkg aggPkg) err newVersion newAssets with
    | Err e' =>
        (Returned ([], false, Some e'), w1,
         [KVRead name (aggregatedMetadataNamespaceID cfg)])
    | Ok (doc, found) =>
        let '(o, w2, log) := run h (kv.writeAggregatedMetadata cfg doc) w1 in
        (match o with
         | Returned (keys, err') => Returned (keys, found, err')
         | Panicked v => Panicked v
         end, w2, KVRead name (aggregatedMetadataNamespaceID cfg) :: log)
    end.
Proof.
  intros Hname Hget. unfold kv.UpdateAggregatedMetadata.
  rewrite Hname, run_bind. cbn [kv.deref run]. rewrite run_bind, Hget.
  cbv zeta.
  destruct (kv.mergeAssets (default pkg aggPkg) err newVersion newAssets)
    as [[doc found]|e']; [|reflexivity].
  rewrite run_bind.
  destruct (run h (kv.writeAggregatedMetadata cfg doc) w1)
    as [[[[keys err']|v] w2] log]; simpl; by rewrite ?app_nil_r.
Qed.

(** X14.  When a document is stored and decodes, the call merges into the
    stored document and reports [found = true]; the keys and the error it
    returns are the answer of the one bulk write, unchanged.  The write
    goes under the name recorded inside the stored document, with the
    gzipped marshalled result of the merge as its value. *)
Theorem UpdateAggregatedMetadata_found
    (w w1 w2 : W) cfg pkg name newVersion newAssets
    gz raw stored storedName doc v keys err :
  packages.Name pkg = Some name →
  handle h (KVRead name (aggregatedMetadataNamespaceID cfg)) w
  = ((gz, None), w1) →
  UnGzip gz = Ok raw →
  json_Unmarshal raw = Ok stored →
  packages.Name stored = Some storedName →
  kv.mergeAssets stored None newVersion newAssets = Ok (doc, true) →
  json_Marshal doc = Ok v →
  handle h
    (KVEncodeAndWriteKVBulk
       [ {| req_Name := storedName; req_Key := storedName;
            req_Value := Gzip9Bytes v |} ]
       (aggregatedMetadataNamespaceID cfg) true) w1
  = ((keys, err), w2) →
  run h (kv.UpdateAggregatedMetadata cfg pkg newVersion newAssets) w
  = (Returned (keys, true, err), w2,
     [KVRead name (aggregatedMetadataNamespaceID cfg);
      KVEncodeAndWriteKVBulk
        [ {| req_Name := storedName; req_Key := storedName;
             req_Value := Gzip9Bytes v |} ]
        (aggregatedMetadataNamespaceID cfg) true]).
Proof.
  intros Hname Hread Hgz Hdecode Hstored Hmerge Hmarshal Hwrite.
  rewrite (run_UpdateAggregatedMetadata_after_get w w1 cfg pkg name
             newVersion newAssets (Some stored) None Hname).
  2: { rewrite run_getAggregatedMetadata, Hread, Hgz, Hdecode. done. }
  change (default pkg (Some stored)) with stored. rewrite Hmerge.
  assert (packages.Name doc = Some storedName) as Hdoc.
  { unfold kv.mergeAssets in Hmerge. injection Hmerge as <-.
    simpl. destruct (negb _); done. }
  unfold kv.writeAggregatedMetadata. rewrite Hmarshal, Hdoc. simpl.
  by rewrite Hwrite.
Qed.

(** X15.  A merged document that cannot be marshalled is reported, not
    written: the call returns no keys and an error that names the package,
    the marshalling error itself is dropped, and the read stays the only
    request. *)
Theorem UpdateAggregatedMetadata_marshal_failure
    (w w1 : W) cfg pkg name newVersion newAssets
    aggPkg err doc found docName e :
  packages.Name pkg = Some name →
  run h (kv.getAggregatedMetadata cfg name) w
  = (Returned (aggPkg, err), w1,
     [KVRead name (aggregatedMetadataNamespaceID cfg)]) →
  kv.mergeAssets (default pkg aggPkg) err newVersion newAssets
  = Ok (doc, found) →
  packages.Name doc = Some docName →
  json_Marshal doc = Err e →
  run h (kv.UpdateAggregatedMetadata cfg pkg newVersion newAssets) w
  = (Returned
       ([], found,
        Some (errorString
                ("failed to marshal KV package JSON: " +:+ docName))),
     w1, [KVRead name (aggregatedMetadataNamespaceID cfg)]).
Proof.
  intros Hname Hget Hmerge Hdoc Hmarshal.
  rewrite (run_UpdateAggregatedMetadata_after_get w w1 cfg pkg name
             newVersion newAssets aggPkg err Hname Hget), Hmerge.
  unfold kv.writeAggregatedMetadata. by rewrite Hmarshal, Hdoc.
Qed.

(** X16.  Stored bytes that cannot be unzipped or decoded are fatal: the
    call panics with that error after its read, and does not write, so the
    stored bytes stay as they are. *)
Theorem UpdateAggregatedMetadata_undecodable
    (w w1 : W) cfg pkg name newVersion newAssets gz e :
  packages.Name pkg = Some name →
  handle h (KVRead name (aggregatedMetadataNamespaceID cfg)) w
  = ((gz, None), w1) →
  UnGzip gz = Err e
  ∨ (∃ raw, UnGzip gz = Ok raw ∧ json_Unmarshal raw = Err e) →
  run h (kv.UpdateAggregatedMetadata cfg pkg newVersion newAssets) w
  = (Panicked (PanicError e), w1,
     [KVRead name (aggregatedMetadataNamespaceID cfg)]).
Proof.
  intros Hname Hread Hbad. unfold kv.UpdateAggregatedMetadata.
  rewrite Hname, run_bind. cbn [kv.deref run].
  rewrite run_bind, run_getAggregatedMetadata, Hread.
  destruct Hbad as [->|(raw & -> & ->)]; reflexivity.
Qed.

(** X17.  What [writeAggregatedMetadata] writes, [getAggregatedMetadata]
    reads back: if the codec and the compression undo themselves on the
    document and the store answers the read of the key with the value of
    the write request, the document read is the document written. *)
Theorem getAggregatedMetadata_reads_what_was_written
    (w w1 w2 w3 : W) cfg doc name v o req :
  packages.Name doc = Some name →
  json_Marshal doc = Ok v →
  UnGzip (Gzip9Bytes v) = Ok v →
  json_Unmarshal v = Ok doc →
  run h (kv.writeAggregatedMetadata cfg doc) w
  = (o, w1, [KVEncodeAndWriteKVBulk [req]
               (aggregatedMetadataNamespaceID cfg) true]) →
  handle h (KVRead (req_Key req) (aggregatedMetadataNamespaceID cfg)) w2
  = ((req_Value req, None), w3) →
  req_Key req = name
  ∧ run h (kv.getAggregatedMetadata cfg name) w2
    = (Returned (Some doc, None), w3,
       [KVRead name (aggregatedMetadataNamespaceID cfg)]).
Proof.
  intros Hname Hmarshal Hunzip Hdecode Hwrite Hread.
  unfold kv.writeAggregatedMetadata in Hwrite.
  rewrite Hmarshal, Hname in Hwrite. simpl in Hwrite.
  destruct (handle h _ w) as [[keys err] w'].
  injection Hwrite as _ _ <-. cbn [req_Key req_Value] in *.
  split; [done|].
  by rewrite run_getAggregatedMetadata, Hread, Hunzip, Hdecode.
Qed.

(** X18.  The call makes at most two requests, in this order: the read of
    the package's key in the aggregated namespace, then one bulk write of
    one item to the same namespace.  It never writes without having read,
    and never writes twice. *)
Theorem UpdateAggregatedMetadata_requests
    (w : W) cfg pkg newVersion newAssets :
  log_of (run h (kv.UpdateAggregatedMetadata cfg pkg newVersion
                   newAssets) w) = []
  ∨ ∃ name,
      packages.Name pkg = Some name
      ∧ (log_of (run h (kv.UpdateAggregatedMetadata cfg pkg newVersion
                          newAssets) w)
         = [KVRead name (aggregatedMetadataNamespaceID cfg)]
         ∨ ∃ req,
             log_of (run h (kv.UpdateAggregatedMetadata cfg pkg newVersion
                              newAssets) w)
             = [KVRead name (aggregatedMetadataNamespaceID cfg);
                KVEncodeAndWriteKVBulk [req]
                  (aggregatedMetadataNamespaceID cfg) true]).
Proof.
  destruct (packages.Name pkg) as [name|] eqn:Hname.
  2: { left. unfold kv.UpdateAggregatedMetadata. by rewrite Hname. }
  right. exists name. split; [done|].
  unfold kv.UpdateAggregatedMetadata.
  rewrite Hname, run_bind. cbn [kv.deref run].
  rewrite run_bind, run_getAggregatedMetadata.
  destruct (handle h (KVRead name (aggregatedMetadataNamespaceID cfg)) w)
    as [[gz err] w1].
  assert (∀ aggPkg err',
            let r := run h
              (let aggPkg0 := default pkg aggPkg in
               match kv.mergeAssets aggPkg0 err' newVersion newAssets with
               | Ok (aggPkg1, found) =>
                   '(successfulWrites, err0) ←
                     kv.writeAggregatedMetadata cfg aggPkg1;
                   Ret (successfulWrites, found, err0)
               | Err e => Ret ([], false, Some e)
               end) w1 in
            r.2 = [] ∨ ∃ req, r.2 = [KVEncodeAndWriteKVBulk [req]
                                       (aggregatedMetadataNamespaceID cfg)
                                       true]) as Hrest.
  { intros aggPkg err'. cbv zeta.
    destruct (kv.mergeAssets _ err' newVersion newAssets)
      as [[doc found]|e]; [|by left].
    rewrite run_bind. unfold kv.writeAggregatedMetadata.
    destruct (json_Marshal doc) as [v|e];
      destruct (packages.Name doc) as [docName|]; simpl; try by left.
    destruct (handle h _ w1) as [[keys err0] w2]. simpl.
    right. by eexists. }
  unfold log_of.
  destruct err as [e|].
  - specialize (Hrest None (Some e)). cbv zeta in Hrest.
    destruct (run h _ w1) as [[o w2] log]. simpl in *.
    destruct Hrest as [->|[req ->]]; [by left|right; by exists req].
  - destruct (UnGzip gz) as [raw|e]; [|by left].
    destruct (json_Unmarshal raw) as [p|e]; [|by left].
    specialize (Hrest (Some p) None). cbv zeta in Hrest.
    destruct (run h _ w1) as [[o w2] log]. simpl in *.
    destruct Hrest as [->|[req ->]]; [by left|right; by exists req].
Qed.
End aggregator_found.

Lemma UpdateAggregatedMetadata_found_witness :
  packages.Name sample.jquery = Some "jquery"
  ∧ handle (sample.world (sample_more.stored sample_more.jquery350Bytes)
              sample.accepted)
      (KVRead "jquery" (aggregatedMetadataNamespaceID sample.smallConfig)) ()
    = ((sample_more.jquery350Bytes, None), ())
  ∧ UnGzip (Compress := sample.storedCompress) sample_more.jquery350Bytes
    = Ok sample_more.jquery350Bytes
  ∧ json_Unmarshal (JSON := sample_more.linesAggregated)
      sample_more.jquery350Bytes = Ok sample_more.jquery350
  ∧ packages.Name sample_more.jquery350 = Some "jquery"
  ∧ run (sample.world (sample_more.stored sample_more.jquery350Bytes)
           sample.accepted)
      (kv.UpdateAggregatedMetadata
         (json := sample_more.linesAggregated)
         (gzip := sample.storedCompress)
         sample.smallConfig sample.jquery "1.12.4"
         (sample.asset "1.12.4" ["jquery.min.js"])) ()
    = (Returned (["jquery"], true, None), (),
       [KVRead "jquery" "aggregated";
        KVEncodeAndWriteKVBulk
          [ {| req_Name := "jquery"; req_Key := "jquery";
               req_Value :=
                 sample_more.encodeLines
                   (sample_more.packageLines
                      {| packages.Name := Some "jquery";
                         packages.Version := Some "1.12.4";
                         packages.Assets :=
                           [sample.asset "3.5.0" ["jquery.js"];
                            sample.asset "1.12.4" ["jquery.min.js"]];
                         packages.Fields := [("license", "MIT")] |}) |} ]
          "aggregated" true]).
Proof.
  split; [reflexivity|]. split; [reflexivity|]. split; [reflexivity|].
  split; [vm_compute; reflexivity|]. split; [reflexivity|].
  exact (UpdateAggregatedMetadata_found
           (json := sample_more.linesAggregated)
           (gzip := sample.storedCompress)
           (sample.world (sample_more.stored sample_more.jquery350Bytes)
              sample.accepted)
           () () () sample.smallConfig sample.jquery "jquery" "1.12.4"
           (sample.asset "1.12.4" ["jquery.min.js"])
           sample_more.jquery350Bytes sample_more.jquery350Bytes
           sample_more.jquery350 "jquery"
           {| packages.Name := Some "jquery";
              packages.Version := Some "1.12.4";
              packages.Assets :=
                [sample.asset "3.5.0" ["jquery.js"];
                 sample.asset "1.12.4" ["jquery.min.js"]];
              packages.Fields := [("license", "MIT")] |}
           _ ["jquery"] None
           eq_refl eq_refl eq_refl
           ltac:(vm_compute; reflexivity) eq_refl
           ltac:(vm_compute; reflexivity) eq_refl eq_refl).
Defined.

Lemma UpdateAggregatedMetadata_marshal_failure_witness :
  packages.Name sample.jquery = Some "jquery"
  ∧ run (sample.world (sample.notFound "jquery") sample.accepted)
      (kv.getAggregatedMetadata (json := sample_more.brokenJSON)
         (gzip := sample.storedCompress) sample.smallConfig "jquery") ()
    = (Returned (None, Some (KeyNotFoundError "jquery")), (),
       [KVRead "jquery" "aggregated"])
  ∧ run (sample.world (sample.notFound "jquery") sample.accepted)
      (kv.UpdateAggregatedMetadata (json := sample_more.brokenJSON)
         (gzip := sample.storedCompress)
         sample.smallConfig sample.jquery "3.5.0"
         (sample.asset "3.5.0" ["jquery.js"])) ()
    = (Returned
         ([], false,
          Some (errorString "failed to marshal KV package JSON: jquery")),
       (), [KVRead "jquery" "aggregated"]).
Proof.
  split; [reflexivity|]. split; [reflexivity|].
  exact (UpdateAggregatedMetadata_marshal_failure
           (json := sample_more.brokenJSON) (gzip := sample.storedCompress)
           (sample.world (sample.notFound "jquery") sample.accepted)
           () () sample.smallConfig sample.jquery "jquery" "3.5.0"
           (sample.asset "3.5.0" ["jquery.js"])
           None (Some (KeyNotFoundError "jquery")) _ false "jquery"
           (errorString "unsupported value")
           eq_refl eq_refl eq_refl eq_refl eq_refl).
Defined.

Lemma UpdateAggregatedMetadata_undecodable_witness :
  packages.Name sample.jquery = Some "jquery"
  ∧ handle (sample.world (sample_more.stored []) sample.accepted)
      (KVRead "jquery" (aggregatedMetadataNamespaceID sample.smallConfig)) ()
    = (([], None), ())
  ∧ (∃ raw, UnGzip (Compress := sample.storedCompress) [] = Ok raw
            ∧ json_Unmarshal
                (JSON := sample.writeOnlyJSON sample.packageText) raw
              = Err (errorString "not decoded in the examples"))
  ∧ run (sample.world (sample_more.stored []) sample.accepted)
      (kv.UpdateAggregatedMetadata
         (json := sample.writeOnlyJSON sample.packageText)
         (gzip := sample.storedCompress)
         sample.smallConfig sample.jquery "3.5.0"
         (sample.asset "3.5.0" ["jquery.js"])) ()
    = (Panicked (PanicError (errorString "not decoded in the examples")),
       (), [KVRead "jquery" "aggregated"]).
Proof.
  assert (∃ raw, UnGzip (Compress := sample.storedCompress) [] = Ok raw
                 ∧ json_Unmarshal
                     (JSON := sample.writeOnlyJSON sample.packageText) raw
                   = Err (errorString "not decoded in the examples"))
    as Hbad by (by exists []).
  split; [reflexivity|]. split; [reflexivity|]. split; [exact Hbad|].
  exact (UpdateAggregatedMetadata_undecodable
           (json := sample.writeOnlyJSON sample.packageText)
           (gzip := sample.storedCompress)
           (sample.world (sample_more.stored []) sample.accepted)
           () () sample.smallConfig sample.jquery "jquery" "3.5.0"
           (sample.asset "3.5.0" ["jquery.js"]) [] _
           eq_refl eq_refl (or_intror Hbad)).
Defined.

Lemma getAggregatedMetadata_reads_what_was_written_witness :
  packages.Name sample_more.jquery350 = Some "jquery"
  ∧ json_Marshal (JSON := sample_more.linesAggregated) sample_more.jquery350
    = Ok sample_more.jquery350Bytes
  ∧ json_Unmarshal (JSON := sample_more.linesAggregated)
      sample_more.jquery350Bytes = Ok sample_more.jquery350
  ∧ run (sample.world (sample_more.stored sample_more.jquery350Bytes)
           sample.accepted)
      (kv.getAggregatedMetadata (json := sample_more.linesAggregated)
         (gzip := sample.storedCompress) sample.smallConfig "jquery") ()
    = (Returned (Some sample_more.jquery350, None), (),
       [KVRead "jquery" "aggregated"]).
Proof.
  split; [reflexivity|]. split; [reflexivity|].
  split; [vm_compute; reflexivity|].
  exact (proj2 (getAggregatedMetadata_reads_what_was_written
                  (json := sample_more.linesAggregated)
                  (gzip := sample.storedCompress)
                  (sample.world
                     (sample_more.stored sample_more.jquery350Bytes)
                     sample.accepted)
                  () () () () sample.smallConfig sample_more.jquery350
                  "jquery" sample_more.jquery350Bytes
                  (Returned (["jquery"], None))
                  {| req_Name := "jquery"; req_Key := "jquery";
                     req_Value := sample_more.jquery350Bytes |}
                  eq_refl eq_refl eq_refl
                  ltac:(vm_compute; reflexivity) eq_refl eq_refl)).
Defined.

(** ** Base64: length, alphabet, no collisions *)

Lemma get_elem_of (s : string) (i : nat) (c : ascii) :
  String.get i s = Some c → c ∈ String.list_ascii_of_string s.
Proof.
  revert i. induction s as [|d s IH]; intros [|i] Hget; simpl in *;
    try discriminate.
  - injection Hget as ->. by left.
  - right. by eapply IH.
Qed.

Lemma land_63_lt (x : N) : (N.land x 63 < 64)%N.
Proof.
  change 63%N with (N.ones 6). rewrite N.land_ones.
  by apply N.mod_lt.
Qed.

(** Every 6-bit group is written as a character of the alphabet. *)
Lemma sextet_get val s :
  String.get (N.to_nat (N.land (N.shiftr val s) 63)) base64.encodeStd
  = Some (base64.sextet val s).
Proof.
  unfold base64.sextet. pose proof (land_63_lt (N.shiftr val s)) as Hlt.
  set (i := N.land (N.shiftr val s) 63) in *.
  assert (N.to_nat i < 64)%nat as Hnat by lia. clear Hlt.
  generalize dependent (N.to_nat i). intros n Hn.
  do 64 (destruct n as [|n]; [reflexivity|]). lia.
Qed.

Lemma index_sextet val s :
  unbase64.index (base64.sextet val s) = Some (N.land (N.shiftr val s) 63).
Proof.
  unfold base64.sextet. pose proof (land_63_lt (N.shiftr val s)) as Hlt.
  set (i := N.land (N.shiftr val s) 63) in *.
  rewrite <- (N2Nat.id i) at 2.
  assert (N.to_nat i < 64)%nat as Hnat by lia. clear Hlt.
  generalize dependent (N.to_nat i). intros n Hn.
  do 64 (destruct n as [|n]; [reflexivity|]). lia.
Qed.

Lemma sextet_not_pad val s :
  Ascii.eqb (base64.sextet val s) base64.padChar = false.
Proof.
  apply Ascii.eqb_neq. intros Heq.
  pose proof (index_sextet val s) as Hindex. rewrite Heq in Hindex.
  discriminate Hindex.
Qed.

Lemma lor_low (a b n : N) :
  (b < 2 ^ n)%N → N.lor (N.shiftl a n) b = (a * 2 ^ n + b)%N.
Proof.
  intros Hb.
  assert (N.land (N.shiftl a n) b = 0%N) as Hdisjoint.
  { apply N.bits_inj. intros m. rewrite N.land_spec, N.bits_0.
    destruct (N.lt_ge_cases m n) as [Hlt|Hge].
    - by rewrite N.shiftl_spec_low.
    - destruct (decide (b = 0%N)) as [->|Hne].
      + by rewrite N.bits_0, andb_false_r.
      + rewrite (N.bits_above_log2 b m), andb_false_r; [done|].
        apply N.lt_le_trans with n; [|done].
        apply N.log2_lt_pow2; [lia|done]. }
  rewrite <- N.lxor_lor, <- N.add_nocarry_lxor by done.
  by rewrite N.shiftl_mul_pow2.
Qed.

(** The 24-bit group of three bytes, as a number. *)
Lemma group_value (a b c : N) :
  (b < 256)%N → (c < 256)%N →
  base64.group a b c = (a * 65536 + b * 256 + c)%N.
Proof.
  intros Hb Hc. unfold base64.group. rewrite <- N.lor_assoc.
  rewrite (lor_low b c 8) by (change (2 ^ 8)%N with 256%N; lia).
  rewrite (lor_low a _ 16);
    change (2 ^ 8)%N with 256%N; change (2 ^ 16)%N with 65536%N; lia.
Qed.

Lemma sextet_value (val s : N) :
  N.land (N.shiftr val s) 63 = ((val / 2 ^ s) mod 64)%N.
Proof.
  rewrite N.shiftr_div_pow2. change 63%N with (N.ones 6).
  by rewrite N.land_ones.
Qed.

Lemma quantum_arith (A B C : N) :
  (A < 256)%N → (B < 256)%N → (C < 256)%N →
  ((A * 65536 + B * 256 + C) / 262144 mod 64 * 4
   + (A * 65536 + B * 256 + C) / 4096 mod 64 / 16 = A
   ∧ (A * 65536 + B * 256 + C) / 4096 mod 64 mod 16 * 16
     + (A * 65536 + B * 256 + C) / 64 mod 64 / 4 = B
   ∧ (A * 65536 + B * 256 + C) / 64 mod 64 mod 4 * 64
     + (A * 65536 + B * 256 + C) / 1 mod 64 = C)%N.
Proof.
  intros HA HB HC.
  repeat split; zify; Z.to_euclidean_division_equations; lia.
Qed.

Lemma byte_lt_256 (b : byte) : (Byte.to_N b < 256)%N.
Proof. pose proof (Byte.to_N_bounded b). lia. Qed.

(** The indices of the four characters of a group give the bytes back. *)
Lemma quantum_bytes (a b c : byte) (A B C : N) :
  A = Byte.to_N a → B = Byte.to_N b → C = Byte.to_N c →
  Byte.of_N (N.land (N.shiftr (base64.group A B C) 18) 63 * 4
             + N.land (N.shiftr (base64.group A B C) 12) 63 / 16) = Some a
  ∧ Byte.of_N (N.land (N.shiftr (base64.group A B C) 12) 63 mod 16 * 16
               + N.land (N.shiftr (base64.group A B C) 6) 63 / 4) = Some b
  ∧ Byte.of_N (N.land (N.shiftr (base64.group A B C) 6) 63 mod 4 * 64
               + N.land (N.shiftr (base64.group A B C) 0) 63) = Some c.
Proof.
  intros -> -> ->.
  pose proof (byte_lt_256 a). pose proof (byte_lt_256 b).
  pose proof (byte_lt_256 c).
  rewrite !sextet_value, group_value by done.
  change (2 ^ 18)%N with 262144%N. change (2 ^ 12)%N with 4096%N.
  change (2 ^ 6)%N with 64%N. change (2 ^ 0)%N with 1%N.
  destruct (quantum_arith (Byte.to_N a) (Byte.to_N b) (Byte.to_N c))
    as (-> & -> & ->); [done..|].
  by rewrite !Byte.of_to_N.
Qed.

Lemma decodeQuantum_three (a b c : byte) :
  unbase64.decodeQuantum
    (base64.sextet
       (base64.group (Byte.to_N a) (Byte.to_N b) (Byte.to_N c)) 18)
    (base64.sextet
       (base64.group (Byte.to_N a) (Byte.to_N b) (Byte.to_N c)) 12)
    (base64.sextet
       (base64.group (Byte.to_N a) (Byte.to_N b) (Byte.to_N c)) 6)
    (base64.sextet
       (base64.group (Byte.to_N a) (Byte.to_N b) (Byte.to_N c)) 0)
  = Some [a; b; c].
Proof.
  unfold unbase64.decodeQuantum.
  destruct (quantum_bytes a b c _ _ _ eq_refl eq_refl eq_refl)
    as (H0 & H1 & H2).
  rewrite !index_sextet, !sextet_not_pad. cbn [mbind option_bind].
  rewrite H0. cbn [mbind option_bind]. rewrite H1. cbn [mbind option_bind].
  by rewrite H2.
Qed.

Lemma decodeQuantum_two (a b : byte) :
  unbase64.decodeQuantum
    (base64.sextet (base64.group (Byte.to_N a) (Byte.to_N b) 0) 18)
    (base64.sextet (base64.group (Byte.to_N a) (Byte.to_N b) 0) 12)
    (base64.sextet (base64.group (Byte.to_N a) (Byte.to_N b) 0) 6)
    base64.padChar
  = Some [a; b].
Proof.
  unfold unbase64.decodeQuantum.
  destruct (quantum_bytes a b "000"%byte _ _ 0%N eq_refl eq_refl eq_refl)
    as (H0 & H1 & _).
  rewrite !index_sextet, !sextet_not_pad. cbn [mbind option_bind].
  rewrite H0. cbn [mbind option_bind]. by rewrite H1.
Qed.

Lemma decodeQuantum_one (a : byte) :
  unbase64.decodeQuantum
    (base64.sextet (base64.group (Byte.to_N a) 0 0) 18)
    (base64.sextet (base64.group (Byte.to_N a) 0 0) 12)
    base64.padChar base64.padChar
  = Some [a].
Proof.
  unfold unbase64.decodeQuantum.
  destruct (quantum_bytes a "000"%byte "000"%byte _ 0%N 0%N
              eq_refl eq_refl eq_refl) as (H0 & _ & _).
  rewrite !index_sextet. cbn [mbind option_bind]. by rewrite H0.
Qed.

Lemma DecodeString_EncodeToString src :
  unbase64.DecodeString (base64.EncodeToString src) = Some src.
Proof.
  induction src as [|a|a b|a b c l IH] using triples_ind.
  - reflexivity.
  - cbn [base64.EncodeToString unbase64.DecodeString].
    by rewrite decodeQuantum_one.
  - cbn [base64.EncodeToString unbase64.DecodeString].
    by rewrite decodeQuantum_two.
  - cbn [base64.EncodeToString unbase64.DecodeString].
    rewrite decodeQuantum_three. cbn [mbind option_bind]. by rewrite IH.
Qed.

(** X19.  The base64 text of [n] bytes has [4 * ceil(n / 3)] characters,
    so it is never shorter than the value and its length is a multiple of
    four. *)
Theorem encodeToBase64_length (bytes : list byte) :
  String.length (cmdkv.encodeToBase64 bytes)
  = (4 * ((length bytes + 2) / 3))%nat
  ∧ (length bytes ≤ String.length (cmdkv.encodeToBase64 bytes))%nat.
Proof.
  unfold cmdkv.encodeToBase64. rewrite EncodeToString_length.
  pose proof (EncodedLen_ge (length bytes)).
  unfold base64.EncodedLen in *. lia.
Qed.

Lemma EncodeToString_alphabet src :
  Forall (λ c, c ∈ String.list_ascii_of_string base64.encodeStd
               ∨ c = base64.padChar)
    (String.list_ascii_of_string (base64.EncodeToString src)).
Proof.
  assert (∀ val s, base64.sextet val s
                   ∈ String.list_ascii_of_string base64.encodeStd) as Hin.
  { intros val s. eapply get_elem_of, sextet_get. }
  induction src as [|a|a b|a b c l IH] using triples_ind;
    cbn [base64.EncodeToString String.list_ascii_of_string];
    repeat (apply Forall_cons; split; [by (left; apply Hin) || by right|]);
    done || constructor.
Qed.

(** X20.  The text consists of characters of the base64 alphabet and of
    the padding character, all of them 7-bit: its length in characters is
    its length in bytes, which is what [len] measures. *)
Theorem encodeToBase64_alphabet (bytes : list byte) :
  Forall (λ c, (c ∈ String.list_ascii_of_string base64.encodeStd
                ∨ c = base64.padChar)
               ∧ (nat_of_ascii c < 128)%nat)
    (String.list_ascii_of_string (cmdkv.encodeToBase64 bytes)).
Proof.
  eapply Forall_impl; [apply EncodeToString_alphabet|].
  intros c Hc. split; [exact Hc|].
  assert (Forall (λ d, (nat_of_ascii d < 128)%nat)
            (String.list_ascii_of_string base64.encodeStd)) as Hascii
    by (repeat constructor).
  rewrite Forall_forall in Hascii.
  destruct Hc as [Hc| ->]; [by apply Hascii|].
  vm_compute. lia.
Qed.

(** X21.  No two values share an encoding: decoding the text of a value
    group by group gives the value back, so [encodeToBase64] is injective
    and the pairs of a bulk write determine the items they came from. *)
Theorem encodeToBase64_injective :
  (∀ bytes,
     unbase64.DecodeString (cmdkv.encodeToBase64 bytes) = Some bytes)
  ∧ (∀ bytes1 bytes2,
       cmdkv.encodeToBase64 bytes1 = cmdkv.encodeToBase64 bytes2 →
       bytes1 = bytes2)
  ∧ (∀ kv1 kv2,
       cmdkv.encodedPair kv1 = cmdkv.encodedPair kv2 → kv1 = kv2).
Proof.
  assert (∀ bytes1 bytes2,
            cmdkv.encodeToBase64 bytes1 = cmdkv.encodeToBase64 bytes2 →
            bytes1 = bytes2) as Hinj.
  { intros bytes1 bytes2 Heq.
    pose proof (DecodeString_EncodeToString bytes1) as H1.
    unfold cmdkv.encodeToBase64 in Heq. rewrite Heq in H1.
    rewrite DecodeString_EncodeToString in H1. by injection H1. }
  split; [apply DecodeString_EncodeToString|]. split; [exact Hinj|].
  intros [k1 v1] [k2 v2] Heq. unfold cmdkv.encodedPair in Heq.
  simpl in Heq. injection Heq as -> Hv. by rewrite (Hinj _ _ Hv).
Qed.

(** ** The maintenance entry points *)

Section maintenance.
Context {W : Type} (h : AdminHandler W).

Lemma arun_bind {A B : Type} (m : AdminProg A) (f : A → AdminProg B)
    (w : W) :
  arun h (m ≫= f) w
  = match arun h m w with
    | (AReturned a, w1, log1) =>
        let '(o, w2, log2) := arun h (f a) w1 in (o, w2, log1 ++ log2)
    | (APanicked v, w1, log1) => (APanicked v, w1, log1)
    | (AExited r, w1, log1) => (AExited r, w1, log1)
    end.
Proof.
  revert w. induction m as [a|v|r|q k IH]; intros w; simpl.
  - by destruct (arun h (f a) w) as [[o w2] log2].
  - reflexivity.
  - reflexivity.
  - destruct (ahandle h q w) as [x w1].
    change (abind (k x) f) with (k x ≫= f). rewrite IH.
    destruct (arun h (k x) w1) as [[[a|v|r] w2] log1]; [|reflexivity..].
    by destruct (arun h (f a) w2) as [[o w3] log2].
Qed.

(** A program of the first kind runs inside a maintenance program as it
    runs on its own. *)
Lemma arun_lift {R : Type} (p : Prog R) (w : W) :
  arun h (lift p) w
  = let '(o, w1, log) := run (core_of h) p w in (embed o, w1, Core <$> log).
Proof.
  revert w. induction p as [r|v|q k IH]; intros w; simpl; [done..|].
  destruct (ahandle h (Core q) w) as [x w1]. rewrite IH.
  by destruct (run (core_of h) (k x) w1) as [[o w2] log].
Qed.



End maintenance.


Section maintenance_insert.
Context {jsonRoot : JSON cmdkv.Root} {jsonPackage : JSON cmdkv.Package}
  {jsonVersion : JSON cmdkv.Version} {pathLib : Path} {semver : SemVer}.
Context {W : Type} (h : AdminHandler W).

Lemma insertPkgs_beyond cfg basePath i pkgs :
  i > 2 → cmdkv_admin.insertPkgs cfg basePath i pkgs = ARet ().
Proof.
  intros Hi. destruct pkgs as [|pkg rest]; [done|].
  simpl. by rewrite bool_decide_eq_true_2.
Qed.

Lemma insertPkgs_prefix cfg basePath (n : nat) i pkgs :
  i + Z.of_nat n = 3 →
  cmdkv_admin.insertPkgs cfg basePath i pkgs
  = cmdkv_admin.insertPkgs cfg basePath i (take n pkgs).
Proof.
  revert i pkgs. induction n as [|n IH]; intros i pkgs Hi.
  - rewrite take_0. simpl. apply insertPkgs_beyond. lia.
  - destruct pkgs as [|pkg rest]; [done|].
    simpl. rewrite bool_decide_eq_false_2 by lia.
    by rewrite (IH (i + 1) rest) by lia.
Qed.

(** X23.  The loop of [deleteAllAndInsert5Pkgs] handles the first three
    directory entries and returns at the fourth ([i > 2]): whatever follows
    the third entry makes no difference to what the loop does. *)
Theorem insertPkgs_first_three cfg basePath pkgs :
  cmdkv_admin.insertPkgs cfg basePath 0 pkgs
  = cmdkv_admin.insertPkgs cfg basePath 0 (take 3 pkgs)
  ∧ ∀ more,
      cmdkv_admin.insertPkgs cfg basePath 0 (take 3 pkgs ++ more)
      = cmdkv_admin.insertPkgs cfg basePath 0 pkgs
      ∨ (length pkgs < 3)%nat.
Proof.
  split; [by apply (insertPkgs_prefix cfg basePath 3)|].
  intros more.
  destruct (decide (length pkgs < 3)%nat) as [Hshort|Hlong]; [by right|].
  left. rewrite (insertPkgs_prefix cfg basePath 3 0 (take 3 pkgs ++ more))
    by done.
  rewrite take_app_le by (rewrite length_take; lia).
  rewrite take_take, Nat.min_id.
  symmetry. by apply (insertPkgs_prefix cfg basePath 3).
Qed.

(** X24.  Only versions whose names parse as semantic versions are
    inserted: in every world, the loop over the entries of a package
    directory ends as it does on the entries that parse, taken in their
    order, with the same requests; the other entries cause no request. *)
Theorem insertIfSemver_skips_other_names (w : W) cfg basePath pkg versions :
  arun h (aforEach versions (cmdkv_admin.insertIfSemver cfg basePath pkg) ())
    w
  = arun h
      (aforEach
         (filter (λ v, semver_Parse (info_Name v) = None) versions)
         (cmdkv_admin.insertIfSemver cfg basePath pkg) ()) w.
Proof.
  revert w. induction versions as [|v versions IH]; intros w; [done|].
  destruct (semver_Parse (info_Name v)) as [e|] eqn:Hparse.
  - rewrite filter_cons_False by (cbn beta; congruence).
    assert (cmdkv_admin.insertIfSemver cfg basePath pkg () v = ARet ())
      as Hskip by (unfold cmdkv_admin.insertIfSemver; by rewrite Hparse).
    cbn [aforEach]. rewrite Hskip. exact (IH w).
  - rewrite filter_cons_True by (cbn beta; congruence). cbn [aforEach].
    rewrite !(arun_bind h).
    destruct (arun h (cmdkv_admin.insertIfSemver cfg basePath pkg () v) w)
      as [[[[]|pv|r] w1] log1]; [|reflexivity..].
    by rewrite IH.
Qed.

(** X25.  [insertVersionToKV] lists the files of the version first.  If
    the listing fails it panics with that error and nothing is read or
    written.  Otherwise it goes on exactly as [updateKV] does on the listed
    paths. *)
Theorem insertVersionToKV_lists_then_updates
    (w w1 : W) cfg pkg version fullPathToVersion paths err :
  ahandle h (ListFilesInVersion fullPathToVersion) w = ((paths, err), w1) →
  arun h (cmdkv_admin.insertVersionToKV cfg pkg version fullPathToVersion) w
  = match err with
    | Some e =>
        (APanicked (PanicError e), w1,
         [ListFilesInVersion fullPathToVersion])
    | None =>
        let '(o, w2, log) :=
          run (core_of h)
            (cmdkv.updateKV cfg pkg version fullPathToVersion paths) w1 in
        (embed o, w2, ListFilesInVersion fullPathToVersion :: (Core <$> log))
    end.
Proof.
  intros Hlist. unfold cmdkv_admin.insertVersionToKV. simpl.
  rewrite Hlist. destruct err as [e|]; simpl; [done|].
  change (abind (ARet ()) ?f) with (f ()). rewrite arun_lift.
  by destruct (run (core_of h) _ w1) as [[o w2] log].
Qed.

(** X26.  Nothing is inserted unless everything was deleted: when
    [deleteAllEntries] does not return, [deleteAllAndInsert5Pkgs] ends the
    same way with the same requests, and no directory is read. *)
Theorem deleteAllAndInsert5Pkgs_stops_with_deletion
    (w : W) cfg basePath :
  (arun h (cmdkv_admin.deleteAllEntries cfg) w).1.1 ≠ AReturned () →
  (arun h (cmdkv_admin.deleteAllAndInsert5Pkgs cfg basePath) w).2
  = (arun h (cmdkv_admin.deleteAllEntries cfg) w).2
  ∧ (arun h (cmdkv_admin.deleteAllAndInsert5Pkgs cfg basePath) w).1.2
    = (arun h (cmdkv_admin.deleteAllEntries cfg) w).1.2
  ∧ (arun h (cmdkv_admin.deleteAllAndInsert5Pkgs cfg basePath) w).1.1
    = (arun h (cmdkv_admin.deleteAllEntries cfg) w).1.1.
Proof.
  intros Hstop. unfold cmdkv_admin.deleteAllAndInsert5Pkgs.
  rewrite arun_bind.
  destruct (arun h (cmdkv_admin.deleteAllEntries cfg) w)
    as [[[[]|v|r] w1] log]; simpl in *; done.
Qed.
End maintenance_insert.

(** A version with one listed file in a store that has no index yet. *)
Lemma insertVersionToKV_lists_then_updates_witness :
  ahandle (sample_admin.world
             (sample.world (sample.notFound "/") sample.accepted)
             [] sample.accepted [] ["jquery.min.js"])
    (ListFilesInVersion "/libs/jquery/3.5.0") ()
  = ((["jquery.min.js"], None), ())
  ∧ arun (sample_admin.world
            (sample.world (sample.notFound "/") sample.accepted)
            [] sample.accepted [] ["jquery.min.js"])
      (cmdkv_admin.insertVersionToKV
         (jsonRoot := sample.rootJSON) (jsonPackage := sample.versionsJSON)
         (jsonVersion := sample.filesJSON) (pathLib := sample.joinPath)
         sample.smallConfig "jquery" "3.5.0" "/libs/jquery/3.5.0") ()
    = let '(o, w2, log) :=
        run (core_of (sample_admin.world
                        (sample.world (sample.notFound "/") sample.accepted)
                        [] sample.accepted [] ["jquery.min.js"]))
          (cmdkv.updateKV
             (jsonRoot := sample.rootJSON)
             (jsonPackage := sample.versionsJSON)
             (jsonVersion := sample.filesJSON) (pathLib := sample.joinPath)
             sample.smallConfig "jquery" "3.5.0" "/libs/jquery/3.5.0"
             ["jquery.min.js"]) () in
      (embed o, w2,
       ListFilesInVersion "/libs/jquery/3.5.0" :: (Core <$> log)).
Proof.
  split; [reflexivity|].
  exact (insertVersionToKV_lists_then_updates
           (jsonRoot := sample.rootJSON)
           (jsonPackage := sample.versionsJSON)
           (jsonVersion := sample.filesJSON) (pathLib := sample.joinPath)
           (sample_admin.world
              (sample.world (sample.notFound "/") sample.accepted)
              [] sample.accepted [] ["jquery.min.js"])
           () () sample.smallConfig "jquery" "3.5.0" "/libs/jquery/3.5.0"
           ["jquery.min.js"] None eq_refl).
Defined.

(** The store lists two keys and refuses deletions: the process exits at
    the first deletion, and no directory is read. *)
Lemma deleteAllAndInsert5Pkgs_stops_with_deletion_witness :
  (arun (sample_admin.world
           (sample.world (sample.notFound "/") sample.accepted)
           ["/"; "jquery"] sample_more.refused
           [{| info_Name := "jquery"; info_IsDir := true |}]
           ["jquery.min.js"])
     (cmdkv_admin.deleteAllEntries sample.smallConfig) ()).1.1
  ≠ AReturned ()
  ∧ (arun (sample_admin.world
             (sample.world (sample.notFound "/") sample.accepted)
             ["/"; "jquery"] sample_more.refused
             [{| info_Name := "jquery"; info_IsDir := true |}]
             ["jquery.min.js"])
       (cmdkv_admin.deleteAllAndInsert5Pkgs
          (jsonRoot := sample.rootJSON)
          (jsonPackage := sample.versionsJSON)
          (jsonVersion := sample.filesJSON) (pathLib := sample.joinPath)
          (semver := sample_admin.digitSemVer)
          sample.smallConfig "/libs") ()).2
    = [ListWorkersKVs "files"; DeleteWorkersKV "files" "/"].
Proof.
  assert ((arun (sample_admin.world
                   (sample.world (sample.notFound "/") sample.accepted)
                   ["/"; "jquery"] sample_more.refused
                   [{| info_Name := "jquery"; info_IsDir := true |}]
                   ["jquery.min.js"])
             (cmdkv_admin.deleteAllEntries sample.smallConfig) ()).1.1
          ≠ AReturned ()) as Hstop by (vm_compute; discriminate).
  split; [exact Hstop|].
  destruct (deleteAllAndInsert5Pkgs_stops_with_deletion
              (jsonRoot := sample.rootJSON)
              (jsonPackage := sample.versionsJSON)
              (jsonVersion := sample.filesJSON) (pathLib := sample.joinPath)
              (semver := sample_admin.digitSemVer)
              (sample_admin.world
                 (sample.world (sample.notFound "/") sample.accepted)
                 ["/"; "jquery"] sample_more.refused
                 [{| info_Name := "jquery"; info_IsDir := true |}]
                 ["jquery.min.js"])
              () sample.smallConfig "/libs" Hstop) as (Hlog & _ & _).
  rewrite Hlog. vm_compute. reflexivity.
Defined.
